(** * MCP tool enumeration service: a shallow embedding and its properties

    The development follows the layout of the Python packages:
    - [Py]                 the Python values and built-ins the code relies on;
    - [mcp_config]         domain/entities/mcp_config.py;
    - [dtos]               domain/dto/tool_enumeration_dtos.py;
    - [interfaces]         domain/interfaces/tool_discovery_interfaces.py;
    - [mcp_json_strategy]  strategies/mcp_json_strategy.py;
    - [service]            tool_enumeration_service/service.py;
    - [pydantic], [httpx]  the library behaviour the strategies lean on;
    - [http_strategy]      strategies/http_strategy.py;
    - [stdio_strategy]     strategies/stdio_strategy.py;
    - [container]          app/container.py.

    Everything outside the interpreter (HTTP peers, child processes, the
    clock) is an explicit oracle argument of the function that talks to it.
    The properties come after the definitions, one section per component. *)

From Stdlib Require Import List String Ascii ZArith Bool Lia DecimalString.
Import ListNotations.
Local Open Scope list_scope.
Local Open Scope string_scope.
Set Warnings "-register-all".

(* ================================================================== *)
(** ** Python values and built-ins *)
(* ================================================================== *)

Module Py.

(** Decoded JSON, as [json.loads] and [response.json()] hand it to the code.
    A [dict] keeps its insertion order, so an object is an association list
    (keys are distinct in a decoded document).  Numbers are integers: the
    code only looks at their type and truthiness. *)
Inductive json : Type :=
| JNull
| JBool (b : bool)
| JNum (z : Z)
| JStr (s : string)
| JArr (items : list json)
| JObj (fields : list (string * json)).

Definition dict := list (string * json).

(** [bool(v)]: [None], [False], [0], the empty string, [[]] and [{}] are
    falsy. *)
Definition truthy (v : json) : bool :=
  match v with
  | JNull => false
  | JBool b => b
  | JNum z => negb (z =? 0)%Z
  | JStr s => negb (s =? EmptyString)
  | JArr l => match l with [] => false | _ => true end
  | JObj d => match d with [] => false | _ => true end
  end.

(** Truthiness of an [Optional[str]] attribute: [None] and the empty string
    are falsy. *)
Definition truthy_str (o : option string) : bool :=
  match o with
  | Some s => negb (s =? EmptyString)
  | None => false
  end.

(** Truthiness of an optional container ([None] and empty are falsy). *)
Definition truthy_list {A : Type} (o : option (list A)) : bool :=
  match o with
  | Some (_ :: _) => true
  | _ => false
  end.

(** [d[k]] as an option. *)
Fixpoint lookup (d : dict) (k : string) : option json :=
  match d with
  | [] => None
  | (k', v) :: rest => if k' =? k then Some v else lookup rest k
  end.

(** [k in d] for a dict. *)
Definition has_key (d : dict) (k : string) : bool :=
  match lookup d k with Some _ => true | None => false end.

(** [d.get(k, default)]. *)
Definition get_default (d : dict) (k : string) (default : json) : json :=
  match lookup d k with Some v => v | None => default end.

(** [d.get(k)]. *)
Definition get (d : dict) (k : string) : json := get_default d k JNull.

(** [list(d.keys())]. *)
Definition keys (d : dict) : list string := map fst d.

(** [str(n)] for an [int]. *)
Definition str_int (z : Z) : string := NilZero.string_of_int (Z.to_int z).

(** [s.startswith(p)]. *)
Definition startswith (s p : string) : bool := String.prefix p s.

(** [sub in s] for two strings. *)
Fixpoint contains (s sub : string) : bool :=
  if String.prefix sub s then true
  else match s with
       | EmptyString => false
       | String _ rest => contains rest sub
       end.

(** [s.lower()] on ASCII letters. *)
Definition lower_ascii (c : ascii) : ascii :=
  let n := nat_of_ascii c in
  if andb (65 <=? n)%nat (n <=? 90)%nat then ascii_of_nat (n + 32) else c.

Fixpoint lower (s : string) : string :=
  match s with
  | EmptyString => EmptyString
  | String c rest => String (lower_ascii c) (lower rest)
  end.

(** [s.rstrip(c)]: drop every trailing occurrence of the character. *)
Fixpoint rstrip (c : ascii) (s : string) : string :=
  match s with
  | EmptyString => EmptyString
  | String a rest =>
      match rstrip c rest with
      | EmptyString => if Ascii.eqb a c then EmptyString else String a EmptyString
      | r => String a r
      end
  end.

(** [" ".join(l)]. *)
Fixpoint join (sep : string) (l : list string) : string :=
  match l with
  | [] => EmptyString
  | [x] => x
  | x :: rest => x ++ sep ++ join sep rest
  end.

(** [x in v] where [x] is a string and [v] any decoded value: key test on a
    dict, membership on a list, substring on a string, [TypeError] (here
    [None]) on anything else. *)
Definition str_in (x : string) (v : json) : option bool :=
  match v with
  | JObj d => Some (has_key d x)
  | JArr l => Some (existsb (fun e => match e with JStr s => s =? x | _ => false end) l)
  | JStr s => Some (contains s x)
  | _ => None
  end.

(** What a [for] loop iterates over: the items of a list, the keys of a
    dict, the characters of a string; other values are not iterable. *)
Definition iter (v : json) : option (list json) :=
  match v with
  | JArr l => Some l
  | JObj d => Some (map JStr (keys d))
  | JStr s => Some (map (fun c => JStr (String c EmptyString)) (list_ascii_of_string s))
  | _ => None
  end.

(** [dict.update]: later bindings override, new keys go last. *)
Fixpoint update1 (d : list (string * string)) (k v : string) : list (string * string) :=
  match d with
  | [] => [(k, v)]
  | (k', v') :: rest => if k' =? k then (k, v) :: rest else (k', v') :: update1 rest k v
  end.

Definition update (d extra : list (string * string)) : list (string * string) :=
  fold_left (fun acc kv => update1 acc (fst kv) (snd kv)) extra d.

(** [type(v).__name__]. *)
Definition type_name (v : json) : string :=
  match v with
  | JNull => "NoneType"
  | JBool _ => "bool"
  | JNum _ => "int"
  | JStr _ => "str"
  | JArr _ => "list"
  | JObj _ => "dict"
  end.

(** The [Exception] subclasses the code distinguishes, each with its
    [str()].  [TimeoutError] is [asyncio.TimeoutError]; [Exception msg]
    stands for any class the code has no dedicated handler for. *)
Inductive exn : Type :=
| TimeoutError
| BrokenPipeError (msg : string)
| JSONDecodeError (msg : string)
| TimeoutExpired (msg : string)
| KeyError (msg : string)
| Exception (msg : string).

Definition str_exn (e : exn) : string :=
  match e with
  | TimeoutError => EmptyString
  | BrokenPipeError msg => msg
  | JSONDecodeError msg => msg
  | TimeoutExpired msg => msg
  | KeyError msg => msg
  | Exception msg => msg
  end.

(** A coroutine awaited by the caller: when it settles (milliseconds after it
    was started, [None] if it never does), what it settles with, and for how
    long its cleanup holds the event loop with a blocking call when it ends
    or is cancelled (no time at all for a coroutine that only awaits). *)
Record awaitable (A : Type) : Type := mk_coroutine {
  settles_after_ms : option Z;
  yields : A + exn;
  blocks_at_exit_ms : Z
}.
Arguments mk_coroutine {A} _ _ _.
Arguments settles_after_ms {A} _.
Arguments yields {A} _.
Arguments blocks_at_exit_ms {A} _.

(** A coroutine that never blocks the loop. *)
Abbreviation mk_awaitable settles result := (mk_coroutine settles result 0%Z).

(** [asyncio.wait_for(aw, timeout)]: the awaited result when it settles
    within [timeout] seconds, [asyncio.TimeoutError] once the deadline is
    exceeded. *)
Definition wait_for {A : Type} (aw : awaitable A) (timeout : Z) : A + exn :=
  match settles_after_ms aw with
  | Some t => if (t <=? timeout * 1000)%Z then yields aw else inr TimeoutError
  | None => inr TimeoutError
  end.

(** The deadline of [wait_for] is exceeded. *)
Definition exceeds_deadline {A : Type} (aw : awaitable A) (timeout : Z) : Prop :=
  match settles_after_ms aw with
  | Some t => (timeout * 1000 < t)%Z
  | None => True
  end.

End Py.

(* ================================================================== *)
(** ** domain/entities/mcp_config.py *)
(* ================================================================== *)

Module mcp_config.

(** [McpServerConfig]: every field is optional. *)
Record McpServerConfig : Type := mk_McpServerConfig {
  command : option string;
  args : option (list string);
  env : option (list (string * string));
  url : option string;
  headers : option (list (string * string));
  timeout : option Z
}.

(** [McpJsonConfig.mcpServers]: server name to configuration, in the order
    of the configuration document. *)
Record McpJsonConfig : Type := mk_McpJsonConfig {
  mcpServers : list (string * McpServerConfig)
}.

End mcp_config.

(* ================================================================== *)
(** ** domain/dto/tool_enumeration_dtos.py *)
(* ================================================================== *)

Module dtos.
Import Py.

Inductive ToolDiscoveryMethod : Type :=
| MCP_JSON_PARSING
| HTTP_DISCOVERY
| STDIO_INTROSPECTION
| COMBINED.

Inductive ServerTransportType : Type :=
| STDIO
| HTTP
| SSE
| WEBSOCKET
| UNKNOWN.

(** [ToolDiscoveryMethod(...).value]. *)
Definition method_value (m : ToolDiscoveryMethod) : string :=
  match m with
  | MCP_JSON_PARSING => "mcp_json_parsing"
  | HTTP_DISCOVERY => "http_discovery"
  | STDIO_INTROSPECTION => "stdio_introspection"
  | COMBINED => "combined"
  end.

(** [ServerTransportType(...).value]. *)
Definition transport_value (t : ServerTransportType) : string :=
  match t with
  | STDIO => "stdio"
  | HTTP => "http"
  | SSE => "sse"
  | WEBSOCKET => "websocket"
  | UNKNOWN => "unknown"
  end.

Module ToolParameter.
Record t : Type := mk {
  name : string;
  type : string;
  description : option string;
  required : bool;
  default : json;
  enum : option (list json)
}.
End ToolParameter.

Module ToolSchema.
Record t : Type := mk {
  type : string;
  properties : list (string * ToolParameter.t);
  required : list string;
  additionalProperties : bool
}.
End ToolSchema.

Module EnumeratedTool.
Record t : Type := mk {
  name : string;
  description : option string;
  server_name : string;
  transport_type : ServerTransportType;
  input_schema : option ToolSchema.t;
  metadata : dict;
  discovery_method : ToolDiscoveryMethod;
  discovery_timestamp : string
}.

(** [tool.input_schema = v], every other attribute untouched. *)
Definition set_input_schema (tool : t) (v : option ToolSchema.t) : t :=
  mk (name tool) (description tool) (server_name tool) (transport_type tool)
     v (metadata tool) (discovery_method tool) (discovery_timestamp tool).
End EnumeratedTool.

Module ServerEnumerationResult.
Record t : Type := mk {
  server_name : string;
  transport_type : ServerTransportType;
  server_url : option string;
  command : option string;
  tools : list EnumeratedTool.t;
  errors : list string;
  warnings : list string;
  discovery_duration_ms : option Z
}.
End ServerEnumerationResult.

Module ServerResult.
Record t : Type := mk {
  name : string;
  status : string;
  tool_count : Z;
  error : option string
}.
End ServerResult.

Module SimplifiedTool.
Record t : Type := mk {
  server : string;
  name : string;
  description : option string;
  inputSchema : option dict
}.
End SimplifiedTool.

Module ToolEnumerationRequest.
Record t : Type := mk {
  mcp_json : mcp_config.McpJsonConfig;
  timeout_seconds : Z;
  include_schemas : bool;
  parallel_discovery : bool
}.

(** The bounds pydantic enforces on construction:
    [timeout_seconds: int = Field(30, ge=5, le=300)]. *)
Definition valid (r : t) : Prop := (5 <= timeout_seconds r <= 300)%Z.
End ToolEnumerationRequest.

Module ToolEnumerationResponse.
Record t : Type := mk {
  status : string;
  message : string;
  timestamp : string;
  servers : list ServerResult.t;
  tools : list SimplifiedTool.t;
  total_servers : Z;
  connected_servers : Z
}.
End ToolEnumerationResponse.

(** An optional string as a JSON value. *)
Definition json_of_opt_str (o : option string) : json :=
  match o with Some s => JStr s | None => JNull end.

(** [ToolParameter.dict()]. *)
Definition ToolParameter_dict (p : ToolParameter.t) : dict :=
  [ ("name", JStr (ToolParameter.name p));
    ("type", JStr (ToolParameter.type p));
    ("description", json_of_opt_str (ToolParameter.description p));
    ("required", JBool (ToolParameter.required p));
    ("default", ToolParameter.default p);
    ("enum", match ToolParameter.enum p with Some l => JArr l | None => JNull end) ].

(** [ToolSchema.dict()]: nested models are turned into dicts as well. *)
Definition ToolSchema_dict (s : ToolSchema.t) : dict :=
  [ ("type", JStr (ToolSchema.type s));
    ("properties",
     JObj (map (fun kv => (fst kv, JObj (ToolParameter_dict (snd kv))))
               (ToolSchema.properties s)));
    ("required", JArr (map JStr (ToolSchema.required s)));
    ("additionalProperties", JBool (ToolSchema.additionalProperties s)) ].

End dtos.

(* ================================================================== *)
(** ** domain/interfaces/tool_discovery_interfaces.py *)
(* ================================================================== *)

Module interfaces.
Import Py mcp_config dtos.

(** What [discover_tools] returns: [(tools, errors, warnings)]. *)
Definition discovery : Type :=
  (list EnumeratedTool.t * list string * list string)%type.

(** [IToolDiscoveryStrategy]: the two abstract methods.  [discover_tools] is
    a coroutine, so calling it gives an awaitable. *)
Record IToolDiscoveryStrategy : Type := mk_strategy {
  discover_tools : string -> McpServerConfig -> Z -> awaitable discovery;
  get_transport_type : McpServerConfig -> ServerTransportType
}.

End interfaces.

(* ================================================================== *)
(** ** strategies/mcp_json_strategy.py *)
(* ================================================================== *)

Module mcp_json_strategy.
Import Py mcp_config dtos interfaces.

Section McpJsonParsingStrategy.

(** [datetime.utcnow().isoformat()] at the time of the call. *)
Variable utcnow : string.

Definition get_transport_type (server_config : McpServerConfig)
  : ServerTransportType :=
  if truthy_str (url server_config) then HTTP
  else if truthy_str (command server_config) then STDIO
  else UNKNOWN.

Definition _extract_server_url (server_config : McpServerConfig)
  : option string :=
  if truthy_str (url server_config) then url server_config
  else if truthy_str (command server_config) && truthy_list (args server_config)
  then
    find (fun arg => startswith arg "https://" || startswith arg "http://")
         (match args server_config with Some l => l | None => [] end)
  else None.

(** The body of [discover_tools].  Nothing inside the [try] block can
    raise on a validated [McpServerConfig], so [errors] stays empty. *)
Definition discover (server_name : string) (server_config : McpServerConfig)
           (timeout_seconds : Z) : discovery :=
  let server_url := _extract_server_url server_config in
  let basic_tool :=
    EnumeratedTool.mk
      (server_name ++ "_config")
      (Some ("Configuration-based tool for " ++ server_name))
      server_name
      (get_transport_type server_config)
      None
      [ ("source", JStr "mcp_json_config");
        ("command", json_of_opt_str (command server_config));
        ("url", json_of_opt_str server_url);
        ("args", match args server_config with
                 | Some l => JArr (map JStr l)
                 | None => JNull
                 end);
        ("env", match env server_config with
                | Some e => JObj (map (fun kv => (fst kv, JStr (snd kv))) e)
                | None => JNull
                end);
        ("note", JStr "Fallback tool created from MCP JSON configuration") ]
      MCP_JSON_PARSING
      utcnow in
  ([basic_tool],
   [],
   ["Created fallback tool from MCP JSON config for " ++ server_name]).

(** The coroutine never suspends: it settles at once. *)
Definition discover_tools (server_name : string)
           (server_config : McpServerConfig) (timeout_seconds : Z)
  : awaitable discovery :=
  mk_awaitable (Some 0%Z) (inl (discover server_name server_config timeout_seconds)).

Definition McpJsonParsingStrategy : IToolDiscoveryStrategy :=
  mk_strategy discover_tools get_transport_type.

End McpJsonParsingStrategy.

End mcp_json_strategy.

(* ================================================================== *)
(** ** tool_enumeration_service/service.py *)
(* ================================================================== *)

Module service.
Import Py mcp_config dtos interfaces.

(** [repr] of a [ToolDiscoveryMethod] member, the text of a [KeyError]. *)
Definition repr_method (m : ToolDiscoveryMethod) : string :=
  match m with
  | MCP_JSON_PARSING => "<ToolDiscoveryMethod.MCP_JSON_PARSING: 'mcp_json_parsing'>"
  | HTTP_DISCOVERY => "<ToolDiscoveryMethod.HTTP_DISCOVERY: 'http_discovery'>"
  | STDIO_INTROSPECTION => "<ToolDiscoveryMethod.STDIO_INTROSPECTION: 'stdio_introspection'>"
  | COMBINED => "<ToolDiscoveryMethod.COMBINED: 'combined'>"
  end.

(** The three accumulators of the first phase of [enumerate_tools]:
    [servers], [all_tools] and [global_errors]. *)
Record collected : Type := mk_collected {
  servers : list ServerEnumerationResult.t;
  all_tools : list EnumeratedTool.t;
  global_errors : list string
}.

(** The accumulators of the second phase: [simplified_servers],
    [simplified_tools] and [connected_count]. *)
Record simplified : Type := mk_simplified {
  simplified_servers : list ServerResult.t;
  simplified_tools : list SimplifiedTool.t;
  connected_count : Z
}.

Section ToolEnumerationService.

(** [self._strategies]: the dict handed to the constructor. *)
Variable _strategies : ToolDiscoveryMethod -> option IToolDiscoveryStrategy.

(** [datetime.utcnow().isoformat()] when the response is built. *)
Variable utcnow : string.

(** [self._strategies[key]]. *)
Definition subscript (key : ToolDiscoveryMethod) : IToolDiscoveryStrategy + exn :=
  match _strategies key with
  | Some s => inl s
  | None => inr (KeyError (repr_method key))
  end.

Definition _auto_select_strategy (server_config : McpServerConfig)
  : IToolDiscoveryStrategy + exn :=
  if truthy_str (url server_config) then subscript HTTP_DISCOVERY
  else if truthy_str (command server_config) then subscript STDIO_INTROSPECTION
  else subscript MCP_JSON_PARSING.

Definition _extract_server_url (server_config : McpServerConfig)
  : option string :=
  if truthy_str (url server_config) then url server_config
  else if truthy_str (command server_config) && truthy_list (args server_config)
  then
    find (fun arg => startswith arg "https://" || startswith arg "http://")
         (match args server_config with Some l => l | None => [] end)
  else None.

(** The result built by the [except asyncio.TimeoutError] clause. *)
Definition timeout_result (server_name : string) (server_config : McpServerConfig)
           (timeout_seconds : Z) : ServerEnumerationResult.t :=
  ServerEnumerationResult.mk
    server_name UNKNOWN (_extract_server_url server_config)
    (command server_config)
    []
    ["Discovery timeout after " ++ str_int timeout_seconds ++ " seconds"]
    []
    (Some (timeout_seconds * 1000)%Z).

(** The result built by the [except Exception as e] clause. *)
Definition failure_result (server_name : string) (server_config : McpServerConfig)
           (e : exn) : ServerEnumerationResult.t :=
  ServerEnumerationResult.mk
    server_name UNKNOWN (_extract_server_url server_config)
    (command server_config)
    []
    ["Discovery failed: " ++ str_exn e]
    []
    (Some 0%Z).

(** Time between [start_time] and [end_time]: what the awaited coroutine
    took. *)
Definition duration_ms {A : Type} (aw : awaitable A) : Z :=
  match settles_after_ms aw with Some t => t | None => 0%Z end.

Definition _enumerate_server_tools (server_name : string)
           (server_config : McpServerConfig) (timeout_seconds : Z)
           (include_schemas : bool) : ServerEnumerationResult.t :=
  match _auto_select_strategy server_config with
  | inr TimeoutError => timeout_result server_name server_config timeout_seconds
  | inr e => failure_result server_name server_config e
  | inl strategy =>
      let coro := discover_tools strategy server_name server_config timeout_seconds in
      match wait_for coro timeout_seconds with
      | inl (tools, errors, warnings) =>
          let tools :=
            if negb include_schemas
            then map (fun tool => EnumeratedTool.set_input_schema tool None) tools
            else tools in
          ServerEnumerationResult.mk
            server_name
            (get_transport_type strategy server_config)
            (_extract_server_url server_config)
            (command server_config)
            tools errors warnings
            (Some (duration_ms coro))
      | inr TimeoutError =>
          timeout_result server_name server_config timeout_seconds
      | inr e =>
          failure_result server_name server_config e
      end
  end.

(** *** The per-server call as one task among others

    [asyncio.gather] runs the per-server coroutines as tasks of the one
    event loop.  A task that is suspended in an [await] is resumed when
    what it waits for is there and the loop is free; a sibling that makes a
    blocking call holds the loop for that long. *)

(** The discovery the per-server call awaits, when a strategy can be
    looked up. *)
Definition discovery_of (server_name : string) (server_config : McpServerConfig)
           (timeout_seconds : Z) : option (awaitable discovery) :=
  match _auto_select_strategy server_config with
  | inl strategy => Some (discover_tools strategy server_name server_config timeout_seconds)
  | inr _ => None
  end.

(** When the [await] of the per-server call is over, in milliseconds after
    the tasks were started: when the discovery settles or, failing that, at
    the deadline of [wait_for]; at once when nothing is awaited. *)
Definition comes_due_ms (server_name : string) (server_config : McpServerConfig)
           (timeout_seconds : Z) : Z :=
  match discovery_of server_name server_config timeout_seconds with
  | Some coro =>
      match settles_after_ms coro with
      | Some t => if (t <=? timeout_seconds * 1000)%Z then t else (timeout_seconds * 1000)%Z
      | None => (timeout_seconds * 1000)%Z
      end
  | None => 0%Z
  end.

(** For how long the task then holds the loop: the blocking cleanup of its
    discovery, which runs when the discovery ends and when it is
    cancelled. *)
Definition holds_loop_ms (server_name : string) (server_config : McpServerConfig)
           (timeout_seconds : Z) : Z :=
  match discovery_of server_name server_config timeout_seconds with
  | Some coro => Z.max 0 (blocks_at_exit_ms coro)
  | None => 0%Z
  end.

(** A discovery that was suspended and settled within the deadline, but
    while the loop was held until [free_at], at or after the deadline: the
    timeout callback of [wait_for] is due as well and runs before the task
    is resumed, so the discovery is cancelled.  A discovery that never
    suspends ends in its first step, before any timer. *)
Definition starved (coro : awaitable discovery) (timeout_seconds : Z) (free_at : Z)
  : bool :=
  match settles_after_ms coro with
  | Some t =>
      (0 <? t)%Z && (t <=? timeout_seconds * 1000)%Z
      && (t <? free_at)%Z && (timeout_seconds * 1000 <=? free_at)%Z
  | None => false
  end.

(** [_enumerate_server_tools] run as a task that finds the loop held until
    [free_at]. *)
Definition _enumerate_server_tools_on_loop (free_at : Z) (server_name : string)
           (server_config : McpServerConfig) (timeout_seconds : Z)
           (include_schemas : bool) : ServerEnumerationResult.t :=
  match discovery_of server_name server_config timeout_seconds with
  | Some coro =>
      if starved coro timeout_seconds free_at
      then timeout_result server_name server_config timeout_seconds
      else _enumerate_server_tools server_name server_config timeout_seconds
                                   include_schemas
  | None =>
      _enumerate_server_tools server_name server_config timeout_seconds include_schemas
  end.

(** *** The event loop *)

(** A task as the loop sees it: its index, when it comes due and for how
    long it then holds the loop. *)
Definition pending_task : Type := (nat * (Z * Z))%type.

(** The first of the pending tasks to come due; of two that come due
    together, the one created first. *)
Fixpoint earliest (pending : list pending_task) : option pending_task :=
  match pending with
  | [] => None
  | p :: rest =>
      match earliest rest with
      | Some q => if (fst (snd q) <? fst (snd p))%Z then Some q else Some p
      | None => Some p
      end
  end.

(** The loop serves the pending tasks in the order in which they come due;
    a task is served when it is due and the loop is free, and then holds
    the loop for its cleanup.  The result is the time until which the loop
    was held when the turn of task [j] comes. *)
Fixpoint serve (fuel : nat) (pending : list pending_task) (now : Z) (j : nat) : Z :=
  match fuel with
  | O => now
  | Datatypes.S fuel' =>
      match earliest pending with
      | None => now
      | Some (i, (due, holds)) =>
          if (i =? j)%nat then now
          else serve fuel'
                     (filter (fun p => negb (fst p =? i)%nat) pending)
                     (Z.max now due + holds)%Z j
      end
  end.

Definition loop_free_at (timeline : list (Z * Z)) (j : nat) : Z :=
  serve (List.length timeline) (combine (seq 0 (List.length timeline)) timeline) 0%Z j.

(** *** First phase of [enumerate_tools]: one result per server *)

Section Collect.

(** One per-server call awaited on its own: a result, or the exception it
    raised. *)
Variable task : string -> McpServerConfig -> ServerEnumerationResult.t + exn.

(** The same call as a task of [gather], given the time until which the
    loop is held when its turn comes; and when it comes due and for how
    long it holds the loop itself. *)
Variable task_on_loop : Z -> string -> McpServerConfig -> ServerEnumerationResult.t + exn.
Variable timeline : string -> McpServerConfig -> Z * Z.

Definition on_result (acc : collected) (result : ServerEnumerationResult.t)
  : collected :=
  mk_collected (servers acc ++ [result])%list
               (all_tools acc ++ ServerEnumerationResult.tools result)%list
               (global_errors acc).

Definition on_exception (acc : collected) (server_name : string) (e : exn)
  : collected :=
  mk_collected (servers acc) (all_tools acc)
               (global_errors acc
                ++ [("Server " ++ server_name ++ " enumeration failed: "
                     ++ str_exn e)%string])%list.

(** [asyncio.gather] over the tasks with [return_exceptions=True]: the
    tasks share the loop, every task runs to its end and the results come
    back in the order of the tasks. *)
Definition gather (items : list (string * McpServerConfig))
  : list (ServerEnumerationResult.t + exn) :=
  let times := map (fun item => timeline (fst item) (snd item)) items in
  map (fun indexed =>
         task_on_loop (loop_free_at times (fst indexed))
                      (fst (snd indexed)) (snd (snd indexed)))
      (combine (seq 0 (List.length items)) items).

(** [for i, result in enumerate(results)], from index [i] on.  The key
    list is as long as the result list, so [list(keys)[i]] is in range. *)
Fixpoint parallel_loop (server_names : list string) (i : nat)
         (results : list (ServerEnumerationResult.t + exn))
         (acc : collected) : collected :=
  match results with
  | [] => acc
  | inr e :: rest =>
      let server_name := nth i server_names EmptyString in
      parallel_loop server_names (S i) rest (on_exception acc server_name e)
  | inl result :: rest =>
      parallel_loop server_names (S i) rest (on_result acc result)
  end.

(** [for server_name, server_config in mcp_json.mcpServers.items()] with
    its [try]/[except]. *)
Fixpoint sequential_loop (items : list (string * McpServerConfig))
         (acc : collected) : collected :=
  match items with
  | [] => acc
  | (server_name, server_config) :: rest =>
      match task server_name server_config with
      | inl result => sequential_loop rest (on_result acc result)
      | inr e => sequential_loop rest (on_exception acc server_name e)
      end
  end.

Definition collect (mcpServers : list (string * McpServerConfig))
           (parallel_discovery : bool) : collected :=
  let start := mk_collected [] [] [] in
  if parallel_discovery then
    let results := gather mcpServers in
    parallel_loop (map fst mcpServers) 0 results start
  else
    sequential_loop mcpServers start.

End Collect.

(** *** Second phase: the simplified report *)

Definition server_status (server : ServerEnumerationResult.t) : string :=
  match ServerEnumerationResult.errors server with
  | [] => "connected"
  | _ :: _ => "error"
  end.

Definition simplify_tool (server : ServerEnumerationResult.t)
           (tool : EnumeratedTool.t) : SimplifiedTool.t :=
  SimplifiedTool.mk
    (ServerEnumerationResult.server_name server)
    (EnumeratedTool.name tool)
    (EnumeratedTool.description tool)
    (match EnumeratedTool.input_schema tool with
     | Some schema => Some (ToolSchema_dict schema)
     | None => None
     end).

(** One iteration of [for server in servers]. *)
Definition simplify_server (acc : simplified) (server : ServerEnumerationResult.t)
  : simplified :=
  let status := server_status server in
  let connected_count :=
    if status =? "connected" then (connected_count acc + 1)%Z
    else connected_count acc in
  let simplified_server :=
    ServerResult.mk
      (ServerEnumerationResult.server_name server)
      status
      (Z.of_nat (List.length (ServerEnumerationResult.tools server)))
      (match ServerEnumerationResult.errors server with
       | e :: _ => Some e
       | [] => None
       end) in
  mk_simplified
    (simplified_servers acc ++ [simplified_server])%list
    (simplified_tools acc
     ++ map (simplify_tool server) (ServerEnumerationResult.tools server))%list
    connected_count.

Definition simplify (servers : list ServerEnumerationResult.t) : simplified :=
  fold_left simplify_server servers (mk_simplified [] [] 0%Z).

Definition build_response (mcpServers : list (string * McpServerConfig))
           (servers : list ServerEnumerationResult.t) : ToolEnumerationResponse.t :=
  let s := simplify servers in
  let total := Z.of_nat (List.length mcpServers) in
  let overall_status :=
    if (connected_count s >? 0)%Z then "success" else "error" in
  let message :=
    if (connected_count s =? total)%Z
    then "Successfully connected to all " ++ str_int (connected_count s) ++ " servers"
    else "Connected to " ++ str_int (connected_count s) ++ " of "
         ++ str_int total ++ " servers" in
  ToolEnumerationResponse.mk
    overall_status message utcnow
    (simplified_servers s) (simplified_tools s)
    total (connected_count s).

(** The per-server results [enumerate_tools] aggregates. *)
Definition enumerate_servers (request : ToolEnumerationRequest.t) : collected :=
  let mcp_json := ToolEnumerationRequest.mcp_json request in
  let timeout_seconds := ToolEnumerationRequest.timeout_seconds request in
  let include_schemas := ToolEnumerationRequest.include_schemas request in
  let parallel_discovery := ToolEnumerationRequest.parallel_discovery request in
  collect
    (fun server_name server_config =>
       inl (_enumerate_server_tools server_name server_config
                                    timeout_seconds include_schemas))
    (fun free_at server_name server_config =>
       inl (_enumerate_server_tools_on_loop free_at server_name server_config
                                            timeout_seconds include_schemas))
    (fun server_name server_config =>
       (comes_due_ms server_name server_config timeout_seconds,
        holds_loop_ms server_name server_config timeout_seconds))
    (mcpServers mcp_json) parallel_discovery.

Definition enumerate_tools (request : ToolEnumerationRequest.t)
  : ToolEnumerationResponse.t :=
  build_response
    (mcpServers (ToolEnumerationRequest.mcp_json request))
    (servers (enumerate_servers request)).

End ToolEnumerationService.

(** *** [_generate_discovery_summary] *)

(** A dict from strings to integers, in insertion order. *)
Definition counts : Type := list (string * Z).

(** [d.get(k, 0)]. *)
Fixpoint count_of (d : counts) (k : string) : Z :=
  match d with
  | [] => 0%Z
  | (k', n) :: rest => if k' =? k then n else count_of rest k
  end.

(** [d[k] = v]: an existing key keeps its place. *)
Fixpoint count_set (d : counts) (k : string) (v : Z) : counts :=
  match d with
  | [] => [(k, v)]
  | (k', n) :: rest => if k' =? k then (k', v) :: rest else (k', n) :: count_set rest k v
  end.

(** [d[k] = d.get(k, 0) + 1]. *)
Definition count_up (d : counts) (k : string) : counts :=
  count_set d k (count_of d k + 1)%Z.

(** The dict [_generate_discovery_summary] returns, one field per key. *)
Record discovery_summary : Type := mk_discovery_summary {
  transport_types : counts;
  discovery_methods : counts;
  total_discovery_duration_ms : Z;
  average_duration_per_server_ms : Z;
  servers_with_errors : Z;
  servers_with_warnings : Z;
  tools_per_server : counts
}.

(** The three accumulators of the loop: [transport_counts],
    [method_counts] and [total_duration]. *)
Record tally : Type := mk_tally {
  transport_counts : counts;
  method_counts : counts;
  total_duration : Z
}.

(** One iteration of [for server in servers]. *)
Definition tally_server (acc : tally) (server : ServerEnumerationResult.t) : tally :=
  mk_tally
    (count_up (transport_counts acc)
              (transport_value (ServerEnumerationResult.transport_type server)))
    (fold_left (fun mc tool => count_up mc (method_value (EnumeratedTool.discovery_method tool)))
               (ServerEnumerationResult.tools server) (method_counts acc))
    (match ServerEnumerationResult.discovery_duration_ms server with
     | Some d => if (d =? 0)%Z then total_duration acc else (total_duration acc + d)%Z
     | None => total_duration acc
     end).

Definition _generate_discovery_summary (servers : list ServerEnumerationResult.t)
           (all_tools : list EnumeratedTool.t) : discovery_summary :=
  let t := fold_left tally_server servers (mk_tally [] [] 0%Z) in
  mk_discovery_summary
    (transport_counts t)
    (method_counts t)
    (total_duration t)
    (match servers with
     | [] => 0%Z
     | _ :: _ => (total_duration t / Z.of_nat (List.length servers))%Z
     end)
    (Z.of_nat (List.length
                 (filter (fun s => match ServerEnumerationResult.errors s with
                                   | [] => false
                                   | _ :: _ => true
                                   end) servers)))
    (Z.of_nat (List.length
                 (filter (fun s => match ServerEnumerationResult.warnings s with
                                   | [] => false
                                   | _ :: _ => true
                                   end) servers)))
    (fold_left (fun d s => count_set d (ServerEnumerationResult.server_name s)
                                     (Z.of_nat (List.length (ServerEnumerationResult.tools s))))
               servers []).

End service.

(* ================================================================== *)
(** ** Field validation done by the pydantic models *)
(* ================================================================== *)

Module pydantic.
Import Py.

(** A [str] field accepts a string only. *)
Definition as_str (v : json) : option string :=
  match v with JStr s => Some s | _ => None end.

(** An [Optional[str]] field. *)
Definition as_opt_str (v : json) : option (option string) :=
  match v with
  | JNull => Some None
  | JStr s => Some (Some s)
  | _ => None
  end.

(** An [Optional[List[Any]]] field. *)
Definition as_opt_list (v : json) : option (option (list json)) :=
  match v with
  | JNull => Some None
  | JArr l => Some (Some l)
  | _ => None
  end.

(** A [List[str]] field. *)
Fixpoint all_str (l : list json) : option (list string) :=
  match l with
  | [] => Some []
  | JStr s :: rest =>
      match all_str rest with Some r => Some (s :: r) | None => None end
  | _ :: _ => None
  end.

Definition as_list_str (v : json) : option (list string) :=
  match v with JArr l => all_str l | _ => None end.

(** A [bool] field: booleans, the integers 0 and 1, and the usual spellings. *)
Definition as_bool (v : json) : option bool :=
  match v with
  | JBool b => Some b
  | JNum 0 => Some false
  | JNum 1 => Some true
  | JStr s =>
      let s := lower s in
      if existsb (String.eqb s) ["1"; "on"; "t"; "true"; "y"; "yes"] then Some true
      else if existsb (String.eqb s) ["0"; "off"; "f"; "false"; "n"; "no"] then Some false
      else None
  | _ => None
  end.

End pydantic.

(* ================================================================== *)
(** ** The httpx client, as the HTTP strategy uses it *)
(* ================================================================== *)

Module httpx.

(** An [httpx.Response], as far as the code looks at it. *)
Record Response : Type := mk_Response {
  status_code : Z;
  json : Py.json + Py.exn;               (* [response.json()] *)
  raise_for_status : option Py.exn       (* the exception it raises, if any *)
}.

(** The HTTP peers seen through one [httpx.AsyncClient]: each call gives a
    response or raises; and what [async with httpx.AsyncClient(...)] raises
    when the client is created and entered, and when it is closed. *)
Record AsyncClient : Type := mk_client {
  get : string -> list (string * string) -> Response + Py.exn;
  post : string -> Py.json -> list (string * string) -> Response + Py.exn;
  aenter : option Py.exn;
  aexit : option Py.exn
}.

(** A client that opens and closes without an exception. *)
Definition mk_AsyncClient
           (get : string -> list (string * string) -> Response + Py.exn)
           (post : string -> Py.json -> list (string * string) -> Response + Py.exn)
  : AsyncClient :=
  mk_client get post None None.

End httpx.

(* ================================================================== *)
(** ** strategies/http_strategy.py *)
(* ================================================================== *)

Module http_strategy.
Import Py mcp_config dtos interfaces.

(** One property of a schema: [ToolParameter(name=prop_name, ...)]. *)
Definition convert_property (schema_data : dict) (prop : string * json)
  : option (string * ToolParameter.t) :=
  let (prop_name, prop_data) := prop in
  match prop_data with
  | JObj pd =>
      match pydantic.as_str (get_default pd "type" (JStr "string")),
            pydantic.as_opt_str (get pd "description"),
            str_in prop_name (get_default schema_data "required" (JArr [])),
            pydantic.as_opt_list (get pd "enum") with
      | Some ty, Some desc, Some req, Some en =>
          Some (prop_name, ToolParameter.mk prop_name ty desc req (get pd "default") en)
      | _, _, _, _ => None
      end
  | _ => None
  end.

Fixpoint convert_properties (schema_data : dict) (props : list (string * json))
  : option (list (string * ToolParameter.t)) :=
  match props with
  | [] => Some []
  | p :: rest =>
      match convert_property schema_data p, convert_properties schema_data rest with
      | Some q, Some r => Some (q :: r)
      | _, _ => None
      end
  end.

(** [_convert_tool_schema]: [None] for a falsy or non-dict value and
    whenever anything inside the [try] block raises. *)
Definition _convert_tool_schema (schema_data : json) : option ToolSchema.t :=
  if negb (truthy schema_data) then None
  else
    match schema_data with
    | JObj d =>
        match get_default d "properties" (JObj []) with
        | JObj props =>
            match convert_properties d props,
                  pydantic.as_str (get_default d "type" (JStr "object")),
                  pydantic.as_list_str (get_default d "required" (JArr [])),
                  pydantic.as_bool (get_default d "additionalProperties" (JBool false)) with
            | Some properties, Some ty, Some required, Some additional =>
                Some (ToolSchema.mk ty properties required additional)
            | _, _, _, _ => None
            end
        | _ => None
        end
    | _ => None
    end.

(** The direct field names whose presence rules out the nested form. *)
Definition direct_fields : list string :=
  ["name"; "description"; "inSchema"; "inputSchema"].

(** [len(tool_data) == 1 and not any(key in tool_data for key in [...])]. *)
Definition is_nested (tool_data : dict) : bool :=
  (List.length tool_data =? 1)%nat
  && negb (existsb (fun key => has_key tool_data key) direct_fields).

(** The three values the normalisation extracts from one entry:
    [actual_name], [description] and [schema_data].  The source repeats this
    block, unchanged, in [_discover_public_info], [_discover_mcp_jsonrpc]
    and [_discover_rest_api]. *)
Definition normalize (i : nat) (tool_data : dict) : json * json * json :=
  if is_nested tool_data then
    match tool_data with
    | (tool_name, tool_details) :: _ =>
        match tool_details with
        | JObj details =>
            (get_default details "name" (JStr tool_name),
             get details "description",
             get_default details "inSchema"
               (get_default details "inputSchema" (get details "schema")))
        | _ => (JStr tool_name, JNull, JNull)
        end
    | [] => (JNull, JNull, JNull)
    end
  else
    let tool_name := get tool_data "name" in
    let tool_name :=
      if negb (truthy tool_name)
      then get_default tool_data "id"
             (get_default tool_data "tool_name"
                (JStr ("tool_" ++ str_int (Z.of_nat i))))
      else tool_name in
    (tool_name,
     get_default tool_data "description" (get tool_data "summary"),
     get_default tool_data "inputSchema"
       (get_default tool_data "inSchema" (get tool_data "schema"))).

Section HttpToolDiscoveryStrategy.

(** [datetime.utcnow().isoformat()]. *)
Variable utcnow : string.
(** [str(v)] of a decoded value, as an f-string renders it. *)
Variable py_str : json -> string.
(** [str(e)] of the [ValidationError] pydantic raises for a tool entry. *)
Variable validation_error : dict -> string.

(** [EnumeratedTool(name=actual_name, description=description, ...)] for
    one entry; [None] when pydantic rejects the name or the description. *)
Definition make_tool (server_name : string) (metadata : dict -> dict)
           (i : nat) (tool_data : dict) : option EnumeratedTool.t :=
  let '(actual_name, description, schema_data) := normalize i tool_data in
  match pydantic.as_str actual_name, pydantic.as_opt_str description with
  | Some name, Some description =>
      Some (EnumeratedTool.mk name description server_name HTTP
              (_convert_tool_schema schema_data)
              (metadata tool_data)
              HTTP_DISCOVERY utcnow)
  | _, _ => None
  end.

(** [for i, tool_data in enumerate(tools_data)], from index [i] on,
    appending to [tools].  The second component is the exception that
    ended the loop, if any; what had been appended by then stays in
    [tools]. *)
Fixpoint convert_entries (server_name : string) (metadata : dict -> dict)
         (i : nat) (entries : list json) (tools : list EnumeratedTool.t)
  : list EnumeratedTool.t * option exn :=
  match entries with
  | [] => (tools, None)
  | JObj tool_data :: rest =>
      match make_tool server_name metadata i tool_data with
      | Some tool =>
          convert_entries server_name metadata (S i) rest (tools ++ [tool])%list
      | None => (tools, Some (Exception (validation_error tool_data)))
      end
  | _ :: rest => convert_entries server_name metadata (S i) rest tools
  end.

(** How one turn of the endpoint loop ends: [return tools], or on to the
    next endpoint (normally or through [except Exception: continue]). *)
Inductive turn : Type :=
| Return (tools : list EnumeratedTool.t)
| Next (tools : list EnumeratedTool.t).

(** The URL requested for an endpoint. *)
Definition endpoint_url (server_url endpoint : string) : string :=
  rstrip "/" server_url ++ endpoint.

(** The body of [for endpoint in endpoints], shared word for word by
    [_discover_public_info] and [_discover_rest_api] up to the [protocol]
    tag of the metadata. *)
Definition probe_endpoint (protocol : string) (c : httpx.AsyncClient) (server_url : string)
           (headers : list (string * string)) (server_name : string)
           (endpoint : string) (tools : list EnumeratedTool.t) : turn :=
  match httpx.get c (endpoint_url server_url endpoint) headers with
  | inr _ => Next tools
  | inl r =>
      if (httpx.status_code r =? 200)%Z then
        match httpx.json r with
        | inr _ => Next tools
        | inl data =>
            let tools_data :=
              match data with
              | JObj d => get_default d "tools" (get_default d "data" (JArr []))
              | _ => data
              end in
            match iter tools_data with
            | None => Next tools
            | Some entries =>
                let metadata := fun tool_data =>
                  [ ("source_url", JStr server_url);
                    ("endpoint", JStr endpoint);
                    ("protocol", JStr protocol);
                    ("raw_tool_data", JObj tool_data) ] in
                match convert_entries server_name metadata 0 entries tools with
                | (tools, Some _) => Next tools
                | (tools, None) =>
                    match tools with
                    | _ :: _ => Return tools
                    | [] => Next tools
                    end
                end
            end
        end
      else Next tools
  end.

(** The endpoint loop and what follows it.  The first component is the
    list of URLs requested with GET, oldest first. *)
Fixpoint probe_endpoints (protocol failure : string) (c : httpx.AsyncClient)
         (server_url : string) (headers : list (string * string))
         (server_name : string) (endpoints : list string)
         (tools : list EnumeratedTool.t) (requested : list string)
  : list string * (list EnumeratedTool.t + exn) :=
  match endpoints with
  | [] =>
      match tools with
      | [] => (requested, inr (Exception failure))
      | _ :: _ => (requested, inl tools)
      end
  | endpoint :: rest =>
      let requested := (requested ++ [endpoint_url server_url endpoint])%list in
      match probe_endpoint protocol c server_url headers server_name endpoint tools with
      | Return tools => (requested, inl tools)
      | Next tools =>
          probe_endpoints protocol failure c server_url headers server_name
                          rest tools requested
      end
  end.

(** The list literal of [_discover_public_info], as written. *)
Definition public_info_endpoints_declared : list string :=
  ["/info"; "/.well-known/mcp"; "/api/info"; "/"].

Definition _discover_public_info (c : httpx.AsyncClient) (server_url : string)
           (headers : list (string * string)) (server_name : string)
  : list string * (list EnumeratedTool.t + exn) :=
  let endpoints := rev public_info_endpoints_declared in   (* [...][::-1] *)
  probe_endpoints "public-info" "No valid public info endpoints found"
                  c server_url headers server_name endpoints [] [].

Definition _discover_rest_api (c : httpx.AsyncClient) (server_url : string)
           (headers : list (string * string)) (server_name : string)
  : list string * (list EnumeratedTool.t + exn) :=
  let endpoints := ["/tools"; "/api/tools"; "/v1/tools"; "/mcp/tools"] in
  probe_endpoints "rest-api" "No valid REST API endpoints found"
                  c server_url headers server_name endpoints [] [].

Definition init_request : json :=
  JObj [ ("jsonrpc", JStr "2.0");
         ("id", JNum 1);
         ("method", JStr "initialize");
         ("params",
          JObj [ ("protocolVersion", JStr "2024-11-05");
                 ("capabilities", JObj []);
                 ("clientInfo",
                  JObj [ ("name", JStr "astha-tool-enumerator");
                         ("version", JStr "1.0.0") ]) ]) ].

Definition tools_request : json :=
  JObj [ ("jsonrpc", JStr "2.0"); ("id", JNum 2); ("method", JStr "tools/list") ].

(** [response = await client.post(...); response.raise_for_status();
    result = response.json()]. *)
Definition post_json (c : httpx.AsyncClient) (server_url : string)
           (request : json) (headers : list (string * string)) : json + exn :=
  match httpx.post c server_url request headers with
  | inr e => inr e
  | inl response =>
      match httpx.raise_for_status response with
      | Some e => inr e
      | None => httpx.json response
      end
  end.

(** [if "error" in result: raise Exception(f"{what}: {result['error']}")];
    [None] when the statement falls through. *)
Definition check_error (what : string) (result : json) : option exn :=
  match str_in "error" result with
  | None =>
      Some (Exception ("argument of type '" ++ type_name result ++ "' is not iterable"))
  | Some false => None
  | Some true =>
      match result with
      | JObj d => Some (Exception (what ++ ": " ++ py_str (get d "error")))
      | JArr _ => Some (Exception "list indices must be integers or slices, not str")
      | _ => Some (Exception "string indices must be integers, not 'str'")
      end
  end.

(** [v.get(key, default)] on a value that may not be a dict. *)
Definition attr_get (v : json) (key : string) (default : json) : json + exn :=
  match v with
  | JObj d => inl (get_default d key default)
  | _ => inr (Exception ("'" ++ type_name v ++ "' object has no attribute 'get'"))
  end.

Definition _discover_mcp_jsonrpc (c : httpx.AsyncClient) (server_url : string)
           (headers : list (string * string)) (server_name : string)
  : list EnumeratedTool.t + exn :=
  match post_json c server_url init_request headers with
  | inr e => inr e
  | inl init_result =>
  match check_error "MCP initialization failed" init_result with
  | Some e => inr e
  | None =>
  match post_json c server_url tools_request headers with
  | inr e => inr e
  | inl tools_result =>
  match check_error "Tools list failed" tools_result with
  | Some e => inr e
  | None =>
  match attr_get tools_result "result" (JObj []) with
  | inr e => inr e
  | inl result =>
  match attr_get result "tools" (JArr []) with
  | inr e => inr e
  | inl tools_data =>
  match iter tools_data with
  | None => inr (Exception ("'" ++ type_name tools_data ++ "' object is not iterable"))
  | Some entries =>
      let metadata := fun tool_data =>
        [ ("source_url", JStr server_url);
          ("protocol", JStr "mcp-jsonrpc");
          ("raw_tool_data", JObj tool_data) ] in
      match convert_entries server_name metadata 0 entries [] with
      | (_, Some e) => inr e
      | (tools, None) => inl tools
      end
  end end end end end end end.

(** [self.discovery_methods], each with its [__name__]. *)
Definition discovery_methods (c : httpx.AsyncClient) (server_url : string)
           (headers : list (string * string)) (server_name : string)
  : list (string * (list EnumeratedTool.t + exn)) :=
  [ ("_discover_public_info", snd (_discover_public_info c server_url headers server_name));
    ("_discover_mcp_jsonrpc", _discover_mcp_jsonrpc c server_url headers server_name);
    ("_discover_rest_api", snd (_discover_rest_api c server_url headers server_name)) ].

(** [for method in self.discovery_methods]: stop at the first method that
    yields tools, record the text of each exception. *)
Fixpoint try_methods (methods : list (string * (list EnumeratedTool.t + exn)))
         (errors : list string) : list EnumeratedTool.t * list string :=
  match methods with
  | [] => ([], errors)
  | (name, inl (tool :: method_tools)) :: _ => (tool :: method_tools, errors)
  | (name, inl []) :: rest => try_methods rest errors
  | (name, inr e) :: rest =>
      try_methods rest (errors ++ [(name ++ ": " ++ str_exn e)%string])%list
  end.

Definition discover (c : httpx.AsyncClient) (server_name : string)
           (server_config : McpServerConfig) (timeout_seconds : Z) : discovery :=
  if negb (truthy_str (url server_config)) then
    ([], ["No URL provided for HTTP server: " ++ server_name], [])
  else
    let server_url := match url server_config with Some u => u | None => EmptyString end in
    let headers :=
      match headers server_config with
      | Some (h :: hs) => update [("Content-Type", "application/json")] (h :: hs)
      | _ => [("Content-Type", "application/json")]
      end in
    let failed := fun e : exn =>
      "HTTP discovery failed for " ++ server_name ++ ": " ++ str_exn e in
    match httpx.aenter c with
    | Some e => ([], [failed e], [])
    | None =>
        let (tools, errors) :=
          try_methods (discovery_methods c server_url headers server_name) [] in
        let warnings :=
          match tools, errors with
          | [], [] => ["No tools discovered from HTTP server " ++ server_name
                       ++ " using any method"]
          | _, _ => []
          end in
        match httpx.aexit c with
        | Some e => (tools, (errors ++ [failed e])%list, warnings)
        | None => (tools, errors, warnings)
        end
    end.

Definition get_transport_type (server_config : McpServerConfig)
  : ServerTransportType := HTTP.

(** How long the exchanges with the peer of a server take, in
    milliseconds ([None]: they never finish). *)
Variable elapsed : string -> option Z.
Variable the_client : httpx.AsyncClient.

(** Without a URL, and when the client cannot be created, the coroutine
    ends before its first exchange. *)
Definition discover_tools (server_name : string) (server_config : McpServerConfig)
           (timeout_seconds : Z) : awaitable discovery :=
  mk_awaitable
    (if truthy_str (url server_config)
     then match httpx.aenter the_client with
          | Some _ => Some 0%Z
          | None => elapsed server_name
          end
     else Some 0%Z)
    (inl (discover the_client server_name server_config timeout_seconds)).

Definition HttpToolDiscoveryStrategy : IToolDiscoveryStrategy :=
  mk_strategy discover_tools get_transport_type.

End HttpToolDiscoveryStrategy.

End http_strategy.

(* ================================================================== *)
(** ** strategies/stdio_strategy.py *)
(* ================================================================== *)

Module stdio_strategy.
Import Py mcp_config dtos interfaces.

(** What the strategy does to the child process, in order. *)
Inductive event : Type :=
| Popen (cmd : list string) (env : list (string * string))
| Poll
| Write (message : json)            (* [stdin.write(json.dumps(m) + "\n")] and [flush] *)
| ReadLine                          (* [stdout.readline] on a worker thread *)
| Terminate                         (* [process.terminate()], SIGTERM *)
| Wait (timeout : Z)                (* [process.wait(timeout=...)] *)
| Kill.                             (* [process.kill()], SIGKILL *)

Inductive process_status : Type :=
| NotStarted
| Running
| Exited.

(** The child process and the operating system, as far as one call of
    [discover_tools] can observe them. *)
Record child : Type := mk_child {
  popen_error : option string;          (* [subprocess.Popen] raises *)
  exits_early : bool;                   (* gone after the settle delay *)
  init_write : option exn;              (* raised when writing [initialize] *)
  init_reply : option (Z * string);     (* delay in ms and the line read; [None]: no answer *)
  notify_write : option exn;            (* raised when writing the notification *)
  tools_write : option exn;             (* raised when writing [tools/list] *)
  tools_reply : option (Z * string);
  terminate_raises : bool;              (* [process.terminate()] raises *)
  exits_on_sigterm : bool               (* gone within the wait after SIGTERM *)
}.

(** The mutable state of one call: the three result lists, the child's
    status, the events so far and the time since the call started. *)
Record state : Type := mk_state {
  tools : list EnumeratedTool.t;
  errors : list string;
  warnings : list string;
  status : process_status;
  log : list event;
  clock : Z
}.

(** How a block of statements ends. *)
Inductive control (A : Type) : Type :=
| Normal (a : A)
| Returned                  (* [return tools, errors, warnings] *)
| Raised (e : exn)
| Cancelled.                (* [asyncio.CancelledError]: not an [Exception] *)
Arguments Normal {A} _.
Arguments Returned {A}.
Arguments Raised {A} _.
Arguments Cancelled {A}.

Definition M (A : Type) : Type := state -> control A * state.

Definition ret {A : Type} (a : A) : M A := fun st => (Normal a, st).

Definition bind {A B : Type} (m : M A) (k : A -> M B) : M B :=
  fun st =>
    match m st with
    | (Normal a, st') => k a st'
    | (Returned, st') => (Returned, st')
    | (Raised e, st') => (Raised e, st')
    | (Cancelled, st') => (Cancelled, st')
    end.

Notation "x <- m ;; k" := (bind m (fun x => k))
  (at level 61, m at next level, right associativity).
Notation "m ;; k" := (bind m (fun _ => k))
  (at level 61, right associativity).

Definition return_ {A : Type} : M A := fun st => (Returned, st).
Definition raise {A : Type} (e : exn) : M A := fun st => (Raised e, st).

(** [try: body except ...: handler]: [handler e] is [None] when no clause
    matches [e]. *)
Definition try_except {A : Type} (body : M A) (handler : exn -> option (M A)) : M A :=
  fun st =>
    match body st with
    | (Raised e, st') =>
        match handler e with
        | Some h => h st'
        | None => (Raised e, st')
        end
    | other => other
    end.

(** [try: body finally: cleanup]: the cleanup runs however the body ends,
    and the body's way of ending is resumed after it. *)
Definition try_finally {A : Type} (body : M A) (cleanup : M unit) : M A :=
  fun st =>
    match body st with
    | (c, st') =>
        match cleanup st' with
        | (Normal _, st'') => (c, st'')
        | (Returned, st'') => (Returned, st'')
        | (Raised e, st'') => (Raised e, st'')
        | (Cancelled, st'') => (Cancelled, st'')
        end
    end.

Definition emit (ev : event) : M unit :=
  fun st => (Normal tt,
             mk_state (tools st) (errors st) (warnings st) (status st)
                      (log st ++ [ev])%list (clock st)).

Definition set_status (s : process_status) : M unit :=
  fun st => (Normal tt,
             mk_state (tools st) (errors st) (warnings st) s (log st) (clock st)).

Definition set_clock (t : Z) : M unit :=
  fun st => (Normal tt,
             mk_state (tools st) (errors st) (warnings st) (status st) (log st) t).

Definition errors_append (e : string) : M unit :=
  fun st => (Normal tt,
             mk_state (tools st) (errors st ++ [e])%list (warnings st) (status st)
                      (log st) (clock st)).

Definition warnings_append (w : string) : M unit :=
  fun st => (Normal tt,
             mk_state (tools st) (errors st) (warnings st ++ [w])%list (status st)
                      (log st) (clock st)).

Definition tools_append (t : EnumeratedTool.t) : M unit :=
  fun st => (Normal tt,
             mk_state (tools st ++ [t])%list (errors st) (warnings st) (status st)
                      (log st) (clock st)).

Definition get_state : M state := fun st => (Normal st, st).

(** The double quote, for messages that contain one. *)
Definition dq : string := String (ascii_of_nat 34) EmptyString.

(** [s.strip()]: ASCII white space on either side. *)
Definition is_space (c : ascii) : bool :=
  let n := nat_of_ascii c in
  orb (andb (9 <=? n)%nat (n <=? 13)%nat)
      (andb (28 <=? n)%nat (n <=? 32)%nat).

Fixpoint lstrip (s : string) : string :=
  match s with
  | EmptyString => EmptyString
  | String c rest => if is_space c then lstrip rest else s
  end.

Fixpoint rstrip_space (s : string) : string :=
  match s with
  | EmptyString => EmptyString
  | String c rest =>
      match rstrip_space rest with
      | EmptyString => if is_space c then EmptyString else String c EmptyString
      | r => String c r
      end
  end.

Definition strip (s : string) : string := rstrip_space (lstrip s).

Definition mcp_init_request : json :=
  JObj [ ("jsonrpc", JStr "2.0");
         ("id", JNum 1);
         ("method", JStr "initialize");
         ("params",
          JObj [ ("protocolVersion", JStr "2025-06-18");
                 ("capabilities", JObj [ ("tools", JObj []); ("experimental", JObj []) ]);
                 ("clientInfo",
                  JObj [ ("name", JStr "astha-tool-enumerator");
                         ("version", JStr "1.0.0") ]) ]) ].

Definition initialized_notification : json :=
  JObj [ ("jsonrpc", JStr "2.0"); ("method", JStr "notifications/initialized") ].

Definition list_tools_request : json :=
  JObj [ ("jsonrpc", JStr "2.0"); ("id", JNum 2); ("method", JStr "tools/list") ].

(** The package runners the code singles out. *)
Definition is_runner (command : string) : bool :=
  existsb (String.eqb command) ["npx"; "uvx"; "uv"].

(** [_convert_tool_schema] is the same method, statement for statement, as
    the one of the HTTP strategy. *)
Definition _convert_tool_schema : json -> option ToolSchema.t :=
  http_strategy._convert_tool_schema.

Definition get_transport_type (server_config : McpServerConfig)
  : ServerTransportType := STDIO.

Section StdioToolDiscoveryStrategy.

(** [shutil.which(command) is not None]. *)
Variable which : string -> bool.
(** [os.environ]. *)
Variable os_environ : list (string * string).
(** [json.loads]: the decoded value, or the text of the [JSONDecodeError]. *)
Variable json_loads : string -> json + string.
(** [str(v)] of a decoded value, as an f-string renders it. *)
Variable py_str : json -> string.
(** [str(e)] of the [ValidationError] pydantic raises for a tool entry. *)
Variable validation_error : dict -> string.
(** [datetime.utcnow().isoformat()]. *)
Variable utcnow : string.

(** The deadline of an enclosing [asyncio.wait_for], in milliseconds from
    the start of the call; [None] when the coroutine is awaited bare. *)
Variable deadline : option Z.

Variable the_child : child.

(** An [await] that takes [ms] milliseconds unless the enclosing deadline
    cancels it first. *)
Definition await_for (ms : Z) : M unit :=
  fun st =>
    let finish := (clock st + ms)%Z in
    match deadline with
    | Some d =>
        if (d <? finish)%Z then (set_clock (Z.max d (clock st)) ;; (fun s => (Cancelled, s))) st
        else set_clock finish st
    | None => set_clock finish st
    end.

(** [process.stdin.write(msg)] then [flush()]. *)
Definition write (message : json) (outcome : option exn) : M unit :=
  emit (Write message) ;;
  match outcome with
  | Some e => raise e
  | None => ret tt
  end.

(** [await asyncio.wait_for(asyncio.to_thread(process.stdout.readline),
    timeout=process_timeout)]. *)
Definition read_line (reply : option (Z * string)) (process_timeout : Z) : M string :=
  emit ReadLine ;;
  let limit := (process_timeout * 1000)%Z in
  match reply with
  | Some (delay, line) =>
      if (delay <=? limit)%Z then await_for delay ;; ret line
      else await_for limit ;; raise TimeoutError
  | None => await_for limit ;; raise TimeoutError
  end.

(** [v[key]] after [key in v] held. *)
Definition subscript (v : json) (key : string) : M json :=
  match v with
  | JObj d => ret (get d key)
  | JArr _ => raise (Exception "list indices must be integers or slices, not str")
  | _ => raise (Exception "string indices must be integers, not 'str'")
  end.

(** [key in v], raising [TypeError] on a value that is no container. *)
Definition contains_key (key : string) (v : json) : M bool :=
  match str_in key v with
  | Some b => ret b
  | None => raise (Exception ("argument of type '" ++ type_name v ++ "' is not iterable"))
  end.

(** [for tool_data in tools_list]. *)
Fixpoint convert_tools (server_name : string) (server_config : McpServerConfig)
         (tools_list : list json) : M unit :=
  match tools_list with
  | [] => ret tt
  | JObj tool_data :: rest =>
      st <- get_state ;;
      let name :=
        get_default tool_data "name"
          (JStr ("unknown_tool_" ++ str_int (Z.of_nat (List.length (tools st))))) in
      match pydantic.as_str name, pydantic.as_opt_str (get tool_data "description") with
      | Some name, Some description =>
          tools_append
            (EnumeratedTool.mk name description server_name
               (get_transport_type server_config)
               (_convert_tool_schema (get tool_data "inputSchema"))
               [ ("command", json_of_opt_str (command server_config));
                 ("args", match args server_config with
                          | Some l => JArr (map JStr l)
                          | None => JNull
                          end);
                 ("env_vars", match env server_config with
                              | Some (kv :: e) => JArr (map (fun p => JStr (fst p)) (kv :: e))
                              | _ => JArr []
                              end);
                 ("raw_tool_data", JObj tool_data) ]
               STDIO_INTROSPECTION utcnow) ;;
          convert_tools server_name server_config rest
      | _, _ => raise (Exception (validation_error tool_data))
      end
  | _ :: rest => convert_tools server_name server_config rest
  end.

(** The statements between [try:] and the first [except] of the inner
    [try] block. *)
Definition handshake (server_name : string) (server_config : McpServerConfig)
           (cmd : string) (timeout_seconds : Z) : M unit :=
  let process_timeout :=
    if cmd =? "npx" then Z.min timeout_seconds 30 else Z.min timeout_seconds 10 in
  await_for 500 ;;
  emit Poll ;;
  (if exits_early the_child
   then errors_append ("Process for " ++ server_name ++ " terminated early") ;; return_
   else ret tt) ;;
  try_except
    (write mcp_init_request (init_write the_child))
    (fun e => match e with
              | BrokenPipeError _ =>
                  Some (errors_append ("Broken pipe when initializing " ++ server_name) ;;
                        return_)
              | _ => None
              end) ;;
  try_except
    (init_response <- read_line (init_reply the_child) process_timeout ;;
     if negb (init_response =? EmptyString) then
       match json_loads (strip init_response) with
       | inr msg => raise (JSONDecodeError msg)
       | inl init_data =>
           has_error <- contains_key "error" init_data ;;
           if has_error then
             err <- subscript init_data "error" ;;
             errors_append ("Initialization failed for " ++ server_name ++ ": "
                            ++ py_str err) ;;
             return_
           else ret tt
       end
     else ret tt)
    (fun e => match e with
              | TimeoutError =>
                  Some (errors_append ("Initialization timeout for " ++ server_name) ;;
                        return_)
              | _ => None
              end) ;;
  write initialized_notification (notify_write the_child) ;;
  (if existsb (String.eqb cmd) ["uvx"; "uv"] then await_for 1000 else ret tt) ;;
  try_except
    (write list_tools_request (tools_write the_child))
    (fun e => match e with
              | BrokenPipeError _ =>
                  Some (errors_append ("Broken pipe when requesting tools from "
                                       ++ server_name) ;;
                        return_)
              | _ => None
              end) ;;
  tools_data <-
    try_except
      (tools_response <- read_line (tools_reply the_child) process_timeout ;;
       if negb (tools_response =? EmptyString) then
         match json_loads (strip tools_response) with
         | inr msg => raise (JSONDecodeError msg)
         | inl tools_data =>
             has_error <- contains_key "error" tools_data ;;
             if has_error then
               error_info <- subscript tools_data "error" ;;
               match error_info with
               | JObj info =>
                   errors_append
                     ("MCP server error " ++ py_str (get_default info "code" (JStr "unknown"))
                      ++ ": " ++ py_str (get_default info "message" (JStr "Unknown error"))) ;;
                   return_
               | other =>
                   raise (Exception ("'" ++ type_name other
                                     ++ "' object has no attribute 'get'"))
               end
             else ret (Some tools_data)
         end
       else ret None)
      (fun e => match e with
                | TimeoutError =>
                    Some (errors_append ("Tools list timeout for " ++ server_name) ;;
                          return_)
                | _ => None
                end) ;;
  match tools_data with
  | Some (JObj data) =>
      let tools_list :=
        if has_key data "result" then
          match get data "result" with
          | JObj result =>
              if has_key result "tools" then get result "tools" else JArr []
          | JArr result => JArr result
          | _ => JArr []
          end
        else if has_key data "tools" then get data "tools"
        else JArr [] in
      match tools_list with
      | JArr (item :: items) => convert_tools server_name server_config (item :: items)
      | _ => warnings_append ("No tools found in response from " ++ server_name)
      end
  | _ => warnings_append ("No valid tools response received from " ++ server_name)
  end.

(** The [finally] clause:
    [try: process.terminate(); process.wait(timeout=5)  except: process.kill()].
    [wait] returns when the child is gone within five seconds and raises
    [TimeoutExpired] otherwise; SIGKILL cannot be ignored. *)
Definition teardown : M unit :=
  emit Terminate ;;
  if terminate_raises the_child then
    emit Kill ;; set_status Exited
  else
    emit (Wait 5) ;;
    if exits_early the_child || exits_on_sigterm the_child then set_status Exited
    else emit Kill ;; set_status Exited.

(** The advisory hint appended for package runners. *)
Definition hint (cmd : string) (text : string) : string :=
  if is_runner cmd then
    if contains text "No module named"
    then " (Python package may not be available for uvx)"
    else if contains text "command not found"
    then " (mcp-proxy package may not be installed)"
    else if contains text "Connection refused"
    then " (Target MCP server may be unreachable)"
    else if contains (lower text) "timeout"
    then " (npx/uvx execution or package installation timed out)"
    else if contains text "Invalid argument"
    then " (Package may require specific arguments - check package documentation)"
    else if contains text "npm WARN"
    then " (Package installation warnings - may still work)"
    else EmptyString
  else EmptyString.

(** [subprocess.Popen(cmd, stdin=PIPE, stdout=PIPE, stderr=PIPE, env=env,
    text=True, bufsize=1)]. *)
Definition popen (cmd : list string) (env : list (string * string)) : M unit :=
  match popen_error the_child with
  | Some msg => raise (Exception msg)
  | None => emit (Popen cmd env) ;; set_status Running
  end.

(** The body of [discover_tools]; the caller reads the three lists off
    the final state. *)
Definition discover (server_name : string) (server_config : McpServerConfig)
           (timeout_seconds : Z) : M unit :=
  if negb (truthy_str (command server_config)) then
    errors_append ("No command provided for STDIO server: " ++ server_name) ;; return_
  else
    let cmd := match command server_config with Some c => c | None => EmptyString end in
    try_except
      ((if negb (which cmd) then
          errors_append ("Command '" ++ cmd ++ "' not found in PATH for server "
                         ++ server_name) ;;
          return_
        else ret tt) ;;
       (if is_runner cmd && negb (truthy_list (args server_config)) then
          errors_append (cmd ++ " requires package name as argument for server "
                         ++ server_name) ;;
          return_
        else ret tt) ;;
       let env :=
         match env server_config with
         | Some (kv :: e) => update os_environ (kv :: e)
         | _ => os_environ
         end in
       argv <- match args server_config with
               | Some a => ret (cmd :: a)
               | None => raise (Exception ("can only concatenate list (not " ++ dq
                                           ++ "NoneType" ++ dq ++ ") to list"))
               end ;;
       popen argv env ;;
       try_finally
         (try_except
            (handshake server_name server_config cmd timeout_seconds)
            (fun e => match e with
                      | TimeoutExpired _ =>
                          Some (errors_append
                                  ("STDIO server " ++ server_name ++ " timed out after "
                                   ++ str_int timeout_seconds ++ " seconds"))
                      | JSONDecodeError msg =>
                          Some (errors_append
                                  ("Invalid JSON response from " ++ server_name ++ ": "
                                   ++ msg))
                      | _ => None
                      end))
         teardown ;;
       st <- get_state ;;
       match tools st, errors st with
       | [], [] => warnings_append ("STDIO server " ++ server_name ++ ": No tools discovered")
       | _, _ => ret tt
       end)
      (fun e =>
         Some (errors_append ("STDIO discovery failed for " ++ server_name ++ ": "
                              ++ str_exn e ++ hint cmd (str_exn e)))).

Definition initial : state := mk_state [] [] [] NotStarted [] 0.

(** One call of [discover_tools]: how it ended and the final state. *)
Definition run (server_name : string) (server_config : McpServerConfig)
           (timeout_seconds : Z) : control unit * state :=
  discover server_name server_config timeout_seconds initial.

(** What the caller of [discover_tools] receives:
    [(tools, errors, warnings)], or the cancellation. *)
Definition discover_tools (server_name : string) (server_config : McpServerConfig)
           (timeout_seconds : Z) : option discovery :=
  match run server_name server_config timeout_seconds with
  | (Cancelled, _) => None
  | (_, st) => Some (tools st, errors st, warnings st)
  end.

End StdioToolDiscoveryStrategy.

Section Strategy.

Variable which : string -> bool.
Variable os_environ : list (string * string).
Variable json_loads : string -> json + string.
Variable py_str : json -> string.
Variable validation_error : dict -> string.
Variable utcnow : string.
(** The process each server's command line starts. *)
Variable child_of : string -> child.

(** For how long the [finally] clause holds the thread, and with it the
    event loop: [process.wait(timeout=5)] is called in the coroutine itself
    (the reads go through [asyncio.to_thread]), so a child that outlives
    the wait costs the five seconds; a child that is gone, or goes on
    SIGTERM, is counted as costing none. *)
Definition wait_ms (c : child) : Z :=
  if terminate_raises c then 0%Z
  else if exits_early c || exits_on_sigterm c then 0%Z
  else 5000%Z.

(** The cleanup runs only when a process was spawned. *)
Definition cleanup_ms (c : child) (st : state) : Z :=
  match status st with
  | NotStarted => 0%Z
  | _ => wait_ms c
  end.

(** The coroutine left to run on its own: it always settles, with the
    three lists, at the time its last statement finishes. *)
Definition StdioToolDiscoveryStrategy : IToolDiscoveryStrategy :=
  mk_strategy
    (fun server_name server_config timeout_seconds =>
       let (_, st) :=
         run which os_environ json_loads py_str validation_error utcnow None
             (child_of server_name) server_name server_config timeout_seconds in
       mk_coroutine (Some (clock st)) (inl (tools st, errors st, warnings st))
                    (cleanup_ms (child_of server_name) st))
    get_transport_type.

End Strategy.

End stdio_strategy.

(* ================================================================== *)
(** ** app/container.py *)
(* ================================================================== *)

Module container.
Import Py dtos interfaces.

(** Everything outside the interpreter that one request can observe. *)
Record world : Type := mk_world {
  utcnow : string;
  which : string -> bool;
  os_environ : list (string * string);
  json_loads : string -> json + string;
  py_str : json -> string;
  validation_error : dict -> string;
  child_of : string -> stdio_strategy.child;
  http_client : httpx.AsyncClient;
  http_elapsed : string -> option Z
}.

(** [Container.strategies()]: the dict the service is built with. *)
Definition strategies (w : world) (method : ToolDiscoveryMethod)
  : option IToolDiscoveryStrategy :=
  match method with
  | MCP_JSON_PARSING =>
      Some (mcp_json_strategy.McpJsonParsingStrategy (utcnow w))
  | HTTP_DISCOVERY =>
      Some (http_strategy.HttpToolDiscoveryStrategy
              (utcnow w) (py_str w) (validation_error w)
              (http_elapsed w) (http_client w))
  | STDIO_INTROSPECTION =>
      Some (stdio_strategy.StdioToolDiscoveryStrategy
              (which w) (os_environ w) (json_loads w) (py_str w)
              (validation_error w) (utcnow w) (child_of w))
  | COMBINED => None
  end.

(** [Container.tool_enumeration_service().enumerate_tools]. *)
Definition enumerate_tools (w : world) (request : ToolEnumerationRequest.t)
  : ToolEnumerationResponse.t :=
  service.enumerate_tools (strategies w) (utcnow w) request.

End container.

(* ================================================================== *)
(** ** adapters/inbound/http/tool_enumeration_controller.py *)
(* ================================================================== *)

Module tool_enumeration_controller.
Import Py dtos.

Section Controller.

(** [server.model_dump()] and [tool.model_dump()]. *)
Variable dump_server : ServerResult.t -> json.
Variable dump_tool : SimplifiedTool.t -> json.

(** The dict the endpoint returns for a response of the use case;
    [response.model_typename] is the class name the metaclass installs. *)
Definition envelope (response : ToolEnumerationResponse.t) : dict :=
  [ ("success", JBool (ToolEnumerationResponse.status response =? "success"));
    ("message", JStr (ToolEnumerationResponse.message response));
    ("data",
     JObj [ ("__typename", JStr "ToolEnumerationResponse");
            ("status", JStr (ToolEnumerationResponse.status response));
            ("timestamp", JStr (ToolEnumerationResponse.timestamp response));
            ("servers", JArr (map dump_server (ToolEnumerationResponse.servers response)));
            ("tools", JArr (map dump_tool (ToolEnumerationResponse.tools response)));
            ("total_servers", JNum (ToolEnumerationResponse.total_servers response));
            ("connected_servers",
             JNum (ToolEnumerationResponse.connected_servers response)) ]) ].

(** [POST /api/v1/tools/enumerate]: the use case hands the request to the
    service of the container and the endpoint wraps its response. *)
Definition enumerate_tools (w : container.world) (request : ToolEnumerationRequest.t)
  : dict :=
  envelope (container.enumerate_tools w request).

End Controller.

End tool_enumeration_controller.

(* ================================================================== *)
(** ** Sample inputs used by the examples below *)
(* ================================================================== *)

Module samples.
Import Py mcp_config dtos interfaces.

(** A server entry with no field set. *)
Definition bare : McpServerConfig :=
  mk_McpServerConfig None None None None None (Some 30%Z).

(** A child that answers nothing and obeys SIGTERM. *)
Definition silent_child : stdio_strategy.child :=
  stdio_strategy.mk_child None false None None None None None false true.

(** A peer that refuses every connection. *)
Definition dead_client : httpx.AsyncClient :=
  httpx.mk_AsyncClient
    (fun _ _ => inr (Exception "All connection attempts failed"))
    (fun _ _ _ => inr (Exception "All connection attempts failed")).

(** A world in which every command resolves, no child answers and no peer
    listens. *)
Definition quiet_world : container.world :=
  container.mk_world
    "2025-09-14T00:00:00"
    (fun _ => true)
    [("PATH", "/usr/bin")]
    (fun _ => inr "Expecting value: line 1 column 1 (char 0)")
    (fun _ => EmptyString)
    (fun _ => "1 validation error for EnumeratedTool")
    (fun _ => silent_child)
    dead_client
    (fun _ => Some 20%Z).

(** A strategy whose coroutine raises [asyncio.TimeoutError] at once. *)
Definition raising_timeout : IToolDiscoveryStrategy :=
  mk_strategy (fun _ _ _ => mk_awaitable (Some 0%Z) (inr TimeoutError))
              (fun _ => UNKNOWN).

(** [url] set to the empty string next to a command. *)
Definition empty_url_config : McpServerConfig :=
  mk_McpServerConfig (Some "npx") (Some ["-y"; "@paypal/mcp"]) None (Some EmptyString) None (Some 30%Z).

(** A fallback-only entry that carries a secret in its environment. *)
Definition secret_env_config : McpServerConfig :=
  mk_McpServerConfig None None (Some [("API_KEY", "s3cr3t")]) None None (Some 30%Z).

Definition request_of (servers : list (string * McpServerConfig))
           (parallel : bool) : ToolEnumerationRequest.t :=
  ToolEnumerationRequest.mk (mk_McpJsonConfig servers) 30 true parallel.

End samples.

(* ================================================================== *)
(** * Properties *)
(* ================================================================== *)

Import Py mcp_config dtos interfaces.

(** ** Strategy selection *)

(** The selector as the specification words it: a field counts as present
    as soon as it is set. *)
Definition is_set {A : Type} (o : option A) : bool :=
  match o with Some _ => true | None => false end.

Definition selector_by_presence (server_config : McpServerConfig)
  : ToolDiscoveryMethod :=
  if is_set (url server_config) then HTTP_DISCOVERY
  else if is_set (command server_config) then STDIO_INTROSPECTION
  else MCP_JSON_PARSING.

(** The selector with presence read as Python truthiness: set and not the
    empty string. *)
Definition selector_by_truthiness (server_config : McpServerConfig)
  : ToolDiscoveryMethod :=
  match url server_config, command server_config with
  | Some (String _ _), _ => HTTP_DISCOVERY
  | _, Some (String _ _) => STDIO_INTROSPECTION
  | _, _ => MCP_JSON_PARSING
  end.

Lemma truthy_str_shape (o : option string) :
  truthy_str o = match o with Some (String _ _) => true | _ => false end.
Proof. destruct o as [[|c s]|]; reflexivity. Qed.

(** C9, as stated, fails: with [url] set to the empty string and a command
    present, the field is present yet the process strategy is returned, not
    the networked one. *)
Lemma C9_empty_url_selects_stdio :
  is_set (url samples.empty_url_config) = true
  /\ service._auto_select_strategy (container.strategies samples.quiet_world)
                                   samples.empty_url_config
     = service.subscript (container.strategies samples.quiet_world) STDIO_INTROSPECTION
  /\ service._auto_select_strategy (container.strategies samples.quiet_world)
                                   samples.empty_url_config
     <> service.subscript (container.strategies samples.quiet_world)
                          (selector_by_presence samples.empty_url_config).
Proof.
  split; [reflexivity|]. split; [reflexivity|].
  intro H. cbv [service._auto_select_strategy samples.empty_url_config url command
                truthy_str selector_by_presence is_set service.subscript
                container.strategies] in H.
  cbn in H.
  apply (f_equal (fun r => match r with
                           | inl s => get_transport_type s samples.bare
                           | inr _ => UNKNOWN
                           end)) in H.
  cbn in H. discriminate H.
Qed.

(** C9 (amended): the selector is a function of the configuration alone;
    it returns the networked strategy when [url] is a non-empty string,
    otherwise the process strategy when [command] is a non-empty string,
    otherwise the fallback strategy; with the strategies the container
    registers it never fails. *)
Theorem C9_selector_by_truthiness :
  forall (S : ToolDiscoveryMethod -> option IToolDiscoveryStrategy)
         (server_config : McpServerConfig),
    service._auto_select_strategy S server_config
    = service.subscript S (selector_by_truthiness server_config)
    /\ forall w : container.world,
        exists strategy,
          service._auto_select_strategy (container.strategies w) server_config
          = inl strategy.
Proof.
  intros S cfg. unfold service._auto_select_strategy, selector_by_truthiness.
  rewrite !truthy_str_shape. split.
  - destruct (url cfg) as [[|c s]|]; destruct (command cfg) as [[|c' s']|]; reflexivity.
  - intro w.
    destruct (url cfg) as [[|c s]|]; destruct (command cfg) as [[|c' s']|];
      cbn; eexists; reflexivity.
Qed.

(** ** The two phases of [enumerate_tools] *)

Section Phases.

Variable S : ToolDiscoveryMethod -> option IToolDiscoveryStrategy.
Variable utcnow : string.

(** A server counts as connected when its error list is empty. *)
Definition connected (server : ServerEnumerationResult.t) : bool :=
  match ServerEnumerationResult.errors server with [] => true | _ :: _ => false end.

Lemma server_status_connected (server : ServerEnumerationResult.t) :
  service.server_status server = "connected"
  <-> ServerEnumerationResult.errors server = [].
Proof.
  unfold service.server_status.
  destruct (ServerEnumerationResult.errors server); split; intro H;
    try reflexivity; discriminate H.
Qed.

Lemma server_status_eqb (server : ServerEnumerationResult.t) :
  (service.server_status server =? "connected") = connected server.
Proof.
  unfold service.server_status, connected.
  destruct (ServerEnumerationResult.errors server); reflexivity.
Qed.

(** The summary the second phase builds for one server. *)
Definition summary_of (server : ServerEnumerationResult.t) : ServerResult.t :=
  ServerResult.mk
    (ServerEnumerationResult.server_name server)
    (service.server_status server)
    (Z.of_nat (List.length (ServerEnumerationResult.tools server)))
    (hd_error (ServerEnumerationResult.errors server)).

Definition simplified_tools_of (server : ServerEnumerationResult.t)
  : list SimplifiedTool.t :=
  map (service.simplify_tool server) (ServerEnumerationResult.tools server).

Definition count_connected (servers : list ServerEnumerationResult.t) : Z :=
  Z.of_nat (List.length (filter connected servers)).

Lemma simplify_fold (servers : list ServerEnumerationResult.t) :
  forall acc,
    fold_left service.simplify_server servers acc
    = service.mk_simplified
        (service.simplified_servers acc ++ map summary_of servers)%list
        (service.simplified_tools acc ++ flat_map simplified_tools_of servers)%list
        (service.connected_count acc + count_connected servers)%Z.
Proof.
  induction servers as [|server rest IH]; intro acc.
  - cbn. rewrite !app_nil_r, Z.add_0_r. destruct acc; reflexivity.
  - cbn [fold_left]. rewrite IH. unfold service.simplify_server. cbv zeta.
    cbn [service.simplified_servers service.simplified_tools service.connected_count].
    rewrite server_status_eqb. cbn [map flat_map].
    rewrite <- !app_assoc. cbn [app].
    assert (Hsum : ServerResult.mk
                     (ServerEnumerationResult.server_name server)
                     (service.server_status server)
                     (Z.of_nat (List.length (ServerEnumerationResult.tools server)))
                     match ServerEnumerationResult.errors server with
                     | [] => None
                     | e :: _ => Some e
                     end = summary_of server).
    { unfold summary_of. destruct (ServerEnumerationResult.errors server); reflexivity. }
    rewrite Hsum.
    assert (Hcount : ((if connected server
                       then (service.connected_count acc + 1)%Z
                       else service.connected_count acc) + count_connected rest
                      = service.connected_count acc + count_connected (server :: rest))%Z).
    { unfold count_connected. cbn [filter].
      destruct (connected server); cbn [List.length]; lia. }
    rewrite Hcount. reflexivity.
Qed.

Lemma simplify_spec (servers : list ServerEnumerationResult.t) :
  service.simplify servers
  = service.mk_simplified (map summary_of servers)
                          (flat_map simplified_tools_of servers)
                          (count_connected servers).
Proof. unfold service.simplify. rewrite simplify_fold. reflexivity. Qed.

(** The sequential loop over tasks that cannot raise just maps the task
    over the configuration, in its order. *)
Lemma sequential_loop_results
      (f : string -> McpServerConfig -> ServerEnumerationResult.t)
      (items : list (string * McpServerConfig)) :
  forall acc,
    service.sequential_loop (fun n c => inl (f n c)) items acc
    = service.mk_collected
        (service.servers acc ++ map (fun item => f (fst item) (snd item)) items)%list
        (service.all_tools acc
         ++ flat_map (fun item => ServerEnumerationResult.tools (f (fst item) (snd item)))
                     items)%list
        (service.global_errors acc).
Proof.
  induction items as [|[name cfg] rest IH]; intro acc.
  - cbn. rewrite !app_nil_r. destruct acc; reflexivity.
  - cbn [service.sequential_loop]. rewrite IH. unfold service.on_result.
    cbn [service.servers service.all_tools service.global_errors map flat_map fst snd].
    rewrite <- !app_assoc. reflexivity.
Qed.

(** The loop over the results of [gather], when no task raised. *)
Lemma parallel_loop_results (server_names : list string)
      (results : list ServerEnumerationResult.t) :
  forall (i : nat) acc,
    service.parallel_loop server_names i (map inl results) acc
    = service.mk_collected
        (service.servers acc ++ results)%list
        (service.all_tools acc ++ flat_map ServerEnumerationResult.tools results)%list
        (service.global_errors acc).
Proof.
  induction results as [|r rest IH]; intros i acc.
  - cbn. rewrite !app_nil_r. destruct acc; reflexivity.
  - cbn [map service.parallel_loop]. rewrite IH. unfold service.on_result.
    cbn [service.servers service.all_tools service.global_errors flat_map].
    rewrite <- !app_assoc. reflexivity.
Qed.

(** The per-server results of a request: in the parallel branch what each
    task gives on the loop it finds, in the sequential branch what each
    call gives on its own. *)
Definition results_of (request : ToolEnumerationRequest.t)
  : list ServerEnumerationResult.t :=
  let items := mcpServers (ToolEnumerationRequest.mcp_json request) in
  let timeout_seconds := ToolEnumerationRequest.timeout_seconds request in
  let include_schemas := ToolEnumerationRequest.include_schemas request in
  if ToolEnumerationRequest.parallel_discovery request then
    let times :=
      map (fun item =>
             (service.comes_due_ms S (fst item) (snd item) timeout_seconds,
              service.holds_loop_ms S (fst item) (snd item) timeout_seconds)) items in
    map (fun indexed =>
           service._enumerate_server_tools_on_loop
             S (service.loop_free_at times (fst indexed))
             (fst (snd indexed)) (snd (snd indexed)) timeout_seconds include_schemas)
        (combine (seq 0 (List.length items)) items)
  else
    map (fun item =>
           service._enumerate_server_tools S (fst item) (snd item)
                                           timeout_seconds include_schemas) items.

(** Whatever the mode: one result per configured server, in configuration
    order, and no global error. *)
Lemma enumerate_servers_spec (request : ToolEnumerationRequest.t) :
  service.enumerate_servers S request
  = service.mk_collected
      (results_of request)
      (flat_map ServerEnumerationResult.tools (results_of request))
      [].
Proof.
  unfold service.enumerate_servers, results_of, service.collect.
  destruct (ToolEnumerationRequest.parallel_discovery request).
  - unfold service.gather.
    rewrite <- (map_map
                  (fun indexed : nat * (string * McpServerConfig) =>
                     service._enumerate_server_tools_on_loop
                       S (service.loop_free_at _ (fst indexed))
                       (fst (snd indexed)) (snd (snd indexed)) _ _)
                  inl).
    rewrite parallel_loop_results. reflexivity.
  - rewrite sequential_loop_results.
    cbn [service.servers service.all_tools service.global_errors app]. f_equal.
    induction (mcpServers (ToolEnumerationRequest.mcp_json request)) as [|item rest IH];
      [reflexivity|].
    cbn [map flat_map]. rewrite IH. reflexivity.
Qed.

(** What a task of the parallel branch can give: the result of the call on
    its own, or the timeout result, and the latter only for a discovery
    that had to be suspended. *)
Definition alone_or_starved (timeout_seconds : Z) (include_schemas : bool)
           (item : string * McpServerConfig) (result : ServerEnumerationResult.t)
  : Prop :=
  result = service._enumerate_server_tools S (fst item) (snd item)
                                           timeout_seconds include_schemas
  \/ (result = service.timeout_result (fst item) (snd item) timeout_seconds
      /\ exists coro t,
          service.discovery_of S (fst item) (snd item) timeout_seconds = Some coro
          /\ settles_after_ms coro = Some t
          /\ (0 < t <= timeout_seconds * 1000)%Z).

Lemma on_loop_alone_or_starved (free_at : Z) (timeout_seconds : Z)
      (include_schemas : bool) (item : string * McpServerConfig) :
  alone_or_starved timeout_seconds include_schemas item
    (service._enumerate_server_tools_on_loop S free_at (fst item) (snd item)
                                             timeout_seconds include_schemas).
Proof.
  unfold alone_or_starved, service._enumerate_server_tools_on_loop.
  destruct (service.discovery_of S (fst item) (snd item) timeout_seconds)
    as [coro|] eqn:Ed; [|left; reflexivity].
  destruct (service.starved coro timeout_seconds free_at) eqn:Es; [|left; reflexivity].
  right. split; [reflexivity|]. unfold service.starved in Es.
  destruct (settles_after_ms coro) as [t|] eqn:Et; [|discriminate Es].
  exists coro, t. split; [reflexivity|]. split; [exact Et|].
  apply andb_true_iff in Es. destruct Es as [Es _].
  apply andb_true_iff in Es. destruct Es as [Es _].
  apply andb_true_iff in Es. destruct Es as [E1 E2].
  apply Z.ltb_lt in E1. apply Z.leb_le in E2. lia.
Qed.

Lemma Forall2_map_indexed {A B : Type} (R : A -> B -> Prop) (f : nat * A -> B)
      (l : list A) :
  (forall j a, R a (f (j, a))) ->
  forall k, Forall2 R l (map f (combine (seq k (List.length l)) l)).
Proof.
  intro H. induction l as [|a l IH]; intro k; cbn; constructor.
  - apply H.
  - apply IH.
Qed.

Lemma results_of_related (request : ToolEnumerationRequest.t) :
  Forall2 (alone_or_starved (ToolEnumerationRequest.timeout_seconds request)
                            (ToolEnumerationRequest.include_schemas request))
          (mcpServers (ToolEnumerationRequest.mcp_json request))
          (results_of request).
Proof.
  unfold results_of.
  destruct (ToolEnumerationRequest.parallel_discovery request).
  - apply Forall2_map_indexed. intros j item. cbn [fst snd].
    apply on_loop_alone_or_starved.
  - induction (mcpServers (ToolEnumerationRequest.mcp_json request)) as [|item rest IH];
      cbn; constructor; [left; reflexivity|exact IH].
Qed.

Lemma enumerate_server_tools_name name cfg timeout include :
  ServerEnumerationResult.server_name
    (service._enumerate_server_tools S name cfg timeout include) = name.
Proof.
  unfold service._enumerate_server_tools.
  destruct (service._auto_select_strategy S cfg) as [strategy|e].
  - destruct (wait_for _ timeout) as [[[tools errors] warnings]|e].
    + reflexivity.
    + destruct e; reflexivity.
  - destruct e; reflexivity.
Qed.

Lemma alone_or_starved_name timeout include item result :
  alone_or_starved timeout include item result ->
  ServerEnumerationResult.server_name result = fst item.
Proof.
  intros [->|[-> _]]; [apply enumerate_server_tools_name|reflexivity].
Qed.

Lemma results_of_names (request : ToolEnumerationRequest.t) :
  map ServerEnumerationResult.server_name (results_of request)
  = map fst (mcpServers (ToolEnumerationRequest.mcp_json request)).
Proof.
  pose proof (results_of_related request) as H.
  induction H as [|item r items rs Hr _ IH]; [reflexivity|].
  cbn [map]. rewrite IH, (alone_or_starved_name _ _ _ _ Hr). reflexivity.
Qed.

Lemma results_of_length (request : ToolEnumerationRequest.t) :
  List.length (results_of request)
  = List.length (mcpServers (ToolEnumerationRequest.mcp_json request)).
Proof.
  rewrite <- (length_map ServerEnumerationResult.server_name), results_of_names.
  apply length_map.
Qed.

End Phases.

(** ** C1: connection status, connected count and overall status *)

Lemma count_connected_summaries (servers : list ServerEnumerationResult.t) :
  count_connected servers
  = Z.of_nat (List.length
                (filter (fun summary => ServerResult.status summary =? "connected")
                        (map summary_of servers))).
Proof.
  unfold count_connected. f_equal.
  induction servers as [|server rest IH]; [reflexivity|].
  cbn [map filter]. unfold summary_of at 1. cbn [ServerResult.status].
  rewrite server_status_eqb. destruct (connected server); cbn [List.length]; congruence.
Qed.

Lemma count_connected_positive (servers : list ServerEnumerationResult.t) :
  (count_connected servers > 0)%Z
  <-> exists server, In server servers /\ ServerEnumerationResult.errors server = [].
Proof.
  unfold count_connected. split.
  - intro H. destruct (filter connected servers) as [|server rest] eqn:E.
    + cbn in H. lia.
    + assert (Hin : In server (filter connected servers)) by (rewrite E; left; reflexivity).
      apply filter_In in Hin. destruct Hin as [Hin Hc]. exists server. split; [exact Hin|].
      unfold connected in Hc. destruct (ServerEnumerationResult.errors server);
        [reflexivity|discriminate Hc].
  - intros [server [Hin Herr]].
    assert (Hf : In server (filter connected servers)).
    { apply filter_In. split; [exact Hin|]. unfold connected. rewrite Herr. reflexivity. }
    destruct (filter connected servers); [destruct Hf|]. cbn [List.length]. lia.
Qed.

(** C1: in the report of any request, the summaries are those of the
    per-server results, one per configured server and in the same order; a
    summary says "connected" exactly when that server's error list is empty
    (whatever its tool count, which is reported alongside) and "error"
    otherwise; [connected_servers] is the number of servers with an empty
    error list; the overall status is "success" exactly when some server is
    connected and "error" otherwise. *)
Theorem C1_connected_iff_no_errors :
  forall (S : ToolDiscoveryMethod -> option IToolDiscoveryStrategy)
         (utcnow : string) (request : ToolEnumerationRequest.t),
    let results := service.servers (service.enumerate_servers S request) in
    let response := service.enumerate_tools S utcnow request in
    map ServerEnumerationResult.server_name results
    = map fst (mcpServers (ToolEnumerationRequest.mcp_json request))
    /\ Forall2
         (fun summary server =>
            ServerResult.name summary = ServerEnumerationResult.server_name server
            /\ (ServerResult.status summary = "connected"
                <-> ServerEnumerationResult.errors server = [])
            /\ (ServerResult.status summary = "error"
                <-> ServerEnumerationResult.errors server <> [])
            /\ ServerResult.tool_count summary
               = Z.of_nat (List.length (ServerEnumerationResult.tools server)))
         (ToolEnumerationResponse.servers response) results
    /\ ToolEnumerationResponse.connected_servers response
       = Z.of_nat (List.length (filter connected results))
    /\ ToolEnumerationResponse.connected_servers response
       = Z.of_nat (List.length
                     (filter (fun summary => ServerResult.status summary =? "connected")
                             (ToolEnumerationResponse.servers response)))
    /\ (ToolEnumerationResponse.status response = "success"
        <-> exists server, In server results /\ ServerEnumerationResult.errors server = [])
    /\ (ToolEnumerationResponse.status response = "success"
        <-> exists summary,
             In summary (ToolEnumerationResponse.servers response)
             /\ ServerResult.status summary = "connected")
    /\ (ToolEnumerationResponse.status response <> "success"
        -> ToolEnumerationResponse.status response = "error").
Proof.
  intros S utcnow request results response.
  assert (Hresp : ToolEnumerationResponse.servers response = map summary_of results
                  /\ ToolEnumerationResponse.connected_servers response
                     = count_connected results
                  /\ ToolEnumerationResponse.status response
                     = if (count_connected results >? 0)%Z then "success" else "error").
  { subst response. unfold service.enumerate_tools, service.build_response.
    fold results. rewrite simplify_spec. cbn. repeat split. }
  destruct Hresp as [Hservers [Hcount Hstatus]].
  assert (Hsuccess : ToolEnumerationResponse.status response = "success"
                     <-> (count_connected results > 0)%Z).
  { rewrite Hstatus. destruct (Z.gtb_spec (count_connected results) 0) as [Hgt|Hle].
    - split; intro; [lia|reflexivity].
    - split; intro H; [discriminate H|lia]. }
  split; [|split; [|split; [|split; [|split; [|split]]]]].
  - subst results. rewrite enumerate_servers_spec. cbn [service.servers].
    apply results_of_names.
  - rewrite Hservers. clear. induction results as [|server rest IH]; constructor; [|exact IH].
    unfold summary_of. cbn [ServerResult.name ServerResult.status ServerResult.tool_count].
    split; [reflexivity|]. split; [apply server_status_connected|]. split; [|reflexivity].
    unfold service.server_status.
    destruct (ServerEnumerationResult.errors server); split; intro H;
      try reflexivity; try discriminate H; congruence.
  - exact Hcount.
  - rewrite Hcount, Hservers. apply count_connected_summaries.
  - rewrite Hsuccess. apply count_connected_positive.
  - rewrite Hsuccess, count_connected_positive, Hservers. split.
    + intros [server [Hin Herr]]. exists (summary_of server). split.
      * apply in_map. exact Hin.
      * apply server_status_connected. exact Herr.
    + intros [summary [Hin Hst]]. apply in_map_iff in Hin.
      destruct Hin as [server [Heq Hin]]. exists server. split; [exact Hin|].
      apply server_status_connected. rewrite <- Heq in Hst. exact Hst.
  - rewrite Hstatus. destruct (count_connected results >? 0)%Z; intro H;
      [exfalso; apply H|]; reflexivity.
Qed.

(** ** C2: the per-server boundary *)

Lemma wait_for_exceeded {A : Type} (aw : awaitable A) (timeout : Z) :
  exceeds_deadline aw timeout -> wait_for aw timeout = inr TimeoutError.
Proof.
  unfold exceeds_deadline, wait_for. destruct (settles_after_ms aw) as [t|]; [|reflexivity].
  intro H. destruct (Z.leb_spec t (timeout * 1000)); [lia|reflexivity].
Qed.

Lemma wait_for_in_time {A : Type} (aw : awaitable A) (timeout : Z) :
  ~ exceeds_deadline aw timeout -> wait_for aw timeout = yields aw.
Proof.
  unfold exceeds_deadline, wait_for. destruct (settles_after_ms aw) as [t|].
  - intro H. destruct (Z.leb_spec t (timeout * 1000)); [reflexivity|lia].
  - intro H. exfalso. apply H. exact I.
Qed.

(** The two shapes a failed discovery is reported in. *)
Definition timeout_error (timeout_seconds : Z) : string :=
  "Discovery timeout after " ++ str_int timeout_seconds ++ " seconds".

Definition failure_error (e : exn) : string :=
  "Discovery failed: " ++ str_exn e.

(** C2, as stated, fails: a strategy that raises [asyncio.TimeoutError]
    itself, well within the deadline, is an exception other than a deadline
    expiry, yet it is reported with the timeout text, not with the generic
    failure text. *)
Lemma C2_strategy_timeout_error_reported_as_timeout :
  let S := fun _ : ToolDiscoveryMethod => Some samples.raising_timeout in
  let coro := discover_tools samples.raising_timeout "s" samples.bare 30 in
  let result := service._enumerate_server_tools S "s" samples.bare 30 true in
  ~ exceeds_deadline coro 30
  /\ yields coro = inr TimeoutError
  /\ ServerEnumerationResult.errors result = [timeout_error 30]
  /\ ServerEnumerationResult.errors result <> [failure_error TimeoutError].
Proof.
  cbv zeta. split; [|split; [|split]].
  - cbn. lia.
  - reflexivity.
  - reflexivity.
  - intro H. vm_compute in H. discriminate H.
Qed.

(** C2 (amended): when the awaited discovery exceeds the deadline, or
    itself raises [asyncio.TimeoutError], the result has no tools and
    exactly one timeout error; when it raises any other exception within
    the deadline, or no strategy can be looked up, the result has no tools
    and exactly one generic-failure error; the per-server call always
    returns a result, so no request ever records a global error and every
    configured server gets its result. *)
Theorem C2_failures_become_results :
  forall (S : ToolDiscoveryMethod -> option IToolDiscoveryStrategy)
         (server_name : string) (server_config : McpServerConfig)
         (timeout_seconds : Z) (include_schemas : bool),
    let result := service._enumerate_server_tools S server_name server_config
                                                  timeout_seconds include_schemas in
    match service._auto_select_strategy S server_config with
    | inl strategy =>
        let coro := discover_tools strategy server_name server_config timeout_seconds in
        (exceeds_deadline coro timeout_seconds \/ yields coro = inr TimeoutError ->
         ServerEnumerationResult.tools result = []
         /\ ServerEnumerationResult.errors result = [timeout_error timeout_seconds])
        /\ (forall e,
               ~ exceeds_deadline coro timeout_seconds ->
               yields coro = inr e -> e <> TimeoutError ->
               ServerEnumerationResult.tools result = []
               /\ ServerEnumerationResult.errors result = [failure_error e])
    | inr e =>
        ServerEnumerationResult.tools result = []
        /\ ServerEnumerationResult.errors result = [failure_error e]
    end
    /\ forall request : ToolEnumerationRequest.t,
        service.global_errors (service.enumerate_servers S request) = []
        /\ List.length (service.servers (service.enumerate_servers S request))
           = List.length (mcpServers (ToolEnumerationRequest.mcp_json request)).
Proof.
  intros S name cfg timeout include result. split.
  - subst result. unfold service._enumerate_server_tools.
    destruct (service._auto_select_strategy S cfg) as [strategy|e] eqn:Hsel.
    + cbv zeta. split.
      * intros [Hdead|Hraise].
        -- rewrite (wait_for_exceeded _ _ Hdead). split; reflexivity.
        -- destruct (wait_for (discover_tools strategy name cfg timeout) timeout)
             as [[[tools errors] warnings]|e] eqn:Hwait.
           ++ exfalso. unfold wait_for in Hwait.
              destruct (settles_after_ms _) as [t|]; [|discriminate Hwait].
              destruct (t <=? timeout * 1000)%Z; [|discriminate Hwait].
              rewrite Hraise in Hwait. discriminate Hwait.
           ++ unfold wait_for in Hwait.
              destruct (settles_after_ms _) as [t|].
              ** destruct (t <=? timeout * 1000)%Z.
                 --- rewrite Hraise in Hwait. injection Hwait as <-. split; reflexivity.
                 --- injection Hwait as <-. split; reflexivity.
              ** injection Hwait as <-. split; reflexivity.
      * intros e Hin Hraise Hne. rewrite (wait_for_in_time _ _ Hin), Hraise.
        destruct e; try (split; reflexivity). exfalso. apply Hne. reflexivity.
    + unfold service._auto_select_strategy, service.subscript in Hsel.
      assert (Hkey : exists msg, e = KeyError msg).
      { destruct (truthy_str (url cfg)); [|destruct (truthy_str (command cfg))];
          match type of Hsel with
          | context [S ?k] => destruct (S k); [discriminate Hsel|]
          end; injection Hsel as <-; eexists; reflexivity. }
      destruct Hkey as [msg ->]. split; reflexivity.
  - intro request. rewrite enumerate_servers_spec.
    cbn [service.global_errors service.servers]. split; [reflexivity|].
    apply results_of_length.
Qed.

(** C2 at work: a discovery that never settles, one that raises
    [ValueError], and a dict without strategies. *)
Lemma C2_failures_become_results_witness :
  (let S := fun _ : ToolDiscoveryMethod =>
              Some (mk_strategy (fun _ _ _ => mk_awaitable None (inl ([], [], [])))
                                (fun _ => UNKNOWN)) in
   let result := service._enumerate_server_tools S "s" samples.bare 30 true in
   ServerEnumerationResult.tools result = []
   /\ ServerEnumerationResult.errors result = ["Discovery timeout after 30 seconds"])
  /\ (let S := fun _ : ToolDiscoveryMethod =>
                 Some (mk_strategy
                         (fun _ _ _ => mk_awaitable (Some 5%Z) (inr (Exception "boom")))
                         (fun _ => UNKNOWN)) in
      let result := service._enumerate_server_tools S "s" samples.bare 30 true in
      ServerEnumerationResult.tools result = []
      /\ ServerEnumerationResult.errors result = ["Discovery failed: boom"]).
Proof.
  split.
  - pose proof (C2_failures_become_results
                  (fun _ => Some (mk_strategy
                                    (fun _ _ _ => mk_awaitable None (inl ([], [], [])))
                                    (fun _ => UNKNOWN)))
                  "s" samples.bare 30 true) as H.
    cbv zeta in H. destruct H as [H _]. cbn in H. destruct H as [H _].
    apply H. left. exact I.
  - pose proof (C2_failures_become_results
                  (fun _ => Some (mk_strategy
                                    (fun _ _ _ => mk_awaitable (Some 5%Z)
                                                               (inr (Exception "boom")))
                                    (fun _ => UNKNOWN)))
                  "s" samples.bare 30 true) as H.
    cbv zeta in H. destruct H as [H _]. cbn in H. destruct H as [_ H].
    apply (H (Exception "boom")).
    + lia.
    + reflexivity.
    + discriminate.
Defined.

(** ** The fallback strategy (C5, C10) *)

(** What the fallback strategy returns for any input: one placeholder tool
    without schema, tagged as found by parsing the configuration, no error
    and one warning. *)
Lemma fallback_discovery_shape (utcnow server_name : string)
      (server_config : McpServerConfig) (timeout_seconds : Z) :
  exists tool,
    mcp_json_strategy.discover utcnow server_name server_config timeout_seconds
    = ([tool], [], ["Created fallback tool from MCP JSON config for " ++ server_name])
    /\ EnumeratedTool.name tool = server_name ++ "_config"
    /\ EnumeratedTool.input_schema tool = None
    /\ EnumeratedTool.discovery_method tool = MCP_JSON_PARSING
    /\ EnumeratedTool.server_name tool = server_name.
Proof. eexists. repeat split. Qed.

(** The orchestrator's result for a server with neither [url] nor
    [command], once the fallback strategy is registered. *)
Lemma fallback_server_result
      (S : ToolDiscoveryMethod -> option IToolDiscoveryStrategy)
      (utcnow server_name : string) (server_config : McpServerConfig)
      (timeout_seconds : Z) (include_schemas : bool) :
  S MCP_JSON_PARSING = Some (mcp_json_strategy.McpJsonParsingStrategy utcnow) ->
  (0 <= timeout_seconds)%Z ->
  url server_config = None ->
  command server_config = None ->
  let result := service._enumerate_server_tools S server_name server_config
                                                timeout_seconds include_schemas in
  ServerEnumerationResult.errors result = []
  /\ List.length (ServerEnumerationResult.tools result) = 1%nat
  /\ ServerEnumerationResult.server_name result = server_name.
Proof.
  intros HS Ht Hurl Hcmd. cbv zeta.
  unfold service._enumerate_server_tools, service._auto_select_strategy, service.subscript.
  rewrite Hurl, Hcmd. cbn [truthy_str]. rewrite HS.
  cbn [discover_tools mcp_json_strategy.McpJsonParsingStrategy
       mcp_json_strategy.discover_tools].
  unfold wait_for. cbn [settles_after_ms yields].
  assert (Hle : (0 <=? timeout_seconds * 1000)%Z = true) by (apply Z.leb_le; lia).
  unfold mcp_json_strategy.discover.
  destruct include_schemas; cbn; rewrite Hle; repeat split.
Qed.

Lemma fallback_results_all_connected
      (S : ToolDiscoveryMethod -> option IToolDiscoveryStrategy)
      (utcnow : string) (timeout_seconds : Z) (include_schemas : bool)
      (items : list (string * McpServerConfig)) :
  S MCP_JSON_PARSING = Some (mcp_json_strategy.McpJsonParsingStrategy utcnow) ->
  (0 <= timeout_seconds)%Z ->
  (forall server_name server_config,
      In (server_name, server_config) items ->
      url server_config = None /\ command server_config = None) ->
  let run := fun item : string * McpServerConfig =>
               service._enumerate_server_tools S (fst item) (snd item)
                                               timeout_seconds include_schemas in
  filter connected (map run items) = map run items.
Proof.
  intros HS Ht Hall run.
  induction items as [|[name cfg] rest IH]; [reflexivity|].
  cbn [map filter].
  destruct (Hall name cfg (or_introl eq_refl)) as [Hurl Hcmd].
  destruct (fallback_server_result S utcnow name cfg timeout_seconds include_schemas
                                   HS Ht Hurl Hcmd) as [Herr _].
  unfold connected at 1. subst run. cbn [fst snd]. rewrite Herr. f_equal. apply IH.
  intros n c Hin. apply (Hall n c). right. exact Hin.
Qed.

Lemma Forall2_in_l {A B : Type} (R : A -> B -> Prop) (l : list A) (l' : list B) (a : A) :
  Forall2 R l l' -> In a l -> exists b, In b l' /\ R a b.
Proof.
  intro H. induction H as [|x y l l' Hxy _ IH]; intros Hin; [destruct Hin|].
  destruct Hin as [<-|Hin].
  - exists y. split; [left; reflexivity|exact Hxy].
  - destruct (IH Hin) as (b & Hb & Hr). exists b. split; [right; exact Hb|exact Hr].
Qed.

(** The fallback coroutine never suspends, so no sibling can make it miss
    its deadline: also as a task its result is the one of the call on its
    own. *)
Lemma fallback_never_starved
      (S : ToolDiscoveryMethod -> option IToolDiscoveryStrategy)
      (now : string) (timeout_seconds : Z) (include_schemas : bool)
      (item : string * McpServerConfig) (result : ServerEnumerationResult.t) :
  S MCP_JSON_PARSING = Some (mcp_json_strategy.McpJsonParsingStrategy now) ->
  url (snd item) = None -> command (snd item) = None ->
  alone_or_starved S timeout_seconds include_schemas item result ->
  result = service._enumerate_server_tools S (fst item) (snd item)
                                           timeout_seconds include_schemas.
Proof.
  intros HS Hurl Hcmd [H|(_ & coro & t & Hd & Ht & Hpos & _)]; [exact H|].
  exfalso. unfold service.discovery_of, service._auto_select_strategy in Hd.
  rewrite Hurl, Hcmd in Hd. cbn [truthy_str] in Hd.
  unfold service.subscript in Hd. rewrite HS in Hd. injection Hd as <-.
  cbn in Ht. injection Ht as <-. lia.
Qed.

Lemma fallback_results_alone
      (S : ToolDiscoveryMethod -> option IToolDiscoveryStrategy)
      (now : string) (request : ToolEnumerationRequest.t) :
  S MCP_JSON_PARSING = Some (mcp_json_strategy.McpJsonParsingStrategy now) ->
  (forall server_name server_config,
      In (server_name, server_config)
         (mcpServers (ToolEnumerationRequest.mcp_json request)) ->
      url server_config = None /\ command server_config = None) ->
  results_of S request
  = map (fun item =>
           service._enumerate_server_tools
             S (fst item) (snd item)
             (ToolEnumerationRequest.timeout_seconds request)
             (ToolEnumerationRequest.include_schemas request))
        (mcpServers (ToolEnumerationRequest.mcp_json request)).
Proof.
  intros HS Hall. pose proof (results_of_related S request) as H.
  induction H as [|item r items rs Hr _ IH]; [reflexivity|].
  cbn [map]. f_equal.
  - destruct item as [name cfg]. destruct (Hall name cfg (or_introl eq_refl)) as [Hu Hc].
    exact (fallback_never_starved S now _ _ (name, cfg) r HS Hu Hc Hr).
  - apply IH. intros n c Hin. apply (Hall n c). right. exact Hin.
Qed.

(** C10: with the fallback strategy registered and a valid timeout, every
    server configured with neither [url] nor [command] gets a result with an
    empty error list, hence a summary with status "connected"; and a
    configuration that has servers, all of this kind, is reported with
    overall status "success" and every server counted as connected, though
    no live discovery took place. *)
Theorem C10_fallback_servers_always_connected :
  forall (S : ToolDiscoveryMethod -> option IToolDiscoveryStrategy)
         (now utcnow : string) (request : ToolEnumerationRequest.t),
    S MCP_JSON_PARSING = Some (mcp_json_strategy.McpJsonParsingStrategy now) ->
    ToolEnumerationRequest.valid request ->
    let configured := mcpServers (ToolEnumerationRequest.mcp_json request) in
    let results := service.servers (service.enumerate_servers S request) in
    let response := service.enumerate_tools S utcnow request in
    (forall server_name server_config,
        In (server_name, server_config) configured ->
        url server_config = None -> command server_config = None ->
        snd (fst (mcp_json_strategy.discover
                    now server_name server_config
                    (ToolEnumerationRequest.timeout_seconds request))) = []
        /\ exists result,
            In result results
            /\ ServerEnumerationResult.server_name result = server_name
            /\ ServerEnumerationResult.errors result = []
            /\ connected result = true
            /\ In (summary_of result) (ToolEnumerationResponse.servers response)
            /\ ServerResult.status (summary_of result) = "connected")
    /\ (configured <> [] ->
        (forall server_name server_config,
            In (server_name, server_config) configured ->
            url server_config = None /\ command server_config = None) ->
        ToolEnumerationResponse.status response = "success"
        /\ ToolEnumerationResponse.connected_servers response
           = Z.of_nat (List.length configured)
        /\ ToolEnumerationResponse.total_servers response
           = Z.of_nat (List.length configured)).
Proof.
  intros S now utcnow request HS Hvalid configured results response.
  assert (Ht : (0 <= ToolEnumerationRequest.timeout_seconds request)%Z)
    by (unfold ToolEnumerationRequest.valid in Hvalid; lia).
  assert (Hres : results = results_of S request).
  { subst results. rewrite enumerate_servers_spec. reflexivity. }
  assert (Hresp : ToolEnumerationResponse.servers response = map summary_of results
                  /\ ToolEnumerationResponse.connected_servers response
                     = count_connected results
                  /\ ToolEnumerationResponse.total_servers response
                     = Z.of_nat (List.length configured)
                  /\ ToolEnumerationResponse.status response
                     = if (count_connected results >? 0)%Z then "success" else "error").
  { subst response. unfold service.enumerate_tools, service.build_response.
    fold results. rewrite simplify_spec. cbn. repeat split. }
  destruct Hresp as [Hservers [Hcount [Htotal Hstatus]]].
  split.
  - intros name cfg Hin Hurl Hcmd. split; [reflexivity|].
    destruct (fallback_server_result S now name cfg _
                (ToolEnumerationRequest.include_schemas request) HS Ht Hurl Hcmd)
      as [Herr [_ Hname]].
    set (run := fun item : string * McpServerConfig =>
                  service._enumerate_server_tools
                    S (fst item) (snd item)
                    (ToolEnumerationRequest.timeout_seconds request)
                    (ToolEnumerationRequest.include_schemas request)) in *.
    assert (Hrun : In (run (name, cfg)) results).
    { destruct (Forall2_in_l _ _ _ _ (results_of_related S request) Hin)
        as (r & Hr & Hrel).
      rewrite Hres.
      pose proof (fallback_never_starved S now _ _ (name, cfg) r HS Hurl Hcmd Hrel)
        as Heq.
      subst run. cbv beta. rewrite <- Heq. exact Hr. }
    exists (run (name, cfg)). split; [exact Hrun|].
    split; [exact Hname|]. split; [exact Herr|].
    split; [unfold connected; subst run; cbn [fst snd]; rewrite Herr; reflexivity|].
    split.
    + rewrite Hservers. apply in_map. exact Hrun.
    + unfold summary_of. cbn [ServerResult.status].
      apply server_status_connected. exact Herr.
  - intros Hne Hall.
    assert (Hmap : results
                   = map (fun item =>
                            service._enumerate_server_tools
                              S (fst item) (snd item)
                              (ToolEnumerationRequest.timeout_seconds request)
                              (ToolEnumerationRequest.include_schemas request))
                         configured).
    { rewrite Hres. apply (fallback_results_alone S now); assumption. }
    assert (Hfilter : filter connected results = results).
    { rewrite Hmap. apply (fallback_results_all_connected S now); assumption. }
    assert (Hcc : count_connected results = Z.of_nat (List.length configured)).
    { unfold count_connected. rewrite Hfilter, Hmap, length_map. reflexivity. }
    rewrite Hstatus, Hcount, Htotal, Hcc. split; [|split; reflexivity].
    destruct configured as [|item rest]; [exfalso; apply Hne; reflexivity|].
    cbn [List.length]. destruct (Z.gtb_spec (Z.of_nat (Datatypes.S (List.length rest))) 0);
      [reflexivity|lia].
Qed.

(** C10 on a configuration of two servers without [url] and [command],
    wired as the container does. *)
Lemma C10_fallback_servers_always_connected_witness :
  let request := samples.request_of [("a", samples.bare); ("b", samples.bare)] true in
  let response := container.enumerate_tools samples.quiet_world request in
  ToolEnumerationResponse.status response = "success"
  /\ ToolEnumerationResponse.connected_servers response = 2%Z
  /\ ToolEnumerationResponse.total_servers response = 2%Z.
Proof.
  cbv zeta.
  refine (proj2 (C10_fallback_servers_always_connected
                   (container.strategies samples.quiet_world)
                   (container.utcnow samples.quiet_world)
                   (container.utcnow samples.quiet_world)
                   (samples.request_of [("a", samples.bare); ("b", samples.bare)] true)
                   eq_refl _) _ _).
  - unfold ToolEnumerationRequest.valid. cbn. lia.
  - cbn. discriminate.
  - cbn. intros n c [H|[H|[]]]; injection H as <- <-; split; reflexivity.
Defined.

(** C5 fails on the environment: for an entry whose environment holds a
    secret, the placeholder's metadata carries the whole mapping, value
    included, where the process strategy keeps the key names only. *)
Theorem C5_fallback_metadata_carries_env_values :
  exists tool,
    mcp_json_strategy.discover "2025-09-14T00:00:00" "s" samples.secret_env_config 30
    = ([tool], [], ["Created fallback tool from MCP JSON config for s"])
    /\ EnumeratedTool.input_schema tool = None
    /\ EnumeratedTool.discovery_method tool = MCP_JSON_PARSING
    /\ get (EnumeratedTool.metadata tool) "env" = JObj [("API_KEY", JStr "s3cr3t")]
    /\ get (EnumeratedTool.metadata tool) "env" <> JArr [JStr "API_KEY"].
Proof.
  eexists. split; [reflexivity|]. cbn. repeat split. discriminate.
Qed.

(** ** The two modes of a request *)


(** ** C8: schema inclusion *)

(** The same request with another value for [include_schemas]. *)
Definition with_schemas (request : ToolEnumerationRequest.t) (include : bool)
  : ToolEnumerationRequest.t :=
  ToolEnumerationRequest.mk
    (ToolEnumerationRequest.mcp_json request)
    (ToolEnumerationRequest.timeout_seconds request)
    include
    (ToolEnumerationRequest.parallel_discovery request).

(** A per-server result with the schema of every tool set to [None] and
    nothing else touched. *)
Definition without_schemas (result : ServerEnumerationResult.t)
  : ServerEnumerationResult.t :=
  ServerEnumerationResult.mk
    (ServerEnumerationResult.server_name result)
    (ServerEnumerationResult.transport_type result)
    (ServerEnumerationResult.server_url result)
    (ServerEnumerationResult.command result)
    (map (fun tool => EnumeratedTool.set_input_schema tool None)
         (ServerEnumerationResult.tools result))
    (ServerEnumerationResult.errors result)
    (ServerEnumerationResult.warnings result)
    (ServerEnumerationResult.discovery_duration_ms result).

Lemma enumerate_server_tools_without_schemas
      (S : ToolDiscoveryMethod -> option IToolDiscoveryStrategy)
      (server_name : string) (server_config : McpServerConfig) (timeout_seconds : Z) :
  service._enumerate_server_tools S server_name server_config timeout_seconds false
  = without_schemas
      (service._enumerate_server_tools S server_name server_config timeout_seconds true).
Proof.
  unfold service._enumerate_server_tools.
  destruct (service._auto_select_strategy S server_config) as [strategy|e].
  - destruct (wait_for _ timeout_seconds) as [[[tools errors] warnings]|e].
    + reflexivity.
    + destruct e; reflexivity.
  - destruct e; reflexivity.
Qed.

Lemma simplified_tools_without_schemas (server : ServerEnumerationResult.t) :
  simplified_tools_of (without_schemas server)
  = map (fun tool => SimplifiedTool.mk (SimplifiedTool.server tool)
                                       (SimplifiedTool.name tool)
                                       (SimplifiedTool.description tool) None)
        (simplified_tools_of server).
Proof.
  unfold simplified_tools_of, without_schemas. cbn [ServerEnumerationResult.tools].
  rewrite !map_map. apply map_ext. intro tool. reflexivity.
Qed.

Lemma summary_without_schemas (server : ServerEnumerationResult.t) :
  summary_of server = summary_of (without_schemas server).
Proof.
  unfold summary_of, without_schemas, service.server_status.
  cbn [ServerEnumerationResult.server_name ServerEnumerationResult.errors
       ServerEnumerationResult.tools].
  rewrite length_map. reflexivity.
Qed.

Lemma flat_simplified_without_schemas (servers : list ServerEnumerationResult.t) :
  flat_map simplified_tools_of (map without_schemas servers)
  = map (fun tool => SimplifiedTool.mk (SimplifiedTool.server tool)
                                       (SimplifiedTool.name tool)
                                       (SimplifiedTool.description tool) None)
        (flat_map simplified_tools_of servers).
Proof.
  induction servers as [|r rest IH]; [reflexivity|].
  cbn [map flat_map]. rewrite map_app, IH, simplified_tools_without_schemas.
  reflexivity.
Qed.

(** C8: compare a request with schema inclusion disabled against the same
    request with it enabled.  Each per-server result of the first is the
    corresponding result of the second with every tool's schema set to
    [None] and no other field changed (so the stripping sits between
    discovery and aggregation); in the report every tool has a null schema
    and the same server, name and description, in the same order, as with
    schemas enabled; summaries, counts, status and message are equal. *)
Theorem C8_schemas_stripped_names_kept :
  forall (S : ToolDiscoveryMethod -> option IToolDiscoveryStrategy)
         (utcnow : string) (request : ToolEnumerationRequest.t),
    let results_off := service.servers (service.enumerate_servers
                                          S (with_schemas request false)) in
    let results_on := service.servers (service.enumerate_servers
                                         S (with_schemas request true)) in
    let off := service.enumerate_tools S utcnow (with_schemas request false) in
    let on := service.enumerate_tools S utcnow (with_schemas request true) in
    results_off = map without_schemas results_on
    /\ Forall (fun tool => SimplifiedTool.inputSchema tool = None)
              (ToolEnumerationResponse.tools off)
    /\ ToolEnumerationResponse.tools off
       = map (fun tool => SimplifiedTool.mk (SimplifiedTool.server tool)
                                            (SimplifiedTool.name tool)
                                            (SimplifiedTool.description tool) None)
             (ToolEnumerationResponse.tools on)
    /\ map (fun tool => (SimplifiedTool.server tool, SimplifiedTool.name tool,
                         SimplifiedTool.description tool))
           (ToolEnumerationResponse.tools off)
       = map (fun tool => (SimplifiedTool.server tool, SimplifiedTool.name tool,
                           SimplifiedTool.description tool))
             (ToolEnumerationResponse.tools on)
    /\ ToolEnumerationResponse.servers off = ToolEnumerationResponse.servers on
    /\ ToolEnumerationResponse.status off = ToolEnumerationResponse.status on
    /\ ToolEnumerationResponse.message off = ToolEnumerationResponse.message on
    /\ ToolEnumerationResponse.timestamp off = ToolEnumerationResponse.timestamp on
    /\ ToolEnumerationResponse.total_servers off = ToolEnumerationResponse.total_servers on
    /\ ToolEnumerationResponse.connected_servers off
       = ToolEnumerationResponse.connected_servers on.
Proof.
  intros S utcnow request results_off results_on off on.
  assert (Hres : results_off = map without_schemas results_on).
  { subst results_off results_on. rewrite !enumerate_servers_spec.
    cbn [service.servers]. unfold results_of.
    cbn [with_schemas ToolEnumerationRequest.mcp_json ToolEnumerationRequest.timeout_seconds
         ToolEnumerationRequest.include_schemas ToolEnumerationRequest.parallel_discovery].
    destruct (ToolEnumerationRequest.parallel_discovery request).
    - rewrite map_map. apply map_ext. intros [j [name cfg]]. cbn [fst snd].
      unfold service._enumerate_server_tools_on_loop.
      destruct (service.discovery_of S name cfg _) as [coro|];
        [destruct (service.starved coro _ _); [reflexivity|]|];
        apply enumerate_server_tools_without_schemas.
    - rewrite map_map. apply map_ext. intros [name cfg].
      apply enumerate_server_tools_without_schemas. }
  assert (Hsum : map summary_of results_off = map summary_of results_on).
  { rewrite Hres, map_map. apply map_ext. intro r. symmetry.
    apply summary_without_schemas. }
  assert (Hcnt : count_connected results_off = count_connected results_on).
  { rewrite !count_connected_summaries, Hsum. reflexivity. }
  assert (Htools : flat_map simplified_tools_of results_off
                   = map (fun tool => SimplifiedTool.mk (SimplifiedTool.server tool)
                                                        (SimplifiedTool.name tool)
                                                        (SimplifiedTool.description tool)
                                                        None)
                         (flat_map simplified_tools_of results_on)).
  { rewrite Hres. apply flat_simplified_without_schemas. }
  subst off on. unfold service.enumerate_tools, service.build_response.
  fold results_off results_on. rewrite !simplify_spec.
  cbn [service.simplified_servers service.simplified_tools service.connected_count
       ToolEnumerationResponse.tools ToolEnumerationResponse.servers
       ToolEnumerationResponse.status ToolEnumerationResponse.message
       ToolEnumerationResponse.timestamp ToolEnumerationResponse.total_servers
       ToolEnumerationResponse.connected_servers
       with_schemas ToolEnumerationRequest.mcp_json].
  rewrite Hsum, Hcnt, Htools.
  split; [exact Hres|]. split.
  - apply Forall_forall. intros tool Hin. apply in_map_iff in Hin.
    destruct Hin as [t [<- _]]. reflexivity.
  - split; [reflexivity|]. split.
    + rewrite map_map. apply map_ext. intro tool. reflexivity.
    + repeat split.
Qed.

(** ** C7: normalisation of tool entries *)

(** [{"name": "a", "description": "d"}]. *)
Definition flat_entry : dict := [("name", JStr "a"); ("description", JStr "d")].

(** [{"x": {"name": "a", "description": "d"}}]. *)
Definition wrapper_entry : dict := [("x", JObj flat_entry)].

Lemma existsb_false_iff {A : Type} (f : A -> bool) (l : list A) :
  existsb f l = false <-> forall x, In x l -> f x = false.
Proof.
  induction l as [|a l IH]; cbn.
  - split; [intros _ x []|reflexivity].
  - rewrite orb_false_iff, IH. split.
    + intros [Ha Hl] x [<-|Hx]; [exact Ha|apply Hl; exact Hx].
    + intro H. split; [apply H; left; reflexivity|].
      intros x Hx. apply H. right. exact Hx.
Qed.

(** C7: the flat entry and the singly-keyed wrapper entry of the
    specification both become descriptors named "a" and described by "d",
    at any position and under any server; an entry is treated as a wrapper
    exactly when it has one key and none of the direct field names; a
    wrapper around an object takes its fields from that object (the sole key
    standing in for a missing name), any other entry is read as flat. *)
Theorem C7_flat_and_wrapper_normalize_alike :
  (forall (utcnow server_name : string) (metadata : dict -> dict) (i j : nat),
      exists flat wrapped,
        http_strategy.make_tool utcnow server_name metadata i flat_entry = Some flat
        /\ http_strategy.make_tool utcnow server_name metadata j wrapper_entry = Some wrapped
        /\ EnumeratedTool.name flat = "a"
        /\ EnumeratedTool.name wrapped = "a"
        /\ EnumeratedTool.description flat = Some "d"
        /\ EnumeratedTool.description wrapped = Some "d"
        /\ EnumeratedTool.input_schema flat = EnumeratedTool.input_schema wrapped)
  /\ (forall utcnow validation_error server_name metadata,
         map (fun tool => (EnumeratedTool.name tool, EnumeratedTool.description tool))
             (fst (http_strategy.convert_entries
                     utcnow validation_error server_name metadata 0
                     [JObj flat_entry; JObj wrapper_entry] []))
         = [("a", Some "d"); ("a", Some "d")])
  /\ (forall tool_data : dict,
         http_strategy.is_nested tool_data = true
         <-> (List.length tool_data = 1%nat
              /\ forall key, In key ["name"; "description"; "inSchema"; "inputSchema"]
                             -> has_key tool_data key = false))
  /\ (forall (i : nat) (tool_name : string) (details : dict),
         http_strategy.is_nested [(tool_name, JObj details)] = true ->
         http_strategy.normalize i [(tool_name, JObj details)]
         = (get_default details "name" (JStr tool_name),
            get details "description",
            get_default details "inSchema"
              (get_default details "inputSchema" (get details "schema"))))
  /\ (forall (i : nat) (tool_data : dict),
         http_strategy.is_nested tool_data = false ->
         truthy (get tool_data "name") = true ->
         http_strategy.normalize i tool_data
         = (get tool_data "name",
            get_default tool_data "description" (get tool_data "summary"),
            get_default tool_data "inputSchema"
              (get_default tool_data "inSchema" (get tool_data "schema")))).
Proof.
  split; [|split; [|split; [|split]]].
  - intros. eexists. eexists. repeat split.
  - intros. reflexivity.
  - intro tool_data. unfold http_strategy.is_nested, http_strategy.direct_fields.
    rewrite andb_true_iff, Nat.eqb_eq, negb_true_iff, existsb_false_iff. reflexivity.
  - intros i tool_name details H. unfold http_strategy.normalize. rewrite H. reflexivity.
  - intros i tool_data H Hname. unfold http_strategy.normalize. rewrite H, Hname.
    reflexivity.
Qed.

(** C7 on the two entries of the specification and on an entry with two
    keys. *)
Lemma C7_flat_and_wrapper_normalize_alike_witness :
  http_strategy.normalize 0 wrapper_entry = (JStr "a", JStr "d", JNull)
  /\ http_strategy.normalize 0 flat_entry = (JStr "a", JStr "d", JNull).
Proof.
  destruct C7_flat_and_wrapper_normalize_alike as [_ [_ [_ [Hwrap Hflat]]]].
  split.
  - exact (Hwrap 0%nat "x" flat_entry eq_refl).
  - exact (Hflat 0%nat flat_entry eq_refl eq_refl).
Defined.

(** ** C6: the order of the info-endpoint probe *)

(** A peer that lists tools under every public-info path, a different tool
    under each. *)
Definition every_path_client : httpx.AsyncClient :=
  httpx.mk_AsyncClient
    (fun url _ =>
       let tools_named := fun n =>
         inl (httpx.mk_Response 200
                (inl (JObj [("tools", JArr [JObj [("name", JStr n)]])])) None) in
       if url =? "http://x/info" then tools_named "from_info"
       else if url =? "http://x/.well-known/mcp" then tools_named "from_well_known"
       else if url =? "http://x/api/info" then tools_named "from_api_info"
       else if url =? "http://x/" then tools_named "from_root"
       else inl (httpx.mk_Response 404 (inr (Exception "Expecting value"))
                                   (Some (Exception "Client error '404 Not Found'"))))
    (fun _ _ _ => inr (Exception "All connection attempts failed")).

(** The requests of the endpoint loop are a prefix, in order, of the URLs
    of the endpoint list it is run on. *)
Lemma probe_endpoints_requests
      (utcnow : string) (validation_error : dict -> string)
      (protocol failure : string) (c : httpx.AsyncClient) (server_url : string)
      (headers : list (string * string)) (server_name : string)
      (endpoints : list string) :
  forall tools requested,
  exists k,
    fst (http_strategy.probe_endpoints utcnow validation_error protocol failure c
           server_url headers server_name endpoints tools requested)
    = (requested ++ firstn k (map (http_strategy.endpoint_url server_url) endpoints))%list
    /\ (endpoints <> [] -> 1 <= k)%nat.
Proof.
  induction endpoints as [|endpoint rest IH]; intros tools requested.
  - exists 0%nat. cbn. destruct tools; cbn; rewrite app_nil_r; split; try reflexivity;
      intro H; exfalso; apply H; reflexivity.
  - cbn [http_strategy.probe_endpoints].
    destruct (http_strategy.probe_endpoint _ _ _ _ _ _ _ _ _) as [found|kept].
    + exists 1%nat. cbn. split; [reflexivity|]. intros _. lia.
    + destruct (IH kept (requested ++ [http_strategy.endpoint_url server_url endpoint])%list)
        as [k [Hk _]].
      exists (Datatypes.S k). rewrite Hk. cbn [map firstn]. rewrite <- app_assoc.
      split; [reflexivity|]. intros _. lia.
Qed.

(** C6 fails on the order: the info probe always starts with the root path
    and walks the declared list backwards; against a peer that lists tools
    under every path it asks the root path only and returns the root's tool,
    where the declared order would have asked the informational path. *)
Theorem C6_info_probe_starts_at_root :
  (forall utcnow validation_error c server_url headers server_name,
      exists k,
        (1 <= k)%nat
        /\ fst (http_strategy._discover_public_info utcnow validation_error c
                  server_url headers server_name)
           = firstn k (map (http_strategy.endpoint_url server_url)
                           ["/"; "/api/info"; "/.well-known/mcp"; "/info"]))
  /\ map (http_strategy.endpoint_url "http://x/")
         http_strategy.public_info_endpoints_declared
     = ["http://x/info"; "http://x/.well-known/mcp"; "http://x/api/info"; "http://x/"]
  /\ fst (http_strategy._discover_public_info
            "2025-09-14T00:00:00" (fun _ => EmptyString) every_path_client "http://x/" [] "s1")
     = ["http://x/"]
  /\ match snd (http_strategy._discover_public_info
                  "2025-09-14T00:00:00" (fun _ => EmptyString) every_path_client
                  "http://x/" [] "s1") with
     | inl tools => map EnumeratedTool.name tools = ["from_root"]
     | inr _ => False
     end.
Proof.
  split; [|split; [|split]].
  - intros utcnow validation_error c server_url hdrs server_name.
    unfold http_strategy._discover_public_info.
    destruct (probe_endpoints_requests
                utcnow validation_error "public-info"
                "No valid public info endpoints found" c server_url hdrs server_name
                (rev http_strategy.public_info_endpoints_declared) [] [])
      as [k [Hk Hpos]].
    exists k. split.
    + apply Hpos. cbn. discriminate.
    + rewrite Hk. reflexivity.
  - reflexivity.
  - vm_compute. reflexivity.
  - vm_compute. reflexivity.
Qed.

(** ** C4: teardown of the spawned process *)

Module teardown_proof.
Import stdio_strategy.

(** Events of the handshake proper. *)
Definition handshake_event (ev : event) : Prop :=
  match ev with
  | Poll | Write _ | ReadLine => True
  | _ => False
  end.

(** What the cleanup does to a child: SIGTERM, then the five-second wait
    unless [terminate] itself failed, then SIGKILL when [terminate] failed
    or the child outlived the wait. *)
Definition teardown_trace (c : child) : list event :=
  if terminate_raises c then [Terminate; Kill]
  else if exits_early c || exits_on_sigterm c then [Terminate; Wait 5]
  else [Terminate; Wait 5; Kill].

(** A block that leaves the child alone: no event, no change of status. *)
Definition silent {A : Type} (m : M A) : Prop :=
  forall st c st', m st = (c, st') -> log st' = log st /\ status st' = status st.

(** A block that only talks to the child: handshake events, no change of
    status. *)
Definition quiet {A : Type} (m : M A) : Prop :=
  forall st c st',
    m st = (c, st') ->
    status st' = status st
    /\ exists hs, log st' = (log st ++ hs)%list /\ Forall handshake_event hs.

Lemma silent_quiet {A : Type} (m : M A) : silent m -> quiet m.
Proof.
  intros H st c st' E. destruct (H st c st' E) as [Hlog Hst]. split; [exact Hst|].
  exists []. rewrite app_nil_r. split; [exact Hlog|constructor].
Qed.

Lemma bind_cases {A B : Type} (m : M A) (k : A -> M B) st c st' :
  bind m k st = (c, st') ->
  (exists a st1, m st = (Normal a, st1) /\ k a st1 = (c, st'))
  \/ (exists c1, m st = (c1, st')).
Proof.
  unfold bind. destruct (m st) as [[a| | e|] st1]; intro E.
  - left. exists a, st1. split; [reflexivity|exact E].
  - right. injection E as _ <-. eexists. reflexivity.
  - right. injection E as _ <-. eexists. reflexivity.
  - right. injection E as _ <-. eexists. reflexivity.
Qed.

Lemma silent_ret {A : Type} (a : A) : silent (ret a).
Proof. intros st c st' E. injection E as _ <-. split; reflexivity. Qed.

Lemma silent_return_ {A : Type} : silent (@return_ A).
Proof. intros st c st' E. injection E as _ <-. split; reflexivity. Qed.

Lemma silent_raise {A : Type} (e : exn) : silent (@raise A e).
Proof. intros st c st' E. injection E as _ <-. split; reflexivity. Qed.

Lemma silent_errors_append (e : string) : silent (errors_append e).
Proof. intros st c st' E. injection E as _ <-. split; reflexivity. Qed.

Lemma silent_warnings_append (w : string) : silent (warnings_append w).
Proof. intros st c st' E. injection E as _ <-. split; reflexivity. Qed.

Lemma silent_tools_append (t : EnumeratedTool.t) : silent (tools_append t).
Proof. intros st c st' E. injection E as _ <-. split; reflexivity. Qed.

Lemma silent_set_clock (t : Z) : silent (set_clock t).
Proof. intros st c st' E. injection E as _ <-. split; reflexivity. Qed.

Lemma silent_get_state : silent get_state.
Proof. intros st c st' E. injection E as _ <-. split; reflexivity. Qed.

Lemma silent_bind {A B : Type} (m : M A) (k : A -> M B) :
  silent m -> (forall a, silent (k a)) -> silent (bind m k).
Proof.
  intros Hm Hk st c st' E. apply bind_cases in E.
  destruct E as [(a & st1 & E1 & E2)|(c1 & E1)].
  - destruct (Hm _ _ _ E1) as [L1 S1]. destruct (Hk a _ _ _ E2) as [L2 S2].
    split; congruence.
  - exact (Hm _ _ _ E1).
Qed.

Lemma quiet_bind {A B : Type} (m : M A) (k : A -> M B) :
  quiet m -> (forall a, quiet (k a)) -> quiet (bind m k).
Proof.
  intros Hm Hk st c st' E. apply bind_cases in E.
  destruct E as [(a & st1 & E1 & E2)|(c1 & E1)].
  - destruct (Hm _ _ _ E1) as [S1 (h1 & L1 & F1)].
    destruct (Hk a _ _ _ E2) as [S2 (h2 & L2 & F2)].
    split; [congruence|]. exists (h1 ++ h2)%list. split.
    + rewrite L2, L1, app_assoc. reflexivity.
    + apply Forall_app. split; assumption.
  - exact (Hm _ _ _ E1).
Qed.

Lemma quiet_try_except {A : Type} (body : M A) (handler : exn -> option (M A)) :
  quiet body -> (forall e h, handler e = Some h -> quiet h) ->
  quiet (try_except body handler).
Proof.
  intros Hb Hh st c st' E. unfold try_except in E.
  destruct (body st) as [cb st1] eqn:Eb.
  destruct (Hb _ _ _ Eb) as [S1 (h1 & L1 & F1)].
  assert (Hsame : (cb, st1) = (c, st') ->
                  status st' = status st
                  /\ exists hs, log st' = (log st ++ hs)%list /\ Forall handshake_event hs).
  { intro Eq. injection Eq as _ <-. split; [exact S1|]. exists h1. split; assumption. }
  destruct cb as [a| | e|]; try (apply Hsame; exact E).
  destruct (handler e) as [h|] eqn:Eh; [|apply Hsame; exact E].
  destruct (Hh e h Eh _ _ _ E) as [S2 (h2 & L2 & F2)].
  split; [congruence|]. exists (h1 ++ h2)%list. split.
  - rewrite L2, L1, app_assoc. reflexivity.
  - apply Forall_app. split; assumption.
Qed.

Lemma quiet_emit (ev : event) : handshake_event ev -> quiet (emit ev).
Proof.
  intros Hev st c st' E. injection E as _ <-. split; [reflexivity|].
  exists [ev]. split; [reflexivity|]. constructor; [exact Hev|constructor].
Qed.

Create HintDb silence.
#[local] Hint Resolve silent_ret silent_return_ silent_raise silent_errors_append
  silent_warnings_append silent_tools_append silent_set_clock silent_get_state
  : silence.

(** One step of a proof that a block is silent or quiet: peel a [bind], a
    [try]/[except] or a branch, or close the goal with a primitive. *)
Ltac silent_step :=
  first
    [ solve [auto with silence]
    | apply silent_bind; [|intro]
    | match goal with
      | |- silent (if ?b then _ else _) => destruct b
      | |- silent (match ?x with _ => _ end) => destruct x
      end ].

Ltac quiet_step :=
  first
    [ solve [apply silent_quiet; auto with silence]
    | solve [apply quiet_emit; exact I]
    | apply quiet_bind; [|intro]
    | apply quiet_try_except;
      [|let e := fresh "e" in
        let h := fresh "h" in
        let H := fresh "H" in
        intros e h H; destruct e; try discriminate H; injection H as <-]
    | match goal with
      | |- quiet (if ?b then _ else _) => destruct b
      | |- quiet (match ?x with _ => _ end) => destruct x
      | |- quiet (let (_, _) := ?x in _) => destruct x
      end ].

Section Handshake.

Variable which : string -> bool.
Variable os_environ : list (string * string).
Variable json_loads : string -> json + string.
Variable py_str : json -> string.
Variable validation_error : dict -> string.
Variable utcnow : string.
Variable deadline : option Z.
Variable the_child : child.

Lemma silent_cancel : silent (fun s : state => (@Cancelled unit, s)).
Proof. intros st c st' E. injection E as _ <-. split; reflexivity. Qed.

Lemma silent_await_for (ms : Z) : silent (await_for deadline ms).
Proof.
  intros st c st' E. unfold await_for in E.
  destruct deadline as [d|].
  - destruct (d <? clock st + ms)%Z.
    + revert E. apply (silent_bind (set_clock (Z.max d (clock st)))
                                   (fun _ s => (Cancelled, s))).
      * apply silent_set_clock.
      * intro. apply silent_cancel.
    + exact (silent_set_clock _ _ _ _ E).
  - exact (silent_set_clock _ _ _ _ E).
Qed.

Lemma quiet_await_for (ms : Z) : quiet (await_for deadline ms).
Proof. apply silent_quiet, silent_await_for. Qed.

Lemma quiet_write (message : json) (outcome : option exn) :
  quiet (write message outcome).
Proof. unfold write. repeat quiet_step. Qed.

Lemma quiet_read_line (reply : option (Z * string)) (process_timeout : Z) :
  quiet (read_line deadline reply process_timeout).
Proof.
  unfold read_line.
  apply quiet_bind; [apply quiet_emit; exact I|intros _].
  destruct reply as [[delay line]|].
  - destruct (delay <=? process_timeout * 1000)%Z;
      (apply quiet_bind; [apply quiet_await_for|intro; repeat quiet_step]).
  - apply quiet_bind; [apply quiet_await_for|intro; repeat quiet_step].
Qed.

Lemma silent_subscript (v : json) (key : string) : silent (subscript v key).
Proof. unfold subscript. repeat silent_step. Qed.

Lemma silent_contains_key (key : string) (v : json) : silent (contains_key key v).
Proof. unfold contains_key. repeat silent_step. Qed.

Lemma silent_convert_tools (server_name : string) (server_config : McpServerConfig)
      (tools_list : list json) :
  silent (convert_tools validation_error utcnow server_name server_config tools_list).
Proof.
  induction tools_list as [|item rest IH]; cbn [convert_tools].
  - apply silent_ret.
  - destruct item; try exact IH.
    apply silent_bind; [apply silent_get_state|intro st0].
    destruct (pydantic.as_str _); [|apply silent_raise].
    destruct (pydantic.as_opt_str _); [|apply silent_raise].
    apply silent_bind; [apply silent_tools_append|intro; exact IH].
Qed.

Lemma quiet_handshake (server_name : string) (server_config : McpServerConfig)
      (cmd : string) (timeout_seconds : Z) :
  quiet (handshake json_loads py_str validation_error utcnow deadline the_child
                   server_name server_config cmd timeout_seconds).
Proof.
  unfold handshake.
  repeat first
    [ apply quiet_await_for
    | apply quiet_write
    | apply quiet_read_line
    | solve [apply silent_quiet, silent_subscript]
    | solve [apply silent_quiet, silent_contains_key]
    | solve [apply silent_quiet, silent_convert_tools]
    | quiet_step ].
Qed.

End Handshake.

(** The state a call may end in: either nothing was spawned, or the log is
    the spawn, then handshake events, then the cleanup, and the child is
    gone. *)
Definition torn_down (c : child) (st : state) : Prop :=
  (log st = [] /\ status st = NotStarted)
  \/ (exists cmd env hs,
         log st = (Popen cmd env :: hs ++ teardown_trace c)%list
         /\ Forall handshake_event hs
         /\ status st = Exited).

(** A block that, started before any spawn, ends torn down however it
    ends. *)
Definition ends_torn_down {A : Type} (c : child) (m : M A) : Prop :=
  forall st ctl st',
    log st = [] -> status st = NotStarted -> m st = (ctl, st') -> torn_down c st'.

Lemma torn_down_silent {A : Type} (c : child) (m : M A) st ctl st' :
  silent m -> m st = (ctl, st') -> torn_down c st -> torn_down c st'.
Proof.
  intros Hm E H. destruct (Hm _ _ _ E) as [L S]. unfold torn_down. rewrite L, S. exact H.
Qed.

Lemma ends_silent {A : Type} (c : child) (m : M A) : silent m -> ends_torn_down c m.
Proof.
  intros Hm st ctl st' L S E. destruct (Hm _ _ _ E) as [L' S']. left.
  split; congruence.
Qed.

Lemma ends_bind {A B : Type} (c : child) (m : M A) (k : A -> M B) :
  silent m -> (forall a, ends_torn_down c (k a)) -> ends_torn_down c (bind m k).
Proof.
  intros Hm Hk st ctl st' L S E. apply bind_cases in E.
  destruct E as [(a & st1 & E1 & E2)|(c1 & E1)].
  - destruct (Hm _ _ _ E1) as [L1 S1]. apply (Hk a st1 ctl st'); congruence.
  - apply (ends_silent c m Hm st c1 st' L S E1).
Qed.

Lemma ends_try_except {A : Type} (c : child) (body : M A)
      (handler : exn -> option (M A)) :
  ends_torn_down c body -> (forall e h, handler e = Some h -> silent h) ->
  ends_torn_down c (try_except body handler).
Proof.
  intros Hb Hh st ctl st' L S E. unfold try_except in E.
  destruct (body st) as [cb st1] eqn:Eb. pose proof (Hb _ _ _ L S Eb) as H1.
  destruct cb as [a| | e|]; try (injection E as _ <-; exact H1).
  destruct (handler e) as [h|] eqn:Eh; [|injection E as _ <-; exact H1].
  exact (torn_down_silent c h _ _ _ (Hh e h Eh) E H1).
Qed.

Lemma teardown_spec (c : child) (st : state) :
  exists st',
    teardown c st = (Normal tt, st')
    /\ log st' = (log st ++ teardown_trace c)%list
    /\ status st' = Exited
    /\ tools st' = tools st /\ errors st' = errors st /\ warnings st' = warnings st.
Proof.
  unfold teardown, teardown_trace.
  destruct (terminate_raises c); [|destruct (exits_early c || exits_on_sigterm c)];
    eexists; (split; [reflexivity|]); cbn; rewrite <- ?app_assoc; repeat split.
Qed.

(** The guarded region: spawn, a quiet body under [try]/[finally] with the
    cleanup, then silent statements. *)
Lemma ends_guarded {A : Type} (c : child) (cmd : list string)
      (env : list (string * string)) (body : M A) (rest : A -> M unit) :
  quiet body -> (forall a, silent (rest a)) ->
  ends_torn_down c (bind (popen c cmd env)
                         (fun _ => bind (try_finally body (teardown c)) rest)).
Proof.
  intros Hbody Hrest st ctl st' L S E. unfold popen in E.
  destruct (popen_error c) as [msg|].
  - cbn in E. injection E as _ <-. left. split; assumption.
  - set (st1 := mk_state (tools st) (errors st) (warnings st) Running
                         (log st ++ [Popen cmd env])%list (clock st)).
    assert (E1 : bind (try_finally body (teardown c)) rest st1 = (ctl, st')) by exact E.
    clear E.
    assert (Hfin : forall cf stf, try_finally body (teardown c) st1 = (cf, stf) ->
                                  torn_down c stf).
    { intros cf stf Ef. unfold try_finally in Ef.
      destruct (body st1) as [cb st2] eqn:Eb.
      destruct (Hbody _ _ _ Eb) as [S2 (hs & L2 & F2)].
      destruct (teardown_spec c st2) as (st3 & Et & L3 & S3 & _).
      rewrite Et in Ef. injection Ef as _ <-. right. exists cmd, env, hs.
      split; [|split; [exact F2|exact S3]].
      rewrite L3, L2. subst st1. cbn [log]. rewrite L. reflexivity. }
    apply bind_cases in E1. destruct E1 as [(a & st2 & E2 & E3)|(c1 & E2)].
    + exact (torn_down_silent c (rest a) _ _ _ (Hrest a) E3 (Hfin _ _ E2)).
    + exact (Hfin _ _ E2).
Qed.

Section Discover.

Variable which : string -> bool.
Variable os_environ : list (string * string).
Variable json_loads : string -> json + string.
Variable py_str : json -> string.
Variable validation_error : dict -> string.
Variable utcnow : string.
Variable deadline : option Z.
Variable the_child : child.

Lemma discover_ends_torn_down (server_name : string) (server_config : McpServerConfig)
      (timeout_seconds : Z) :
  ends_torn_down the_child
    (discover which os_environ json_loads py_str validation_error utcnow deadline
              the_child server_name server_config timeout_seconds).
Proof.
  unfold discover.
  destruct (negb (truthy_str (command server_config))).
  - apply ends_silent. repeat silent_step.
  - apply ends_try_except.
    + apply ends_bind; [repeat silent_step|intros _].
      apply ends_bind; [repeat silent_step|intros _].
      apply ends_bind; [repeat silent_step|intro argv].
      apply ends_guarded.
      * apply quiet_try_except; [apply quiet_handshake|].
        intros e h H. destruct e; try discriminate H; injection H as <-;
          apply silent_quiet, silent_errors_append.
      * intros _. repeat silent_step.
    + intros e h H. injection H as <-. apply silent_errors_append.
Qed.

End Discover.

End teardown_proof.

(** A child that answers [initialize] after 100 ms, never answers
    [tools/list] and ignores SIGTERM. *)
Definition stubborn_child : stdio_strategy.child :=
  stdio_strategy.mk_child None false None (Some (100%Z, "{}")) None None None false false.

(** A child that answers both requests and obeys SIGTERM. *)
Definition helpful_child : stdio_strategy.child :=
  stdio_strategy.mk_child None false None (Some (100%Z, "{}")) None None
                          (Some (200%Z, "tools")) false true.

(** A decoder for the two lines the sample children send. *)
Definition sample_loads (line : string) : json + string :=
  if line =? "{}" then inl (JObj [])
  else if line =? "tools"
       then inl (JObj [("result", JObj [("tools", JArr [JObj [("name", JStr "t1")]])])])
       else inr "Expecting value: line 1 column 1 (char 0)".

Definition python_server : McpServerConfig :=
  mk_McpServerConfig (Some "python") (Some ["server.py"]) None None None None.

(** One call of the process strategy in the sample environment. *)
Definition sample_run (deadline : option Z) (c : stdio_strategy.child)
  : stdio_strategy.control unit * stdio_strategy.state :=
  stdio_strategy.run (fun _ => true) [("PATH", "/usr/bin")] sample_loads (fun _ => EmptyString)
                     (fun _ => EmptyString) "2025-09-14T00:00:00" deadline c
                     "s" python_server 30.

(** C4: whatever the environment, the child, the configuration and the
    enclosing deadline, a call of the process strategy that spawned a
    process has, after the spawn, only handshake events followed by the
    cleanup: SIGTERM, the five-second wait, and SIGKILL exactly when the
    child is still there (or [terminate] failed); the child is gone when the
    call ends, however it ends.  A call that spawned nothing touched no
    process. *)
Theorem C4_spawned_process_is_torn_down :
  forall (which : string -> bool) (os_environ : list (string * string))
         (json_loads : string -> json + string) (py_str : json -> string)
         (validation_error : dict -> string) (utcnow : string)
         (deadline : option Z) (the_child : stdio_strategy.child)
         (server_name : string) (server_config : McpServerConfig)
         (timeout_seconds : Z),
    let st := snd (stdio_strategy.run which os_environ json_loads py_str validation_error
                                      utcnow deadline the_child
                                      server_name server_config timeout_seconds) in
    (forall cmd env,
        In (stdio_strategy.Popen cmd env) (stdio_strategy.log st) ->
        exists hs,
          stdio_strategy.log st
          = (stdio_strategy.Popen cmd env :: hs ++ teardown_proof.teardown_trace the_child)%list
          /\ Forall teardown_proof.handshake_event hs
          /\ stdio_strategy.status st = stdio_strategy.Exited)
    /\ stdio_strategy.status st <> stdio_strategy.Running
    /\ ((forall cmd env, ~ In (stdio_strategy.Popen cmd env) (stdio_strategy.log st)) ->
        stdio_strategy.log st = [] /\ stdio_strategy.status st = stdio_strategy.NotStarted)
    /\ (exists tail,
           teardown_proof.teardown_trace the_child = stdio_strategy.Terminate :: tail)
    /\ (In stdio_strategy.Kill (teardown_proof.teardown_trace the_child)
        <-> stdio_strategy.terminate_raises the_child = true
            \/ (stdio_strategy.exits_early the_child = false
                /\ stdio_strategy.exits_on_sigterm the_child = false))
    /\ (stdio_strategy.terminate_raises the_child = false ->
        In (stdio_strategy.Wait 5) (teardown_proof.teardown_trace the_child)).
Proof.
  intros which os_environ json_loads py_str validation_error utcnow deadline the_child
         server_name server_config timeout_seconds st.
  assert (H : teardown_proof.torn_down the_child st).
  { subst st. unfold stdio_strategy.run.
    destruct (stdio_strategy.discover _ _ _ _ _ _ _ _ _ _ _ stdio_strategy.initial)
      as [ctl st'] eqn:E.
    exact (teardown_proof.discover_ends_torn_down
             which os_environ json_loads py_str validation_error utcnow deadline
             the_child server_name server_config timeout_seconds
             stdio_strategy.initial ctl st' eq_refl eq_refl E). }
  split; [|split; [|split; [|split; [|split]]]].
  - intros cmd env Hin. destruct H as [[L _]|(cmd' & env' & hs & L & F & S)].
    + rewrite L in Hin. destruct Hin.
    + exists hs. split; [|split; assumption].
      rewrite L in Hin. destruct Hin as [Heq|Hin].
      * injection Heq as <- <-. exact L.
      * exfalso. apply in_app_or in Hin. destruct Hin as [Hin|Hin].
        -- rewrite Forall_forall in F. exact (F _ Hin).
        -- unfold teardown_proof.teardown_trace in Hin.
           destruct (stdio_strategy.terminate_raises the_child);
             [|destruct (stdio_strategy.exits_early the_child
                         || stdio_strategy.exits_on_sigterm the_child)];
             cbn in Hin; intuition discriminate.
  - destruct H as [[_ S]|(_ & _ & _ & _ & _ & S)]; rewrite S; discriminate.
  - intro Hno. destruct H as [H|(cmd & env & hs & L & _ & _)]; [exact H|].
    exfalso. apply (Hno cmd env). rewrite L. left. reflexivity.
  - unfold teardown_proof.teardown_trace.
    destruct (stdio_strategy.terminate_raises the_child);
      [|destruct (stdio_strategy.exits_early the_child
                  || stdio_strategy.exits_on_sigterm the_child)];
      eexists; reflexivity.
  - unfold teardown_proof.teardown_trace.
    destruct (stdio_strategy.terminate_raises the_child),
             (stdio_strategy.exits_early the_child),
             (stdio_strategy.exits_on_sigterm the_child); cbn;
      intuition discriminate.
  - intro Hterm. unfold teardown_proof.teardown_trace. rewrite Hterm.
    destruct (stdio_strategy.exits_early the_child
              || stdio_strategy.exits_on_sigterm the_child); cbn; auto.
Qed.

(** C4 on a process that never answers [tools/list]: no tool, exactly one
    timeout error, and the child, which ignored SIGTERM, was killed. *)
Lemma C4_spawned_process_is_torn_down_witness :
  let st := snd (sample_run None stubborn_child) in
  stdio_strategy.tools st = []
  /\ stdio_strategy.errors st = ["Tools list timeout for s"]
  /\ stdio_strategy.status st = stdio_strategy.Exited
  /\ stdio_strategy.log st
     = [ stdio_strategy.Popen ["python"; "server.py"] [("PATH", "/usr/bin")];
         stdio_strategy.Poll;
         stdio_strategy.Write stdio_strategy.mcp_init_request;
         stdio_strategy.ReadLine;
         stdio_strategy.Write stdio_strategy.initialized_notification;
         stdio_strategy.Write stdio_strategy.list_tools_request;
         stdio_strategy.ReadLine;
         stdio_strategy.Terminate;
         stdio_strategy.Wait 5;
         stdio_strategy.Kill ].
Proof.
  cbv zeta. split; [reflexivity|]. split; [reflexivity|].
  pose proof (C4_spawned_process_is_torn_down
                (fun _ => true) [("PATH", "/usr/bin")] sample_loads (fun _ => EmptyString)
                (fun _ => EmptyString) "2025-09-14T00:00:00" None stubborn_child
                "s" python_server 30) as H.
  cbv zeta in H. destruct H as [H _].
  destruct (H ["python"; "server.py"] [("PATH", "/usr/bin")]) as (hs & L & _ & S).
  - vm_compute. left. reflexivity.
  - split; [exact S|]. reflexivity.
Defined.

(** The other ways out of the call, each with its cleanup. *)

Example stdio_success_is_torn_down :
  let st := snd (sample_run None helpful_child) in
  map EnumeratedTool.name (stdio_strategy.tools st) = ["t1"]
  /\ stdio_strategy.errors st = []
  /\ stdio_strategy.status st = stdio_strategy.Exited
  /\ skipn 7 (stdio_strategy.log st) = [stdio_strategy.Terminate; stdio_strategy.Wait 5].
Proof. vm_compute. repeat split. Qed.

Example stdio_cancelled_is_torn_down :
  let (ctl, st) := sample_run (Some 5000%Z) stubborn_child in
  ctl = stdio_strategy.Cancelled
  /\ stdio_strategy.status st = stdio_strategy.Exited
  /\ skipn 7 (stdio_strategy.log st)
     = [stdio_strategy.Terminate; stdio_strategy.Wait 5; stdio_strategy.Kill].
Proof. vm_compute. repeat split. Qed.

Example stdio_early_exit_is_torn_down :
  let st := snd (sample_run None
                   (stdio_strategy.mk_child None true None None None None None false false)) in
  stdio_strategy.errors st = ["Process for s terminated early"]
  /\ stdio_strategy.status st = stdio_strategy.Exited
  /\ skipn 2 (stdio_strategy.log st) = [stdio_strategy.Terminate; stdio_strategy.Wait 5].
Proof. vm_compute. repeat split. Qed.

Example stdio_broken_pipe_on_notification_is_torn_down :
  let st := snd (sample_run None
                   (stdio_strategy.mk_child None false None (Some (100%Z, "{}"))
                      (Some (BrokenPipeError "[Errno 32] Broken pipe"))
                      None None false true)) in
  stdio_strategy.errors st = ["STDIO discovery failed for s: [Errno 32] Broken pipe"]
  /\ stdio_strategy.status st = stdio_strategy.Exited
  /\ skipn 5 (stdio_strategy.log st) = [stdio_strategy.Terminate; stdio_strategy.Wait 5].
Proof. vm_compute. repeat split. Qed.

Example stdio_malformed_reply_is_torn_down :
  let st := snd (sample_run None
                   (stdio_strategy.mk_child None false None (Some (100%Z, "oops"))
                      None None None false true)) in
  stdio_strategy.errors st
  = ["Invalid JSON response from s: Expecting value: line 1 column 1 (char 0)"]
  /\ stdio_strategy.status st = stdio_strategy.Exited
  /\ skipn 4 (stdio_strategy.log st) = [stdio_strategy.Terminate; stdio_strategy.Wait 5].
Proof. vm_compute. repeat split. Qed.

(** ** The scenarios of the specification, run end to end *)

(** A peer that serves [{"tools": [{"name": "t1"}]}] at its root path and
    404 elsewhere. *)
Definition root_only_client : httpx.AsyncClient :=
  httpx.mk_AsyncClient
    (fun url _ =>
       if url =? "http://x/"
       then inl (httpx.mk_Response 200
                   (inl (JObj [("tools", JArr [JObj [("name", JStr "t1")]])])) None)
       else inl (httpx.mk_Response 404 (inr (Exception "Expecting value"))
                                   (Some (Exception "Client error '404 Not Found'"))))
    (fun _ _ _ => inr (Exception "All connection attempts failed")).

(** A world with that peer and no resolvable command. *)
Definition scenario_world : container.world :=
  container.mk_world
    "2025-09-14T00:00:00" (fun _ => false) [] sample_loads (fun _ => EmptyString) (fun _ => EmptyString)
    (fun _ => samples.silent_child) root_only_client (fun _ => Some 20%Z).

Example scenario_url_server_connects :
  let response :=
    container.enumerate_tools
      scenario_world
      (samples.request_of
         [("s1", mk_McpServerConfig None None None (Some "http://x/") None None)] true) in
  ToolEnumerationResponse.connected_servers response = 1%Z
  /\ ToolEnumerationResponse.status response = "success"
  /\ ToolEnumerationResponse.tools response = [SimplifiedTool.mk "s1" "t1" None None].
Proof. vm_compute. repeat split. Qed.

Example scenario_missing_binary_is_an_error :
  let response :=
    container.enumerate_tools
      scenario_world
      (samples.request_of
         [("s2", mk_McpServerConfig (Some "missing-binary") None None None None None)]
         true) in
  ToolEnumerationResponse.servers response
  = [ServerResult.mk "s2" "error" 0
       (Some "Command 'missing-binary' not found in PATH for server s2")]
  /\ ToolEnumerationResponse.status response = "error"
  /\ ToolEnumerationResponse.connected_servers response = 0%Z.
Proof. vm_compute. repeat split. Qed.

(** C1 on a configuration with one fallback server and one server whose
    peer refuses connections. *)
Lemma C1_connected_iff_no_errors_witness :
  let request :=
    samples.request_of
      [("a", samples.bare);
       ("b", mk_McpServerConfig None None None (Some "http://x/") None None)] true in
  let response := container.enumerate_tools samples.quiet_world request in
  ToolEnumerationResponse.status response = "success"
  /\ map ServerResult.status (ToolEnumerationResponse.servers response)
     = ["connected"; "error"]
  /\ ToolEnumerationResponse.connected_servers response = 1%Z.
Proof.
  cbv zeta.
  pose proof (C1_connected_iff_no_errors
                (container.strategies samples.quiet_world)
                (container.utcnow samples.quiet_world)
                (samples.request_of
                   [("a", samples.bare);
                    ("b", mk_McpServerConfig None None None (Some "http://x/") None None)]
                   true)) as H.
  cbv zeta in H. destruct H as (_ & _ & Hcount & _ & Hsuccess & _ & _).
  split; [|split].
  - apply Hsuccess. eexists. split; [left; reflexivity|]. reflexivity.
  - vm_compute. reflexivity.
  - unfold container.enumerate_tools. rewrite Hcount. vm_compute. reflexivity.
Defined.

(** ** The sibling paths of the two defects *)

(** The process strategy, given an environment with a secret, records the
    key names only. *)
Example stdio_metadata_keeps_env_key_names :
  let st :=
    snd (stdio_strategy.run
           (fun _ => true) [] sample_loads (fun _ => EmptyString) (fun _ => EmptyString)
           "2025-09-14T00:00:00" None helpful_child "s"
           (mk_McpServerConfig (Some "python") (Some ["server.py"])
                               (Some [("API_KEY", "s3cr3t")]) None None None)
           30) in
  map (fun tool => get (EnumeratedTool.metadata tool) "env_vars") (stdio_strategy.tools st)
  = [JArr [JStr "API_KEY"]].
Proof. vm_compute. reflexivity. Qed.

(** Against a peer that refuses every connection, the REST probe walks its
    list front to back while the info probe walks its own back to front. *)
Example rest_probe_follows_declared_order :
  fst (http_strategy._discover_rest_api
         "2025-09-14T00:00:00" (fun _ => EmptyString) samples.dead_client
         "http://x/" [] "s1")
  = ["http://x/tools"; "http://x/api/tools"; "http://x/v1/tools"; "http://x/mcp/tools"]
  /\ fst (http_strategy._discover_public_info
            "2025-09-14T00:00:00" (fun _ => EmptyString) samples.dead_client
            "http://x/" [] "s1")
     = ["http://x/"; "http://x/api/info"; "http://x/.well-known/mcp"; "http://x/info"].
Proof. vm_compute. split; reflexivity. Qed.

(* ================================================================== *)
(** * Further properties of the orchestrator *)
(* ================================================================== *)

Lemma response_fields
      (S : ToolDiscoveryMethod -> option IToolDiscoveryStrategy)
      (utcnow : string) (request : ToolEnumerationRequest.t) :
  let results := service.servers (service.enumerate_servers S request) in
  let configured := mcpServers (ToolEnumerationRequest.mcp_json request) in
  service.enumerate_tools S utcnow request
  = ToolEnumerationResponse.mk
      (if (count_connected results >? 0)%Z then "success" else "error")
      (if (count_connected results =? Z.of_nat (List.length configured))%Z
       then "Successfully connected to all " ++ str_int (count_connected results)
            ++ " servers"
       else "Connected to " ++ str_int (count_connected results) ++ " of "
            ++ str_int (Z.of_nat (List.length configured)) ++ " servers")
      utcnow
      (map summary_of results)
      (flat_map simplified_tools_of results)
      (Z.of_nat (List.length configured))
      (count_connected results).
Proof.
  cbv zeta. unfold service.enumerate_tools, service.build_response.
  rewrite simplify_spec. reflexivity.
Qed.

Lemma results_length
      (S : ToolDiscoveryMethod -> option IToolDiscoveryStrategy)
      (request : ToolEnumerationRequest.t) :
  List.length (service.servers (service.enumerate_servers S request))
  = List.length (mcpServers (ToolEnumerationRequest.mcp_json request)).
Proof. rewrite enumerate_servers_spec. cbn [service.servers]. apply results_of_length. Qed.

Lemma results_names
      (S : ToolDiscoveryMethod -> option IToolDiscoveryStrategy)
      (request : ToolEnumerationRequest.t) :
  map ServerEnumerationResult.server_name
      (service.servers (service.enumerate_servers S request))
  = map fst (mcpServers (ToolEnumerationRequest.mcp_json request)).
Proof.
  rewrite enumerate_servers_spec. cbn [service.servers]. apply results_of_names.
Qed.

Lemma count_connected_bounds (servers : list ServerEnumerationResult.t) :
  (0 <= count_connected servers <= Z.of_nat (List.length servers))%Z.
Proof.
  unfold count_connected. split; [lia|]. apply inj_le.
  induction servers as [|s rest IH]; cbn [filter List.length]; [lia|].
  destruct (connected s); cbn [List.length]; lia.
Qed.

Lemma count_connected_all (servers : list ServerEnumerationResult.t) :
  count_connected servers = Z.of_nat (List.length servers)
  <-> forall server, In server servers -> ServerEnumerationResult.errors server = [].
Proof.
  unfold count_connected. rewrite Nat2Z.inj_iff.
  induction servers as [|s rest IH]; cbn [filter List.length].
  - split; [intros _ x []|reflexivity].
  - pose proof (count_connected_bounds rest) as Hb. unfold count_connected in Hb.
    destruct (connected s) eqn:Hc; cbn [List.length].
    + split.
      * intros H x [<-|Hx].
        -- unfold connected in Hc. destruct (ServerEnumerationResult.errors s);
             [reflexivity|discriminate Hc].
        -- apply IH; [lia|exact Hx].
      * intro H. f_equal. apply IH. intros x Hx. apply H. right. exact Hx.
    + split.
      * intro H. lia.
      * intro H. exfalso. unfold connected in Hc. rewrite (H s (or_introl eq_refl)) in Hc.
        discriminate Hc.
Qed.

Lemma flat_map_length {A B : Type} (f : A -> list B) (l : list A) :
  Z.of_nat (List.length (flat_map f l))
  = fold_right Z.add 0%Z (map (fun a => Z.of_nat (List.length (f a))) l).
Proof.
  induction l as [|a l IH]; [reflexivity|].
  cbn [flat_map map fold_right]. rewrite length_app, Nat2Z.inj_add, IH. reflexivity.
Qed.

(** X1: the flattened tool list of the report is the concatenation, server
    by server in result order, of each server's tools; its length is the sum
    of the [tool_count]s of the summaries; every entry names a configured
    server; and the [all_tools] accumulator of the first phase holds the
    same tools in the same order. *)
Theorem X1_report_tools_are_the_results_tools :
  forall (S : ToolDiscoveryMethod -> option IToolDiscoveryStrategy)
         (utcnow : string) (request : ToolEnumerationRequest.t),
    let collected := service.enumerate_servers S request in
    let results := service.servers collected in
    let response := service.enumerate_tools S utcnow request in
    ToolEnumerationResponse.tools response
    = flat_map (fun server =>
                  map (service.simplify_tool server)
                      (ServerEnumerationResult.tools server)) results
    /\ Z.of_nat (List.length (ToolEnumerationResponse.tools response))
       = fold_right Z.add 0%Z
                    (map ServerResult.tool_count (ToolEnumerationResponse.servers response))
    /\ Forall (fun tool =>
                 In (SimplifiedTool.server tool)
                    (map fst (mcpServers (ToolEnumerationRequest.mcp_json request))))
              (ToolEnumerationResponse.tools response)
    /\ service.all_tools collected = flat_map ServerEnumerationResult.tools results.
Proof.
  intros S utcnow request collected results response.
  subst response. rewrite response_fields. fold collected. fold results.
  cbn [ToolEnumerationResponse.tools ToolEnumerationResponse.servers].
  split; [reflexivity|]. split; [|split].
  - rewrite flat_map_length, map_map. f_equal. apply map_ext. intro server.
    unfold simplified_tools_of, summary_of. cbn [ServerResult.tool_count].
    rewrite length_map. reflexivity.
  - apply Forall_forall. intros tool Hin. apply in_flat_map in Hin.
    destruct Hin as [server [Hserver Htool]]. unfold simplified_tools_of in Htool.
    apply in_map_iff in Htool. destruct Htool as [t [<- _]].
    cbn [service.simplify_tool SimplifiedTool.server].
    subst results collected. rewrite <- (results_names S request).
    apply in_map. exact Hserver.
  - subst results collected. rewrite enumerate_servers_spec. reflexivity.
Qed.

(** X2: in every report [total_servers] is the number of configured
    servers and also the number of summaries, [connected_servers] lies
    between zero and [total_servers], and the overall status is "error"
    exactly when [connected_servers] is zero. *)
Theorem X2_report_counts_are_consistent :
  forall (S : ToolDiscoveryMethod -> option IToolDiscoveryStrategy)
         (utcnow : string) (request : ToolEnumerationRequest.t),
    let response := service.enumerate_tools S utcnow request in
    ToolEnumerationResponse.total_servers response
    = Z.of_nat (List.length (mcpServers (ToolEnumerationRequest.mcp_json request)))
    /\ ToolEnumerationResponse.total_servers response
       = Z.of_nat (List.length (ToolEnumerationResponse.servers response))
    /\ (0 <= ToolEnumerationResponse.connected_servers response
        <= ToolEnumerationResponse.total_servers response)%Z
    /\ (ToolEnumerationResponse.status response = "error"
        <-> ToolEnumerationResponse.connected_servers response = 0%Z).
Proof.
  intros S utcnow request response. subst response. rewrite response_fields.
  cbn [ToolEnumerationResponse.total_servers ToolEnumerationResponse.servers
       ToolEnumerationResponse.connected_servers ToolEnumerationResponse.status].
  pose proof (count_connected_bounds
                (service.servers (service.enumerate_servers S request))) as Hb.
  rewrite results_length in Hb.
  split; [reflexivity|]. split; [rewrite length_map, results_length; reflexivity|].
  split; [exact Hb|].
  destruct (Z.gtb_spec (count_connected
                          (service.servers (service.enumerate_servers S request))) 0);
    split; intro Hst; try reflexivity; try discriminate Hst; lia.
Qed.

(** X3: the message of the report.  When every configured server ended
    without errors it reads "Successfully connected to all N servers";
    when some server has errors it reads "Connected to C of N servers".  An
    empty configuration falls under the first case: its report has status
    "error" and the message "Successfully connected to all 0 servers". *)
Theorem X3_report_message :
  forall (S : ToolDiscoveryMethod -> option IToolDiscoveryStrategy)
         (utcnow : string) (request : ToolEnumerationRequest.t),
    let results := service.servers (service.enumerate_servers S request) in
    let response := service.enumerate_tools S utcnow request in
    ((forall server, In server results -> ServerEnumerationResult.errors server = []) ->
     ToolEnumerationResponse.message response
     = "Successfully connected to all "
       ++ str_int (ToolEnumerationResponse.total_servers response) ++ " servers")
    /\ ((exists server, In server results /\ ServerEnumerationResult.errors server <> []) ->
        ToolEnumerationResponse.message response
        = "Connected to " ++ str_int (ToolEnumerationResponse.connected_servers response)
          ++ " of " ++ str_int (ToolEnumerationResponse.total_servers response)
          ++ " servers")
    /\ (mcpServers (ToolEnumerationRequest.mcp_json request) = [] ->
        ToolEnumerationResponse.status response = "error"
        /\ ToolEnumerationResponse.message response
           = "Successfully connected to all 0 servers").
Proof.
  intros S utcnow request results response. subst response. rewrite response_fields.
  fold results.
  cbn [ToolEnumerationResponse.message ToolEnumerationResponse.total_servers
       ToolEnumerationResponse.connected_servers ToolEnumerationResponse.status].
  pose proof (count_connected_all results) as Hall.
  pose proof (results_length S request) as Hlen. fold results in Hlen.
  rewrite <- Hlen.
  split; [|split].
  - intro H. apply Hall in H. rewrite H, Z.eqb_refl. reflexivity.
  - intros [server [Hin Herr]].
    destruct (Z.eqb_spec (count_connected results) (Z.of_nat (List.length results)))
      as [Heq|Hne]; [|reflexivity].
    exfalso. apply Herr. apply (proj1 Hall Heq). exact Hin.
  - intro Hempty. rewrite Hlen, Hempty in *. destruct results; [|discriminate Hlen].
    split; reflexivity.
Qed.

(** X3 on the empty configuration and on a configuration with one server
    that fails. *)
Lemma X3_report_message_witness :
  ToolEnumerationResponse.message
    (container.enumerate_tools samples.quiet_world (samples.request_of [] true))
  = "Successfully connected to all 0 servers"
  /\ ToolEnumerationResponse.message
       (container.enumerate_tools
          samples.quiet_world
          (samples.request_of
             [("a", samples.bare);
              ("b", mk_McpServerConfig None None None (Some "http://x/") None None)] true))
     = "Connected to 1 of 2 servers".
Proof.
  split.
  - exact (proj2 (proj2 (proj2 (X3_report_message
                                  (container.strategies samples.quiet_world)
                                  (container.utcnow samples.quiet_world)
                                  (samples.request_of [] true))) eq_refl)).
  - refine (proj1 (proj2 (X3_report_message
                            (container.strategies samples.quiet_world)
                            (container.utcnow samples.quiet_world)
                            (samples.request_of
                               [("a", samples.bare);
                                ("b", mk_McpServerConfig None None None
                                                         (Some "http://x/") None None)]
                               true))) _).
    eexists. split; [right; left; reflexivity|]. vm_compute. discriminate.
Defined.

(** X4: each summary carries the first error of its server and nothing of
    the later ones; the [error] field is empty exactly for the servers
    reported as connected. *)
Theorem X4_summary_reports_first_error :
  forall (S : ToolDiscoveryMethod -> option IToolDiscoveryStrategy)
         (utcnow : string) (request : ToolEnumerationRequest.t),
    Forall2
      (fun summary server =>
         ServerResult.error summary = hd_error (ServerEnumerationResult.errors server)
         /\ (ServerResult.error summary = None
             <-> ServerResult.status summary = "connected"))
      (ToolEnumerationResponse.servers (service.enumerate_tools S utcnow request))
      (service.servers (service.enumerate_servers S request)).
Proof.
  intros S utcnow request. rewrite response_fields.
  cbn [ToolEnumerationResponse.servers].
  induction (service.servers (service.enumerate_servers S request)) as [|server rest IH];
    constructor; [|exact IH].
  unfold summary_of, service.server_status.
  cbn [ServerResult.error ServerResult.status].
  destruct (ServerEnumerationResult.errors server); cbn; split; try reflexivity;
    split; intro H; try reflexivity; discriminate H.
Qed.

Lemma find_first {A : Type} (f : A -> bool) (l : list A) (x : A) :
  find f l = Some x ->
  exists before after,
    l = (before ++ x :: after)%list /\ f x = true
    /\ forall a, In a before -> f a = false.
Proof.
  induction l as [|a l IH]; [discriminate|]. cbn [find].
  destruct (f a) eqn:Hfa.
  - intro H. injection H as <-. exists [], l. split; [reflexivity|].
    split; [exact Hfa|]. intros b [].
  - intro H. destruct (IH H) as (before & after & -> & Hx & Hb).
    exists (a :: before), after. split; [reflexivity|]. split; [exact Hx|].
    intros b [<-|Hin]; [exact Hfa|apply Hb; exact Hin].
Qed.

Lemma truthy_str_true (o : option string) :
  truthy_str o = true <-> exists s, o = Some s /\ s <> EmptyString.
Proof.
  destruct o as [[|c s]|]; cbn; split; intro H; try discriminate H; try reflexivity.
  - destruct H as [s [H1 H2]]. injection H1 as <-. exfalso. apply H2. reflexivity.
  - eexists. split; [reflexivity|discriminate].
  - destruct H as [s [H1 _]]. discriminate H1.
Qed.

(** X5: the server URL put into a result.  The two copies of
    [_extract_server_url] (service and fallback strategy) agree.  A
    non-empty [url] is returned as it is.  Otherwise a URL is returned only
    when [command] is non-empty, and it is then the first argument that
    starts with "https://" or "http://"; with no such argument, or without
    a command, there is none. *)
Theorem X5_extract_server_url :
  forall server_config : McpServerConfig,
    let is_url := fun arg => startswith arg "https://" || startswith arg "http://" in
    service._extract_server_url server_config
    = mcp_json_strategy._extract_server_url server_config
    /\ (truthy_str (url server_config) = true ->
        service._extract_server_url server_config = url server_config)
    /\ (forall u,
           truthy_str (url server_config) = false ->
           service._extract_server_url server_config = Some u ->
           truthy_str (command server_config) = true
           /\ exists before after,
               args server_config = Some (before ++ u :: after)%list
               /\ is_url u = true
               /\ forall a, In a before -> is_url a = false)
    /\ (truthy_str (url server_config) = false ->
        truthy_str (command server_config) = false ->
        service._extract_server_url server_config = None)
    /\ (truthy_str (url server_config) = false ->
        (forall l a, args server_config = Some l -> In a l -> is_url a = false) ->
        service._extract_server_url server_config = None).
Proof.
  intros cfg is_url. unfold service._extract_server_url, mcp_json_strategy._extract_server_url.
  split; [reflexivity|]. split; [|split; [|split]].
  - intro H. rewrite H. reflexivity.
  - intros u Hurl. rewrite Hurl.
    destruct (truthy_str (command cfg)); [|discriminate].
    destruct (args cfg) as [[|a l]|]; cbn [truthy_list andb]; try discriminate.
    intro H. split; [reflexivity|]. apply find_first in H.
    destruct H as (before & after & Heq & Hu & Hb). exists before, after.
    split; [rewrite Heq; reflexivity|]. split; assumption.
  - intros Hurl Hcmd. rewrite Hurl, Hcmd. reflexivity.
  - intros Hurl Hnone. rewrite Hurl.
    destruct (truthy_str (command cfg) && truthy_list (args cfg)); [|reflexivity].
    destruct (args cfg) as [l|]; [|reflexivity].
    destruct (find _ l) as [x|] eqn:Hf; [|reflexivity].
    apply find_some in Hf. destruct Hf as [Hin Hx].
    pose proof (Hnone l x eq_refl Hin) as Hno. unfold is_url in Hno.
    rewrite Hno in Hx. discriminate Hx.
Qed.

(** X5 on the remote-proxy configuration of the documentation. *)
Lemma X5_extract_server_url_witness :
  service._extract_server_url
    (mk_McpServerConfig (Some "npx")
       (Some ["mcp-remote"; "https://mcp.sandbox.paypal.com/sse"; "--header"])
       None None None None)
  = Some "https://mcp.sandbox.paypal.com/sse"
  /\ service._extract_server_url
       (mk_McpServerConfig None (Some ["https://mcp.sandbox.paypal.com/sse"])
                           None None None None)
     = None.
Proof.
  split.
  - reflexivity.
  - exact (proj1 (proj2 (proj2 (proj2 (X5_extract_server_url
             (mk_McpServerConfig None (Some ["https://mcp.sandbox.paypal.com/sse"])
                                 None None None None)))))
             eq_refl eq_refl).
Defined.

(** ** [_generate_discovery_summary] *)

Lemma count_of_set (d : service.counts) (k k' : string) (v : Z) :
  service.count_of (service.count_set d k v) k'
  = if k =? k' then v else service.count_of d k'.
Proof.
  induction d as [|[k0 n] rest IH]; cbn [service.count_set service.count_of].
  - destruct (k =? k'); reflexivity.
  - destruct (String.eqb_spec k0 k) as [->|Hne]; cbn [service.count_of].
    + destruct (k =? k'); reflexivity.
    + destruct (String.eqb_spec k0 k') as [->|Hne'].
      * destruct (String.eqb_spec k k') as [->|_]; [exfalso; apply Hne; reflexivity|].
        reflexivity.
      * exact IH.
Qed.

Lemma count_of_up (d : service.counts) (k k' : string) :
  service.count_of (service.count_up d k) k'
  = (service.count_of d k' + (if (k =? k')%string then 1 else 0))%Z.
Proof.
  unfold service.count_up. rewrite count_of_set.
  destruct (String.eqb_spec k k') as [->|_]; lia.
Qed.

(** Number of elements with a given key. *)
Definition occurrences {A : Type} (key : A -> string) (k : string) (l : list A) : Z :=
  Z.of_nat (List.length (filter (fun a => key a =? k) l)).

Lemma occurrences_cons {A : Type} (key : A -> string) (k : string) (a : A) (l : list A) :
  occurrences key k (a :: l)
  = ((if (key a =? k)%string then 1 else 0) + occurrences key k l)%Z.
Proof.
  unfold occurrences. cbn [filter]. destruct (key a =? k); cbn [List.length]; lia.
Qed.

Lemma occurrences_app {A : Type} (key : A -> string) (k : string) (l1 l2 : list A) :
  occurrences key k (l1 ++ l2) = (occurrences key k l1 + occurrences key k l2)%Z.
Proof.
  induction l1 as [|a l1 IH]; [unfold occurrences; cbn; lia|].
  cbn [app]. rewrite !occurrences_cons, IH. lia.
Qed.

Lemma count_up_fold {A : Type} (key : A -> string) (l : list A) :
  forall (d : service.counts) (k : string),
    service.count_of (fold_left (fun mc a => service.count_up mc (key a)) l d) k
    = (service.count_of d k + occurrences key k l)%Z.
Proof.
  induction l as [|a l IH]; intros d k.
  - unfold occurrences. cbn. lia.
  - cbn [fold_left]. rewrite IH, count_of_up, occurrences_cons. lia.
Qed.

(** The duration a server adds to the total. *)
Definition duration_of (server : ServerEnumerationResult.t) : Z :=
  match ServerEnumerationResult.discovery_duration_ms server with
  | Some d => d
  | None => 0%Z
  end.

Lemma tally_fold (servers : list ServerEnumerationResult.t) :
  forall (acc : service.tally) (k : string),
    let t := fold_left service.tally_server servers acc in
    service.count_of (service.transport_counts t) k
    = (service.count_of (service.transport_counts acc) k
       + occurrences (fun s => transport_value (ServerEnumerationResult.transport_type s))
                     k servers)%Z
    /\ service.count_of (service.method_counts t) k
       = (service.count_of (service.method_counts acc) k
          + occurrences (fun tool => method_value (EnumeratedTool.discovery_method tool))
                        k (flat_map ServerEnumerationResult.tools servers))%Z
    /\ service.total_duration t
       = (service.total_duration acc + fold_right Z.add 0%Z (map duration_of servers))%Z.
Proof.
  induction servers as [|s rest IH]; intros acc k.
  - cbn. unfold occurrences. cbn. repeat split; lia.
  - cbn [fold_left]. cbv zeta. destruct (IH (service.tally_server acc s) k) as [H1 [H2 H3]].
    rewrite H1, H2, H3. unfold service.tally_server.
    cbn [service.transport_counts service.method_counts service.total_duration
         flat_map map fold_right].
    rewrite count_of_up, count_up_fold, occurrences_cons, occurrences_app.
    cbv beta. split; [ring|]. split; [ring|].
    assert (Hd : duration_of s
                 = match ServerEnumerationResult.discovery_duration_ms s with
                   | Some d => if (d =? 0)%Z then 0%Z else d
                   | None => 0%Z
                   end).
    { unfold duration_of. destruct (ServerEnumerationResult.discovery_duration_ms s) as [d|];
        [|reflexivity]. destruct (Z.eqb_spec d 0); congruence. }
    rewrite Hd. destruct (ServerEnumerationResult.discovery_duration_ms s) as [d|]; [|lia].
    destruct (d =? 0)%Z; lia.
Qed.

(** X6: the counters of the discovery summary.  For any key, the entry of
    [transport_types] is the number of servers whose transport type has
    that value, and the entry of [discovery_methods] is the number of tools,
    over all servers, discovered by the method of that value (zero for a key
    never seen); [servers_with_errors] and the servers without errors add up
    to the number of servers. *)
Theorem X6_summary_counters :
  forall (servers : list ServerEnumerationResult.t) (all_tools : list EnumeratedTool.t)
         (k : string),
    let summary := service._generate_discovery_summary servers all_tools in
    service.count_of (service.transport_types summary) k
    = occurrences (fun s => transport_value (ServerEnumerationResult.transport_type s))
                  k servers
    /\ service.count_of (service.discovery_methods summary) k
       = occurrences (fun tool => method_value (EnumeratedTool.discovery_method tool))
                     k (flat_map ServerEnumerationResult.tools servers)
    /\ (service.servers_with_errors summary + count_connected servers
        = Z.of_nat (List.length servers))%Z.
Proof.
  intros servers all_tools k summary. subst summary.
  unfold service._generate_discovery_summary.
  cbn [service.transport_types service.discovery_methods service.servers_with_errors].
  destruct (tally_fold servers (service.mk_tally [] [] 0%Z) k) as [H1 [H2 _]].
  cbv zeta in H1, H2. rewrite H1, H2. cbn [service.transport_counts service.method_counts
                                           service.count_of].
  split; [lia|]. split; [lia|].
  unfold count_connected. clear.
  induction servers as [|s rest IH]; [reflexivity|].
  cbn [filter]. unfold connected at 1.
  destruct (ServerEnumerationResult.errors s); cbn [List.length]; lia.
Qed.

(** X7: the durations of the discovery summary.  The total is the sum of
    the durations of the servers (a missing duration counts as zero).  The
    average is zero for an empty server list (no division is attempted) and
    otherwise the total divided by the number of servers, rounded down. *)
Theorem X7_summary_durations :
  forall (servers : list ServerEnumerationResult.t) (all_tools : list EnumeratedTool.t),
    let summary := service._generate_discovery_summary servers all_tools in
    let n := Z.of_nat (List.length servers) in
    service.total_discovery_duration_ms summary
    = fold_right Z.add 0%Z (map duration_of servers)
    /\ (servers = [] -> service.average_duration_per_server_ms summary = 0%Z)
    /\ (servers <> [] ->
        (n * service.average_duration_per_server_ms summary
         <= service.total_discovery_duration_ms summary
         < n * service.average_duration_per_server_ms summary + n)%Z).
Proof.
  intros servers all_tools summary n. subst summary.
  unfold service._generate_discovery_summary.
  cbn [service.total_discovery_duration_ms service.average_duration_per_server_ms].
  destruct (tally_fold servers (service.mk_tally [] [] 0%Z) EmptyString) as [_ [_ H3]].
  cbv zeta in H3. rewrite H3. cbn [service.total_duration]. rewrite Z.add_0_l.
  split; [reflexivity|]. split.
  - intros ->. reflexivity.
  - intro Hne. destruct servers as [|s rest]; [exfalso; apply Hne; reflexivity|].
    assert (Hn : (0 < n)%Z) by (subst n; cbn [List.length]; lia).
    fold n. set (t := fold_right Z.add 0%Z (map duration_of (s :: rest))).
    pose proof (Z.mul_div_le t n Hn). pose proof (Z.mul_succ_div_gt t n Hn). lia.
Qed.

(** X7 on two servers that took 10 ms and 25 ms. *)
Lemma X7_summary_durations_witness :
  let server := fun d =>
    ServerEnumerationResult.mk "s" UNKNOWN None None [] [] [] (Some d) in
  service.average_duration_per_server_ms
    (service._generate_discovery_summary [server 10%Z; server 25%Z] []) = 17%Z
  /\ service.average_duration_per_server_ms
       (service._generate_discovery_summary [] []) = 0%Z.
Proof.
  cbv zeta. split.
  - pose proof (X7_summary_durations
                  [ServerEnumerationResult.mk "s" UNKNOWN None None [] [] [] (Some 10%Z);
                   ServerEnumerationResult.mk "s" UNKNOWN None None [] [] [] (Some 25%Z)]
                  []) as H.
    cbv zeta in H. destruct H as [Ht [_ Havg]].
    assert (Hne : [ServerEnumerationResult.mk "s" UNKNOWN None None [] [] [] (Some 10%Z);
                   ServerEnumerationResult.mk "s" UNKNOWN None None [] [] [] (Some 25%Z)]
                  <> []) by discriminate.
    specialize (Havg Hne). rewrite Ht in Havg. cbn in Havg. cbn. lia.
  - exact (proj1 (proj2 (X7_summary_durations [] [])) eq_refl).
Defined.

Lemma tools_per_server_snoc (servers : list ServerEnumerationResult.t)
      (s : ServerEnumerationResult.t) (d : service.counts) :
  fold_left (fun d s => service.count_set
                          d (ServerEnumerationResult.server_name s)
                          (Z.of_nat (List.length (ServerEnumerationResult.tools s))))
            (servers ++ [s]) d
  = service.count_set
      (fold_left (fun d s => service.count_set
                               d (ServerEnumerationResult.server_name s)
                               (Z.of_nat (List.length (ServerEnumerationResult.tools s))))
                 servers d)
      (ServerEnumerationResult.server_name s)
      (Z.of_nat (List.length (ServerEnumerationResult.tools s))).
Proof. rewrite fold_left_app. reflexivity. Qed.

(** X8: when the server names are distinct (as the keys of a configuration
    are), [tools_per_server] maps every server's name to the number of its
    tools. *)
Theorem X8_summary_tools_per_server :
  forall (servers : list ServerEnumerationResult.t) (all_tools : list EnumeratedTool.t),
    NoDup (map ServerEnumerationResult.server_name servers) ->
    forall server,
      In server servers ->
      service.count_of
        (service.tools_per_server (service._generate_discovery_summary servers all_tools))
        (ServerEnumerationResult.server_name server)
      = Z.of_nat (List.length (ServerEnumerationResult.tools server)).
Proof.
  intros servers all_tools. unfold service._generate_discovery_summary.
  cbn [service.tools_per_server].
  induction servers as [|s rest IH] using rev_ind; intros Hnd server Hin; [destruct Hin|].
  rewrite tools_per_server_snoc, count_of_set.
  rewrite map_app in Hnd. cbn [map] in Hnd.
  apply in_app_or in Hin. destruct Hin as [Hin|[<-|[]]].
  - destruct (String.eqb_spec (ServerEnumerationResult.server_name s)
                              (ServerEnumerationResult.server_name server)) as [Heq|Hne].
    + exfalso. apply NoDup_remove_2 in Hnd. apply Hnd. rewrite app_nil_r, Heq.
      apply in_map. exact Hin.
    + apply IH; [|exact Hin]. apply NoDup_remove_1 in Hnd. rewrite app_nil_r in Hnd.
      exact Hnd.
  - rewrite String.eqb_refl. reflexivity.
Qed.

(** X8 on two servers with one and no tool. *)
Lemma X8_summary_tools_per_server_witness :
  let tool := EnumeratedTool.mk "t" None "a" UNKNOWN None [] MCP_JSON_PARSING EmptyString in
  let a := ServerEnumerationResult.mk "a" UNKNOWN None None [tool] [] [] None in
  let b := ServerEnumerationResult.mk "b" UNKNOWN None None [] [] [] None in
  service.count_of
    (service.tools_per_server (service._generate_discovery_summary [a; b] [tool])) "a"
  = 1%Z.
Proof.
  cbv zeta.
  set (tool := EnumeratedTool.mk "t" None "a" UNKNOWN None [] MCP_JSON_PARSING EmptyString).
  set (a := ServerEnumerationResult.mk "a" UNKNOWN None None [tool] [] [] None).
  set (b := ServerEnumerationResult.mk "b" UNKNOWN None None [] [] [] None).
  assert (Hnd : NoDup (map ServerEnumerationResult.server_name [a; b])).
  { cbn. constructor; [intros [H|[]]; discriminate H|].
    constructor; [intros []|constructor]. }
  exact (X8_summary_tools_per_server [a; b] [tool] Hnd a (or_introl eq_refl)).
Defined.

(** ** The HTTP endpoint *)

(** X9: the envelope the endpoint returns has [success] true exactly when
    some configured server ended without errors; its message, status and
    counts are those of the report. *)
Theorem X9_envelope_success_flag :
  forall (dump_server : ServerResult.t -> json) (dump_tool : SimplifiedTool.t -> json)
         (w : container.world) (request : ToolEnumerationRequest.t),
    let results := service.servers
                     (service.enumerate_servers (container.strategies w) request) in
    let response := container.enumerate_tools w request in
    let body := tool_enumeration_controller.enumerate_tools dump_server dump_tool w request in
    (get body "success" = JBool true
     <-> exists server, In server results /\ ServerEnumerationResult.errors server = [])
    /\ (get body "success" = JBool false
        <-> forall server, In server results -> ServerEnumerationResult.errors server <> [])
    /\ get body "message" = JStr (ToolEnumerationResponse.message response)
    /\ exists data,
        get body "data" = JObj data
        /\ get data "status" = JStr (ToolEnumerationResponse.status response)
        /\ get data "total_servers"
           = JNum (Z.of_nat (List.length
                               (mcpServers (ToolEnumerationRequest.mcp_json request))))
        /\ get data "connected_servers" = JNum (count_connected results).
Proof.
  intros dump_server dump_tool w request results response body.
  subst body response.
  unfold tool_enumeration_controller.enumerate_tools, container.enumerate_tools,
         tool_enumeration_controller.envelope.
  rewrite response_fields. fold results.
  cbn [ToolEnumerationResponse.status ToolEnumerationResponse.message
       ToolEnumerationResponse.total_servers ToolEnumerationResponse.connected_servers].
  change (get ?d "success") with (get_default d "success" JNull).
  cbn [get get_default lookup String.eqb Ascii.eqb Bool.eqb].
  pose proof (count_connected_positive results) as Hpos.
  split; [|split; [|split]].
  - rewrite <- Hpos. destruct (Z.gtb_spec (count_connected results) 0);
      split; intro Hs; try reflexivity; try discriminate Hs; lia.
  - split.
    + intros H server Hin Herr.
      destruct (Z.gtb_spec (count_connected results) 0) as [Hgt|Hle].
      * discriminate H.
      * assert (count_connected results > 0)%Z
          by (apply Hpos; exists server; split; assumption). lia.
    + intro H. destruct (Z.gtb_spec (count_connected results) 0) as [Hgt|Hle];
        [|reflexivity].
      exfalso. assert (Hgt' : (count_connected results > 0)%Z) by lia.
      apply Hpos in Hgt'. destruct Hgt' as [server [Hin Herr]]. exact (H server Hin Herr).
  - reflexivity.
  - eexists. split; [reflexivity|]. repeat split.
Qed.

(* ================================================================== *)
(** * Further properties of the HTTP strategy *)
(* ================================================================== *)

Section HttpProperties.

Variable utcnow : string.
Variable py_str : json -> string.
Variable validation_error : dict -> string.

(** What every descriptor built by the HTTP strategy carries. *)
Definition http_tagged (server_name : string) (tool : EnumeratedTool.t) : Prop :=
  EnumeratedTool.server_name tool = server_name
  /\ EnumeratedTool.transport_type tool = HTTP
  /\ EnumeratedTool.discovery_method tool = HTTP_DISCOVERY
  /\ EnumeratedTool.discovery_timestamp tool = utcnow.

Lemma make_tool_fields (server_name : string) (metadata : dict -> dict) (i : nat)
      (tool_data : dict) (tool : EnumeratedTool.t) :
  http_strategy.make_tool utcnow server_name metadata i tool_data = Some tool ->
  http_tagged server_name tool
  /\ EnumeratedTool.metadata tool = metadata tool_data
  /\ JStr (EnumeratedTool.name tool) = fst (fst (http_strategy.normalize i tool_data)).
Proof.
  unfold http_strategy.make_tool.
  destruct (http_strategy.normalize i tool_data) as [[actual_name description] schema_data].
  destruct actual_name; try discriminate. cbn [pydantic.as_str].
  destruct (pydantic.as_opt_str description); [|discriminate].
  intro H. injection H as <-. repeat split.
Qed.

(** The entries of a decoded list that are objects. *)
Definition objects (entries : list json) : list json :=
  filter (fun e => match e with JObj _ => true | _ => false end) entries.

Lemma convert_entries_spec (server_name : string) (metadata : dict -> dict)
      (entries : list json) :
  forall (i : nat) (tools : list EnumeratedTool.t),
  exists new,
    fst (http_strategy.convert_entries utcnow validation_error server_name metadata
                                       i entries tools)
    = (tools ++ new)%list
    /\ Forall (fun tool => http_tagged server_name tool
                           /\ exists tool_data, In (JObj tool_data) entries
                                                /\ EnumeratedTool.metadata tool
                                                   = metadata tool_data) new
    /\ (List.length new <= List.length (objects entries))%nat
    /\ (snd (http_strategy.convert_entries utcnow validation_error server_name metadata
                                           i entries tools) = None ->
        List.length new = List.length (objects entries)).
Proof.
  induction entries as [|entry rest IH]; intros i tools.
  - exists []. cbn. rewrite app_nil_r. repeat split; auto.
  - assert (Hskip : forall new,
               Forall (fun tool => http_tagged server_name tool
                                   /\ exists tool_data, In (JObj tool_data) rest
                                                        /\ EnumeratedTool.metadata tool
                                                           = metadata tool_data) new ->
               Forall (fun tool => http_tagged server_name tool
                                   /\ exists tool_data, In (JObj tool_data) (entry :: rest)
                                                        /\ EnumeratedTool.metadata tool
                                                           = metadata tool_data) new).
    { intros new H. eapply Forall_impl; [|exact H]. intros t [Ht [d [Hd Hm]]].
      split; [exact Ht|]. exists d. split; [right; exact Hd|exact Hm]. }
    destruct entry as [| | | | |tool_data];
      try (destruct (IH (Datatypes.S i) tools) as (new & H1 & H2 & H3 & H4);
           exists new; cbn [http_strategy.convert_entries objects filter];
           repeat split; auto; fail).
    cbn [http_strategy.convert_entries objects filter].
    destruct (http_strategy.make_tool utcnow server_name metadata i tool_data)
      as [tool|] eqn:Hmk.
    + destruct (IH (Datatypes.S i) (tools ++ [tool])%list) as (new & H1 & H2 & H3 & H4).
      exists (tool :: new). rewrite H1, <- app_assoc. split; [reflexivity|].
      split; [|split].
      * constructor; [|apply Hskip; exact H2].
        destruct (make_tool_fields _ _ _ _ _ Hmk) as [Ht [Hm _]].
        split; [exact Ht|]. exists tool_data. split; [left; reflexivity|exact Hm].
      * cbn [List.length]. fold (objects rest). lia.
      * intro Hnone. cbn [List.length]. fold (objects rest). rewrite (H4 Hnone).
        reflexivity.
    + exists []. cbn [fst snd]. rewrite app_nil_r. split; [reflexivity|].
      split; [constructor|]. split; [cbn; lia|]. discriminate.
Qed.

(** The endpoint loop hands back either a non-empty list or the failure
    of its method; every descriptor it hands back is tagged. *)
Lemma probe_endpoints_result (protocol failure : string) (c : httpx.AsyncClient)
      (server_url : string) (hdrs : list (string * string)) (server_name : string)
      (endpoints : list string) :
  forall tools requested,
    Forall (http_tagged server_name) tools ->
    match snd (http_strategy.probe_endpoints utcnow validation_error protocol failure c
                 server_url hdrs server_name endpoints tools requested) with
    | inl found => found <> [] /\ Forall (http_tagged server_name) found
    | inr e => e = Exception failure
    end.
Proof.
  induction endpoints as [|endpoint rest IH]; intros tools requested Htools.
  - cbn. destruct tools; cbn; [reflexivity|]. split; [discriminate|exact Htools].
  - cbn [http_strategy.probe_endpoints].
    assert (Hturn : match http_strategy.probe_endpoint
                            utcnow validation_error protocol c server_url hdrs
                            server_name endpoint tools with
                    | http_strategy.Return found =>
                        found <> [] /\ Forall (http_tagged server_name) found
                    | http_strategy.Next kept => Forall (http_tagged server_name) kept
                    end).
    { unfold http_strategy.probe_endpoint.
      destruct (httpx.get c _ hdrs) as [r|e]; [|exact Htools].
      destruct (httpx.status_code r =? 200)%Z; [|exact Htools].
      destruct (httpx.json r) as [data|e]; [|exact Htools].
      destruct (iter _) as [entries|]; [|exact Htools].
      match goal with
      | |- context [http_strategy.convert_entries ?u ?v ?n ?m ?i entries tools] =>
          destruct (convert_entries_spec n m entries i tools) as (new & H1 & H2 & _);
          destruct (http_strategy.convert_entries u v n m i entries tools) as [acc exc]
      end.
      cbn [fst] in H1. subst acc.
      assert (Hall : Forall (http_tagged server_name) (tools ++ new)).
      { apply Forall_app. split; [exact Htools|].
        eapply Forall_impl; [|exact H2]. intros t [Ht _]. exact Ht. }
      destruct exc; [exact Hall|].
      destruct (tools ++ new)%list eqn:E; [exact Hall|]. split; [discriminate|exact Hall]. }
    destruct (http_strategy.probe_endpoint _ _ _ _ _ _ _ _ _) as [found|kept].
    + cbn [snd]. exact Hturn.
    + apply IH. exact Hturn.
Qed.

Lemma jsonrpc_result (c : httpx.AsyncClient) (server_url : string)
      (hdrs : list (string * string)) (server_name : string) :
  match http_strategy._discover_mcp_jsonrpc utcnow py_str validation_error
                                            c server_url hdrs server_name with
  | inl found => Forall (http_tagged server_name) found
  | inr _ => True
  end.
Proof.
  unfold http_strategy._discover_mcp_jsonrpc.
  destruct (http_strategy.post_json c server_url http_strategy.init_request hdrs);
    [|exact I].
  destruct (http_strategy.check_error py_str _ _); [exact I|].
  destruct (http_strategy.post_json c server_url http_strategy.tools_request hdrs)
    as [tools_result|]; [|exact I].
  destruct (http_strategy.check_error py_str _ tools_result); [exact I|].
  destruct (http_strategy.attr_get tools_result _ _) as [result|]; [|exact I].
  destruct (http_strategy.attr_get result _ _) as [tools_data|]; [|exact I].
  destruct (iter tools_data) as [entries|]; [|exact I].
  match goal with
  | |- context [http_strategy.convert_entries ?u ?v ?n ?m ?i entries []] =>
      destruct (convert_entries_spec n m entries i []) as (new & H1 & H2 & _);
      destruct (http_strategy.convert_entries u v n m i entries []) as [acc exc]
  end.
  cbn [fst app] in H1. subst acc. destruct exc; [exact I|].
  eapply Forall_impl; [|exact H2]. intros t [Ht _]. exact Ht.
Qed.

End HttpProperties.

(** The headers the strategy sends: the content type, overridden and
    extended by the configured headers. *)
Definition sent_headers (server_config : McpServerConfig) : list (string * string) :=
  match headers server_config with
  | Some (h :: hs) => update [("Content-Type", "application/json")] (h :: hs)
  | _ => [("Content-Type", "application/json")]
  end.

(** X10: the info probe and the REST probe never hand back an empty tool
    list: each returns at least one descriptor or raises its own fixed
    failure, whatever the peer answered (refused connections, non-200
    statuses, bodies that are not JSON or hold no usable entry all end in
    the same exception). *)
Theorem X10_endpoint_probes_never_return_nothing :
  forall (utcnow : string) (validation_error : dict -> string)
         (c : httpx.AsyncClient) (server_url : string)
         (hdrs : list (string * string)) (server_name : string),
    (match snd (http_strategy._discover_public_info utcnow validation_error c
                  server_url hdrs server_name) with
     | inl found => found <> []
     | inr e => e = Exception "No valid public info endpoints found"
     end)
    /\ (match snd (http_strategy._discover_rest_api utcnow validation_error c
                     server_url hdrs server_name) with
        | inl found => found <> []
        | inr e => e = Exception "No valid REST API endpoints found"
        end).
Proof.
  intros utcnow validation_error c server_url hdrs server_name.
  unfold http_strategy._discover_public_info, http_strategy._discover_rest_api. split.
  - match goal with
    | |- context [http_strategy.probe_endpoints ?u ?v ?p ?f ?c ?s ?h ?n ?es [] []] =>
        pose proof (probe_endpoints_result u v p f c s h n es [] [] (Forall_nil _)) as H;
        destruct (snd (http_strategy.probe_endpoints u v p f c s h n es [] []))
    end; [exact (proj1 H)|exact H].
  - match goal with
    | |- context [http_strategy.probe_endpoints ?u ?v ?p ?f ?c ?s ?h ?n ?es [] []] =>
        pose proof (probe_endpoints_result u v p f c s h n es [] [] (Forall_nil _)) as H;
        destruct (snd (http_strategy.probe_endpoints u v p f c s h n es [] []))
    end; [exact (proj1 H)|exact H].
Qed.

(** What the loop over the three discovery methods leaves in [tools] and
    [errors]. *)
Lemma http_methods_outcome (utcnow : string) (py_str : json -> string)
      (validation_error : dict -> string) (c : httpx.AsyncClient)
      (server_url : string) (hdrs : list (string * string)) (server_name : string) :
  let outcome :=
    http_strategy.try_methods
      (http_strategy.discovery_methods utcnow py_str validation_error c server_url hdrs
                                       server_name) [] in
  let tools := fst outcome in
  let errors := snd outcome in
  let info := snd (http_strategy._discover_public_info
                     utcnow validation_error c server_url hdrs server_name) in
  (tools = [] -> errors <> [])
  /\ (errors = [] <-> exists found, info = inl found)
  /\ (forall found, info = inl found -> tools = found)
  /\ (errors <> [] ->
      hd_error errors
      = Some "_discover_public_info: No valid public info endpoints found")
  /\ (List.length errors <= 3)%nat
  /\ Forall (http_tagged utcnow server_name) tools.
Proof.
  cbv zeta. unfold http_strategy.discovery_methods.
  pose proof (probe_endpoints_result
                utcnow validation_error "public-info"
                "No valid public info endpoints found" c server_url hdrs
                server_name (rev http_strategy.public_info_endpoints_declared)
                [] [] (Forall_nil _)) as H1.
  pose proof (jsonrpc_result utcnow py_str validation_error c server_url
                             hdrs server_name) as H2.
  pose proof (probe_endpoints_result
                utcnow validation_error "rest-api"
                "No valid REST API endpoints found" c server_url hdrs
                server_name ["/tools"; "/api/tools"; "/v1/tools"; "/mcp/tools"]
                [] [] (Forall_nil _)) as H3.
  fold (http_strategy._discover_public_info utcnow validation_error c server_url
          hdrs server_name) in H1.
  change (http_strategy.probe_endpoints
            utcnow validation_error "rest-api" "No valid REST API endpoints found"
            c server_url hdrs server_name
            ["/tools"; "/api/tools"; "/v1/tools"; "/mcp/tools"] [] [])
    with (http_strategy._discover_rest_api utcnow validation_error c server_url
            hdrs server_name) in H3.
  assert (Hcase : forall (tools : list EnumeratedTool.t) (errors : list string)
                         (info : list EnumeratedTool.t + exn),
             Forall (http_tagged utcnow server_name) tools ->
             (List.length errors <= 3)%nat ->
             (tools = [] -> errors <> []) ->
             match info with
             | inl found => tools = found /\ errors = []
             | inr _ =>
                 hd_error errors
                 = Some "_discover_public_info: No valid public info endpoints found"
             end ->
             (tools = [] -> errors <> [])
             /\ (errors = [] <-> exists found, info = inl found)
             /\ (forall found, info = inl found -> tools = found)
             /\ (errors <> [] ->
                 hd_error errors
                 = Some "_discover_public_info: No valid public info endpoints found")
             /\ (List.length errors <= 3)%nat
             /\ Forall (http_tagged utcnow server_name) tools).
  { intros tools errors info Htag Hlen Hne Hinfo. split; [exact Hne|].
    destruct info as [found|e].
    - destruct Hinfo as [-> ->]. split; [|split; [|split; [|split]]].
      + split; [intros _; eexists; reflexivity|reflexivity].
      + intros f H. injection H as <-. reflexivity.
      + intro H. exfalso. apply H. reflexivity.
      + exact Hlen.
      + exact Htag.
    - split; [|split; [|split; [|split]]].
      + split; [intros ->; discriminate Hinfo|intros [f H]; discriminate H].
      + intros f H. discriminate H.
      + intros _. exact Hinfo.
      + exact Hlen.
      + exact Htag. }
  destruct (snd (http_strategy._discover_public_info _ _ _ _ _ _)) as [[|t1 ts1]|e1].
  - exfalso. apply (proj1 H1). reflexivity.
  - cbn [http_strategy.try_methods fst snd].
    apply Hcase; [exact (proj2 H1)|cbn; lia|discriminate|split; reflexivity].
  - subst e1. cbn [http_strategy.try_methods app str_exn].
    destruct (http_strategy._discover_mcp_jsonrpc _ _ _ _ _ _ _) as [[|t2 ts2]|e2];
      cbn [http_strategy.try_methods app].
    + destruct (snd (http_strategy._discover_rest_api _ _ _ _ _ _)) as [[|t3 ts3]|e3];
        cbn [http_strategy.try_methods app fst snd].
      * exfalso. apply (proj1 H3). reflexivity.
      * apply Hcase; [exact (proj2 H3)|cbn; lia|discriminate|reflexivity].
      * apply Hcase; [constructor|cbn; lia|intros _; discriminate|reflexivity].
    + cbn [fst snd].
      apply Hcase; [exact H2|cbn; lia|discriminate|reflexivity].
    + destruct (snd (http_strategy._discover_rest_api _ _ _ _ _ _)) as [[|t3 ts3]|e3];
        cbn [http_strategy.try_methods app fst snd].
      * exfalso. apply (proj1 H3). reflexivity.
      * apply Hcase; [exact (proj2 H3)|cbn; lia|discriminate|reflexivity].
      * apply Hcase; [constructor|cbn; lia|intros _; discriminate|reflexivity].
Qed.

(** The text of the outermost handler of the HTTP strategy. *)
Definition http_failed (server_name : string) (e : exn) : string :=
  "HTTP discovery failed for " ++ server_name ++ ": " ++ str_exn e.

(** X11: what the HTTP strategy returns.  Without a usable [url] it is one
    error for the missing URL and nothing else.  With one: it never emits
    a warning, never returns three empty lists, returns at most four
    errors, and every descriptor returned is attributed to the server asked
    and typed HTTP.  When the client cannot be created, the outermost
    handler reports that failure as the only error and nothing is asked of
    the peer.  Otherwise the tools are those of the info probe whenever it
    found some, and tools found by the JSON-RPC or the REST probe always
    come with an error entry; the error list is empty exactly when the info
    probe found tools and the client closed cleanly; when the info probe
    failed, its fixed failure text is the first error; an exception on
    closing the client is reported last, after at most three errors, and
    the tools found are kept. *)
Theorem X11_http_discovery_outcome :
  forall (utcnow : string) (py_str : json -> string) (validation_error : dict -> string)
         (c : httpx.AsyncClient) (server_name : string) (server_config : McpServerConfig)
         (timeout_seconds : Z),
    let result := http_strategy.discover utcnow py_str validation_error c
                                         server_name server_config timeout_seconds in
    let tools := fst (fst result) in
    let errors := snd (fst result) in
    let warnings := snd result in
    let server_url := match url server_config with Some u => u | None => EmptyString end in
    let info := snd (http_strategy._discover_public_info
                       utcnow validation_error c server_url
                       (sent_headers server_config) server_name) in
    (truthy_str (url server_config) = false ->
     result = ([], ["No URL provided for HTTP server: " ++ server_name], []))
    /\ (truthy_str (url server_config) = true ->
        warnings = []
        /\ (tools = [] -> errors <> [])
        /\ (List.length errors <= 4)%nat
        /\ Forall (http_tagged utcnow server_name) tools
        /\ (forall e, httpx.aenter c = Some e ->
                      result = ([], [http_failed server_name e], []))
        /\ (httpx.aenter c = None ->
            (errors = [] <-> (exists found, info = inl found) /\ httpx.aexit c = None)
            /\ (forall found, info = inl found -> tools = found)
            /\ (forall e, info = inr e ->
                          hd_error errors
                          = Some "_discover_public_info: No valid public info endpoints found")
            /\ (forall e, httpx.aexit c = Some e ->
                          exists before,
                            errors = (before ++ [http_failed server_name e])%list
                            /\ (List.length before <= 3)%nat)
            /\ (httpx.aexit c = None -> (List.length errors <= 3)%nat))).
Proof.
  intros utcnow py_str validation_error c server_name cfg timeout_seconds.
  cbv zeta. unfold http_strategy.discover. split.
  - intros ->. reflexivity.
  - intros ->. cbn [negb]. fold (sent_headers cfg).
    set (server_url := match url cfg with Some u => u | None => EmptyString end).
    fold (http_failed server_name).
    pose proof (http_methods_outcome utcnow py_str validation_error c server_url
                                     (sent_headers cfg) server_name) as Hm.
    cbv zeta in Hm.
    destruct (httpx.aenter c) as [e0|].
    { cbn [fst snd]. split; [reflexivity|]. split; [intros _; discriminate|].
      split; [cbn; lia|]. split; [constructor|]. split.
      - intros e He. injection He as <-. reflexivity.
      - intro H. discriminate H. }
    destruct (http_strategy.try_methods _ []) as [tools errors].
    cbn [fst snd] in Hm. destruct Hm as (Hne & Hiff & Hfound & Hhd & Hlen & Htag).
    assert (Hwarn : match tools, errors with
                    | [], [] => ["No tools discovered from HTTP server " ++ server_name
                                 ++ " using any method"]
                    | _, _ => []
                    end = []).
    { destruct tools; [|reflexivity]. destruct errors; [|reflexivity].
      exfalso. apply Hne; reflexivity. }
    rewrite Hwarn.
    destruct (httpx.aexit c) as [e1|]; cbn [fst snd].
    + split; [reflexivity|]. split.
      { intros _. destruct errors; discriminate. }
      split; [rewrite length_app; cbn; lia|]. split; [exact Htag|]. split.
      { intros e He. discriminate He. }
      intros _. split; [|split; [|split; [|split]]].
      * split; [intro H; destruct errors; discriminate H|intros [_ H]; discriminate H].
      * exact Hfound.
      * intros e He. destruct errors as [|x xs].
        -- exfalso. destruct (proj1 Hiff eq_refl) as [f Hf]. rewrite Hf in He.
           discriminate He.
        -- cbn. apply Hhd. discriminate.
      * intros e He. injection He as <-. exists errors. split; [reflexivity|exact Hlen].
      * intro H. discriminate H.
    + split; [reflexivity|]. split; [exact Hne|].
      split; [lia|]. split; [exact Htag|]. split.
      { intros e He. discriminate He. }
      intros _. split; [|split; [|split; [|split]]].
      * split; [intro H; split; [apply Hiff; exact H|reflexivity]
               |intros [H _]; apply Hiff; exact H].
      * exact Hfound.
      * intros e He. apply Hhd. intro H. destruct (proj1 Hiff H) as [f Hf].
        rewrite Hf in He. discriminate He.
      * intros e He. discriminate He.
      * intros _. exact Hlen.
Qed.

(** A client that cannot be created, as with a proxy setting it cannot
    parse. *)
Definition unopened_client : httpx.AsyncClient :=
  httpx.mk_client (fun _ _ => inr (Exception "unreachable"))
                  (fun _ _ _ => inr (Exception "unreachable"))
                  (Some (Exception "Unknown scheme for proxy URL"))
                  None.

(** X11 on a peer that serves tools at its root path, on a client that
    cannot be created and on a configuration without [url]. *)
Lemma X11_http_discovery_outcome_witness :
  snd (fst (http_strategy.discover
              "2025-09-14T00:00:00" (fun _ => EmptyString) (fun _ => EmptyString)
              root_only_client "s1"
              (mk_McpServerConfig None None None (Some "http://x/") None None) 30))
  = []
  /\ http_strategy.discover
       "2025-09-14T00:00:00" (fun _ => EmptyString) (fun _ => EmptyString)
       unopened_client "s1"
       (mk_McpServerConfig None None None (Some "http://x/") None None) 30
     = ([], ["HTTP discovery failed for s1: Unknown scheme for proxy URL"], [])
  /\ http_strategy.discover
       "2025-09-14T00:00:00" (fun _ => EmptyString) (fun _ => EmptyString)
       root_only_client "s1" samples.bare 30
     = ([], ["No URL provided for HTTP server: s1"], []).
Proof.
  split; [|split].
  - pose proof (X11_http_discovery_outcome
                  "2025-09-14T00:00:00" (fun _ => EmptyString) (fun _ => EmptyString)
                  root_only_client "s1"
                  (mk_McpServerConfig None None None (Some "http://x/") None None) 30) as H.
    cbv zeta in H. destruct H as [_ H].
    destruct (H eq_refl) as (_ & _ & _ & _ & _ & Hopen).
    destruct (Hopen eq_refl) as (Herr & _).
    apply Herr. split; [|reflexivity]. eexists. vm_compute. reflexivity.
  - pose proof (X11_http_discovery_outcome
                  "2025-09-14T00:00:00" (fun _ => EmptyString) (fun _ => EmptyString)
                  unopened_client "s1"
                  (mk_McpServerConfig None None None (Some "http://x/") None None) 30) as H.
    cbv zeta in H. destruct H as [_ H].
    destruct (H eq_refl) as (_ & _ & _ & _ & Hfail & _).
    exact (Hfail _ eq_refl).
  - exact (proj1 (X11_http_discovery_outcome
                    "2025-09-14T00:00:00" (fun _ => EmptyString) (fun _ => EmptyString)
                    root_only_client "s1" samples.bare 30) eq_refl).
Defined.

(** ** URLs, names and schemas *)

(** [n] copies of a character. *)
Fixpoint copies (n : nat) (c : ascii) : string :=
  match n with
  | O => EmptyString
  | Datatypes.S n => String c (copies n c)
  end.

Lemma rstrip_snoc (c : ascii) (s : string) :
  rstrip c (s ++ String c EmptyString) = rstrip c s.
Proof.
  induction s as [|a s IH]; cbn [String.append rstrip].
  - rewrite Ascii.eqb_refl. reflexivity.
  - rewrite IH. reflexivity.
Qed.

Lemma rstrip_no_trailing (c : ascii) (s : string) :
  forall r, rstrip c s <> r ++ String c EmptyString.
Proof.
  induction s as [|a s IH]; intros r; cbn [rstrip].
  - destruct r; discriminate.
  - destruct (rstrip c s) as [|b t] eqn:E.
    + destruct (Ascii.eqb_spec a c) as [->|Hne].
      * destruct r; discriminate.
      * destruct r as [|x r]; cbn; intro H.
        -- injection H as H. apply Hne. exact H.
        -- injection H as _ H. destruct r; discriminate H.
    + destruct r as [|x r]; cbn; intro H.
      * discriminate H.
      * injection H as _ H. exact (IH r H).
Qed.

Lemma rstrip_padding (c : ascii) (s : string) :
  exists n, s = rstrip c s ++ copies n c.
Proof.
  induction s as [|a s [n IH]]; cbn [rstrip].
  - exists 0%nat. reflexivity.
  - destruct (rstrip c s) as [|b t] eqn:E.
    + destruct (Ascii.eqb_spec a c) as [->|Hne].
      * exists (Datatypes.S n). cbn. rewrite IH at 1. reflexivity.
      * exists n. cbn. rewrite IH at 1. reflexivity.
    + exists n. cbn. rewrite IH at 1. reflexivity.
Qed.

(** X12: the URL requested for an endpoint does not depend on trailing
    slashes of the configured server URL: the URL is the server URL with
    all of its trailing slashes (and nothing else) removed, followed by the
    endpoint path, so "http://x" and "http://x/" are probed at the same
    addresses. *)
Theorem X12_endpoint_url_ignores_trailing_slashes :
  forall (server_url endpoint : string),
    http_strategy.endpoint_url (server_url ++ "/") endpoint
    = http_strategy.endpoint_url server_url endpoint
    /\ (exists base n,
           server_url = base ++ copies n "/"
           /\ (forall r, base <> r ++ "/")
           /\ http_strategy.endpoint_url server_url endpoint = base ++ endpoint).
Proof.
  intros server_url endpoint. unfold http_strategy.endpoint_url. split.
  - rewrite rstrip_snoc. reflexivity.
  - destruct (rstrip_padding "/" server_url) as [n Hn].
    exists (rstrip "/" server_url), n. split; [exact Hn|].
    split; [apply rstrip_no_trailing|reflexivity].
Qed.

Lemma convert_entries_skip (utcnow : string) (validation_error : dict -> string)
      (server_name : string) (metadata : dict -> dict) (skipped rest : list json) :
  objects skipped = [] ->
  forall (i : nat) (tools : list EnumeratedTool.t),
    http_strategy.convert_entries utcnow validation_error server_name metadata
                                  i (skipped ++ rest) tools
    = http_strategy.convert_entries utcnow validation_error server_name metadata
                                    (i + List.length skipped) rest tools.
Proof.
  induction skipped as [|e skipped IH]; intros Hobj i tools.
  - cbn [app List.length]. rewrite Nat.add_0_r. reflexivity.
  - unfold objects in Hobj. cbn [filter] in Hobj.
    destruct e; try discriminate Hobj;
      cbn [app http_strategy.convert_entries List.length];
      rewrite (IH Hobj); f_equal; lia.
Qed.

(** X13: the name of a flat entry without a usable [name].  When [name] is
    missing or falsy the value under [id] is taken if that key is present,
    else the value under [tool_name] if present, else the placeholder
    "tool_" followed by the position of the entry in the whole list; the
    position counts the skipped entries that are not objects.  A value
    taken this way must be a string: an entry with, say, a numeric [id] is
    rejected even when it also has a [tool_name]. *)
Theorem X13_name_fallback_order :
  forall (utcnow server_name : string) (metadata : dict -> dict) (i : nat)
         (tool_data : dict),
    http_strategy.is_nested tool_data = false ->
    truthy (get tool_data "name") = false ->
    let fallback :=
      if has_key tool_data "id" then get tool_data "id"
      else if has_key tool_data "tool_name" then get tool_data "tool_name"
      else JStr ("tool_" ++ str_int (Z.of_nat i)) in
    (forall tool,
        http_strategy.make_tool utcnow server_name metadata i tool_data = Some tool ->
        JStr (EnumeratedTool.name tool) = fallback)
    /\ ((forall s, fallback <> JStr s) ->
        http_strategy.make_tool utcnow server_name metadata i tool_data = None)
    /\ (forall validation_error skipped tools,
           objects skipped = [] ->
           List.length skipped = i ->
           http_strategy.convert_entries utcnow validation_error server_name metadata
                                         0 (skipped ++ [JObj tool_data]) tools
           = match http_strategy.make_tool utcnow server_name metadata i tool_data with
             | Some tool => ((tools ++ [tool])%list, None)
             | None => (tools, Some (Exception (validation_error tool_data)))
             end).
Proof.
  intros utcnow server_name metadata i tool_data Hflat Hname. cbv zeta.
  assert (Hnorm : fst (fst (http_strategy.normalize i tool_data))
                  = if has_key tool_data "id" then get tool_data "id"
                    else if has_key tool_data "tool_name" then get tool_data "tool_name"
                         else JStr ("tool_" ++ str_int (Z.of_nat i))).
  { unfold http_strategy.normalize. rewrite Hflat, Hname. cbn [negb fst].
    unfold get, get_default, has_key.
    destruct (lookup tool_data "id"); [reflexivity|].
    destruct (lookup tool_data "tool_name"); reflexivity. }
  split; [|split].
  - intros tool Hmk. destruct (make_tool_fields _ _ _ _ _ _ Hmk) as [_ [_ H]].
    rewrite H. exact Hnorm.
  - intro Hbad. unfold http_strategy.make_tool.
    destruct (http_strategy.normalize i tool_data) as [[actual_name description] schema]
      eqn:E.
    cbn [fst] in Hnorm. subst actual_name.
    match goal with
    | |- context [pydantic.as_str ?v] => destruct v eqn:Ev; try reflexivity
    end.
    exfalso. exact (Hbad _ eq_refl).
  - intros validation_error skipped tools Hobj Hlen.
    rewrite (convert_entries_skip _ _ _ _ _ _ Hobj). cbn [Nat.add]. rewrite Hlen.
    cbn [http_strategy.convert_entries].
    destruct (http_strategy.make_tool utcnow server_name metadata i tool_data);
      reflexivity.
Qed.

(** X13 on [[7, "x", {"description": "d"}]] and on [[{"id": 7, "tool_name": "t"}]]. *)
Lemma X13_name_fallback_order_witness :
  map EnumeratedTool.name
      (fst (http_strategy.convert_entries
              EmptyString (fun _ => EmptyString) "s" (fun d => d) 0
              [JNum 7; JStr "x"; JObj [("description", JStr "d")]] []))
  = ["tool_2"]
  /\ http_strategy.make_tool EmptyString "s" (fun d => d) 0
                            [("id", JNum 7); ("tool_name", JStr "t")]
     = None.
Proof.
  split.
  - pose proof (proj2 (proj2 (X13_name_fallback_order
                                EmptyString "s" (fun d => d) 2
                                [("description", JStr "d")] eq_refl eq_refl))
                  (fun _ => EmptyString) [JNum 7; JStr "x"] [] eq_refl eq_refl) as H.
    cbn [app] in H. rewrite H. reflexivity.
  - apply (proj1 (proj2 (X13_name_fallback_order
                           EmptyString "s" (fun d => d) 0
                           [("id", JNum 7); ("tool_name", JStr "t")] eq_refl eq_refl))).
    intros s H. discriminate H.
Defined.

Lemma all_str_spec (l : list json) (req : list string) :
  pydantic.all_str l = Some req ->
  l = map JStr req
  /\ forall k,
      existsb (fun e => match e with JStr s => s =? k | _ => false end) l = true
      <-> In k req.
Proof.
  revert req. induction l as [|e l IH]; intros req; cbn [pydantic.all_str].
  - intro H. injection H as <-. split; [reflexivity|]. intro k. cbn.
    split; [discriminate|intros []].
  - destruct e; try discriminate.
    destruct (pydantic.all_str l) as [r|]; [|discriminate].
    intro H. injection H as <-. destruct (IH r eq_refl) as [Hl Hk]. split.
    + cbn. rewrite <- Hl. reflexivity.
    + intro k. cbn [existsb In]. rewrite orb_true_iff, Hk, String.eqb_eq. reflexivity.
Qed.

Lemma convert_properties_spec (schema_data : dict) (props : list (string * json)) :
  forall ps,
    http_strategy.convert_properties schema_data props = Some ps ->
    map fst ps = map fst props
    /\ Forall (fun kp =>
                 ToolParameter.name (snd kp) = fst kp
                 /\ str_in (fst kp) (get_default schema_data "required" (JArr []))
                    = Some (ToolParameter.required (snd kp))) ps.
Proof.
  induction props as [|[k v] props IH]; intros ps; cbn [http_strategy.convert_properties].
  - intro H. injection H as <-. split; [reflexivity|constructor].
  - destruct (http_strategy.convert_property schema_data (k, v)) as [q|] eqn:Hq;
      [|discriminate].
    destruct (http_strategy.convert_properties schema_data props) as [r|]; [|discriminate].
    intro H. injection H as <-. destruct (IH r eq_refl) as [Hkeys Hall].
    unfold http_strategy.convert_property in Hq.
    destruct v as [| | | | |pd]; try discriminate Hq.
    destruct (pydantic.as_str _) as [ty|]; [|discriminate Hq].
    destruct (pydantic.as_opt_str _) as [desc|]; [|discriminate Hq].
    destruct (str_in k _) as [req|] eqn:Hreq; [|discriminate Hq].
    destruct (pydantic.as_opt_list _) as [en|]; [|discriminate Hq].
    injection Hq as <-. split.
    + cbn. rewrite Hkeys. reflexivity.
    + constructor; [|exact Hall]. cbn. split; [reflexivity|exact Hreq].
Qed.

(** X14: schema conversion.  A falsy value and a value that is not an
    object give no schema.  When a schema comes out, the value was a
    non-empty object whose [properties] (if any) is an object; the schema
    keeps the parameters in the order of that object, each named by its
    key; its [required] list is the [required] array of the object (which
    must hold strings only); and a parameter is flagged required exactly
    when its name occurs in that list. *)
Theorem X14_schema_conversion :
  forall schema_data : json,
    (truthy schema_data = false -> http_strategy._convert_tool_schema schema_data = None)
    /\ ((forall d, schema_data <> JObj d) ->
        http_strategy._convert_tool_schema schema_data = None)
    /\ (forall schema,
           http_strategy._convert_tool_schema schema_data = Some schema ->
           exists d props,
             schema_data = JObj d /\ d <> []
             /\ get_default d "properties" (JObj []) = JObj props
             /\ map fst (ToolSchema.properties schema) = map fst props
             /\ get_default d "required" (JArr []) = JArr (map JStr (ToolSchema.required schema))
             /\ Forall (fun kp =>
                          ToolParameter.name (snd kp) = fst kp
                          /\ (ToolParameter.required (snd kp) = true
                              <-> In (fst kp) (ToolSchema.required schema)))
                       (ToolSchema.properties schema)).
Proof.
  intro schema_data. unfold http_strategy._convert_tool_schema. split; [|split].
  - intros ->. reflexivity.
  - intro Hno. destruct (negb (truthy schema_data)); [reflexivity|].
    destruct schema_data; try reflexivity. exfalso. exact (Hno _ eq_refl).
  - intros schema. destruct (negb (truthy schema_data)) eqn:Ht; [discriminate|].
    destruct schema_data as [| | | | |d]; try discriminate.
    destruct (get_default d "properties" (JObj [])) as [| | | | |props] eqn:Hprops;
      try discriminate.
    destruct (http_strategy.convert_properties d props) as [ps|] eqn:Hps; [|discriminate].
    destruct (pydantic.as_str _) as [ty|]; [|discriminate].
    destruct (pydantic.as_list_str _) as [req|] eqn:Hreq; [|discriminate].
    destruct (pydantic.as_bool _) as [additional|]; [|discriminate].
    intro H. injection H as <-. exists d, props.
    cbn [ToolSchema.properties ToolSchema.required].
    destruct (convert_properties_spec d props ps Hps) as [Hkeys Hall].
    unfold pydantic.as_list_str in Hreq.
    destruct (get_default d "required" (JArr [])) as [| | | |l|] eqn:Hrequired;
      try discriminate Hreq.
    destruct (all_str_spec l req Hreq) as [Hl Hin].
    split; [reflexivity|]. split.
    { intros ->. discriminate Ht. }
    split; [exact Hprops|]. split; [exact Hkeys|]. split; [rewrite Hl; reflexivity|].
    eapply Forall_impl; [|exact Hall]. intros [k p] [Hname Hr]. cbn [fst snd] in *.
    split; [exact Hname|]. cbn [str_in] in Hr. injection Hr as Hr.
    rewrite <- Hr. apply Hin.
Qed.

(** X14 on a schema with one required and one optional parameter, and on
    a schema given as a list. *)
Lemma X14_schema_conversion_witness :
  (exists schema,
      http_strategy._convert_tool_schema
        (JObj [("type", JStr "object");
               ("properties", JObj [("a", JObj [("type", JStr "string")]);
                                    ("b", JObj [])]);
               ("required", JArr [JStr "a"])])
      = Some schema
      /\ map (fun kp => (fst kp, ToolParameter.required (snd kp)))
             (ToolSchema.properties schema)
         = [("a", true); ("b", false)])
  /\ http_strategy._convert_tool_schema (JArr [JStr "a"]) = None.
Proof.
  split.
  - eexists. split; reflexivity.
  - apply (proj1 (proj2 (X14_schema_conversion (JArr [JStr "a"])))).
    intros d H. discriminate H.
Defined.

(* ================================================================== *)
(** * Further properties of the process strategy *)
(* ================================================================== *)

Module stdio_proofs.
Import stdio_strategy.

(** How a block ended, whatever its value. *)
Inductive kind : Type :=
| KNormal
| KReturned
| KRaised (e : exn)
| KCancelled.

Definition kind_of {A : Type} (c : control A) : kind :=
  match c with
  | Normal _ => KNormal
  | Returned => KReturned
  | Raised e => KRaised e
  | Cancelled => KCancelled
  end.

Lemma bind_kinds {A B : Type} (m : M A) (k : A -> M B) st c st' :
  bind m k st = (c, st') ->
  (exists a st1, m st = (Normal a, st1) /\ k a st1 = (c, st'))
  \/ (exists c1, m st = (c1, st') /\ kind_of c1 = kind_of c /\ kind_of c <> KNormal).
Proof.
  unfold bind. destruct (m st) as [[a| | e|] st1]; intro E.
  - left. exists a, st1. split; [reflexivity|exact E].
  - right. injection E as <- <-. eexists. repeat split. discriminate.
  - right. injection E as <- <-. eexists. repeat split. discriminate.
  - right. injection E as <- <-. eexists. repeat split. discriminate.
Qed.

Lemma bind_normal {A B : Type} (m : M A) (k : A -> M B) st b st' :
  bind m k st = (Normal b, st') ->
  exists a st1, m st = (Normal a, st1) /\ k a st1 = (Normal b, st').
Proof.
  intro E. destruct (bind_kinds m k st _ st' E) as [H|(c1 & _ & _ & H)]; [exact H|].
  exfalso. apply H. reflexivity.
Qed.

(** ** Postconditions on the way a block ends *)

Section Sat.

(** The deadline the block runs under. *)
Variable deadline : option Z.

(** The postcondition: it may look at the kind of ending and at the error
    list, holds for every normal ending and every exception (those are
    dealt with by the enclosing statements), and for a [return] that
    follows a recorded error. *)
Variable Q : kind -> state -> Prop.
Hypothesis Q_normal : forall st, Q KNormal st.
Hypothesis Q_raised : forall e st, Q (KRaised e) st.
Hypothesis Q_returned : forall st, errors st <> [] -> Q KReturned st.
Hypothesis Q_errors : forall k st st', errors st' = errors st -> Q k st -> Q k st'.
Hypothesis Q_await : forall ms st c st',
    await_for deadline ms st = (c, st') -> Q (kind_of c) st'.

Definition sat {A : Type} (m : M A) : Prop :=
  forall st c st', m st = (c, st') -> Q (kind_of c) st'.

Lemma sat_normal {A : Type} (m : M A) :
  (forall st c st', m st = (c, st') -> kind_of c = KNormal) -> sat m.
Proof. intros H st c st' E. rewrite (H _ _ _ E). apply Q_normal. Qed.

Lemma sat_ret {A : Type} (a : A) : sat (ret a).
Proof. apply sat_normal. intros st c st' E. injection E as <- _. reflexivity. Qed.

Lemma sat_raise {A : Type} (e : exn) : sat (@raise A e).
Proof. intros st c st' E. injection E as <- _. apply Q_raised. Qed.

Lemma sat_emit (ev : event) : sat (emit ev).
Proof. apply sat_normal. intros st c st' E. injection E as <- _. reflexivity. Qed.

Lemma sat_set_status (s : process_status) : sat (set_status s).
Proof. apply sat_normal. intros st c st' E. injection E as <- _. reflexivity. Qed.

Lemma sat_errors_append (e : string) : sat (errors_append e).
Proof. apply sat_normal. intros st c st' E. injection E as <- _. reflexivity. Qed.

Lemma sat_warnings_append (w : string) : sat (warnings_append w).
Proof. apply sat_normal. intros st c st' E. injection E as <- _. reflexivity. Qed.

Lemma sat_tools_append (t : EnumeratedTool.t) : sat (tools_append t).
Proof. apply sat_normal. intros st c st' E. injection E as <- _. reflexivity. Qed.

Lemma sat_get_state : sat get_state.
Proof. apply sat_normal. intros st c st' E. injection E as <- _. reflexivity. Qed.

Lemma sat_await_for (ms : Z) : sat (await_for deadline ms).
Proof. intros st c st' E. exact (Q_await ms st c st' E). Qed.

(** [errors.append(...)] followed by [return tools, errors, warnings]. *)
Lemma sat_error_return {A : Type} (e : string) :
  sat (bind (errors_append e) (fun _ => @return_ A)).
Proof.
  intros st c st' E. cbn in E. injection E as <- <-. apply Q_returned. cbn.
  destruct (errors st); discriminate.
Qed.

Lemma sat_bind {A B : Type} (m : M A) (k : A -> M B) :
  sat m -> (forall a, sat (k a)) -> sat (bind m k).
Proof.
  intros Hm Hk st c st' E.
  destruct (bind_kinds m k st c st' E) as [(a & st1 & E1 & E2)|(c1 & E1 & Hk1 & _)].
  - exact (Hk a _ _ _ E2).
  - rewrite <- Hk1. exact (Hm _ _ _ E1).
Qed.

Lemma sat_try_except {A : Type} (body : M A) (handler : exn -> option (M A)) :
  sat body -> (forall e h, handler e = Some h -> sat h) -> sat (try_except body handler).
Proof.
  intros Hb Hh st c st' E. unfold try_except in E.
  destruct (body st) as [cb st1] eqn:Eb. pose proof (Hb _ _ _ Eb) as H1.
  destruct cb as [a| | e|]; try (injection E as <- <-; exact H1).
  destruct (handler e) as [h|] eqn:Eh; [|injection E as <- <-; exact H1].
  exact (Hh e h Eh _ _ _ E).
Qed.

Lemma sat_try_finally_teardown {A : Type} (the_child : child) (body : M A) :
  sat body -> sat (try_finally body (teardown the_child)).
Proof.
  intros Hb st c st' E. unfold try_finally in E.
  destruct (body st) as [cb st1] eqn:Eb.
  destruct (teardown_proof.teardown_spec the_child st1) as (st2 & Et & _ & _ & _ & He & _).
  rewrite Et in E. injection E as <- <-.
  apply (Q_errors _ st1 st2 He). exact (Hb _ _ _ Eb).
Qed.

End Sat.

(** One step of a proof of [sat]. *)
Ltac sat_step :=
  first
    [ apply sat_error_return; assumption
    | apply sat_await_for; assumption
    | apply sat_ret; assumption
    | apply sat_raise; assumption
    | apply sat_emit; assumption
    | apply sat_set_status; assumption
    | apply sat_errors_append; assumption
    | apply sat_warnings_append; assumption
    | apply sat_tools_append; assumption
    | apply sat_get_state; assumption
    | apply sat_bind; [|intro]
    | apply sat_try_except;
      [|let e := fresh "e" in
          let h := fresh "h" in
          let H := fresh "H" in
          intros e h H; destruct e; try discriminate H; injection H as <-]
    | match goal with
      | |- sat _ (if ?b then _ else _) => destruct b
      | |- sat _ (match ?x with _ => _ end) => destruct x
      end ].

Section SatDiscover.

Variable which : string -> bool.
Variable os_environ : list (string * string).
Variable json_loads : string -> json + string.
Variable py_str : json -> string.
Variable validation_error : dict -> string.
Variable utcnow : string.
Variable deadline : option Z.
Variable the_child : child.

Variable Q : kind -> state -> Prop.
Hypothesis Q_normal : forall st, Q KNormal st.
Hypothesis Q_raised : forall e st, Q (KRaised e) st.
Hypothesis Q_returned : forall st, errors st <> [] -> Q KReturned st.
Hypothesis Q_errors : forall k st st', errors st' = errors st -> Q k st -> Q k st'.
Hypothesis Q_await : forall ms st c st',
    await_for deadline ms st = (c, st') -> Q (kind_of c) st'.

Lemma sat_write (message : json) (outcome : option exn) : sat Q (write message outcome).
Proof. unfold write. repeat sat_step. Qed.

Lemma sat_read_line (reply : option (Z * string)) (process_timeout : Z) :
  sat Q (read_line deadline reply process_timeout).
Proof. unfold read_line. repeat sat_step. Qed.

Lemma sat_subscript (v : json) (key : string) : sat Q (subscript v key).
Proof. unfold subscript. repeat sat_step. Qed.

Lemma sat_contains_key (key : string) (v : json) : sat Q (contains_key key v).
Proof. unfold contains_key. repeat sat_step. Qed.

Lemma sat_convert_tools (server_name : string) (server_config : McpServerConfig)
      (tools_list : list json) :
  sat Q (convert_tools validation_error utcnow server_name server_config tools_list).
Proof.
  induction tools_list as [|item rest IH]; cbn [convert_tools].
  - sat_step.
  - destruct item; try exact IH.
    apply sat_bind; [sat_step|intro st0].
    destruct (pydantic.as_str _); [|sat_step].
    destruct (pydantic.as_opt_str _); [|sat_step].
    apply sat_bind; [sat_step|intro; exact IH].
Qed.

Lemma sat_handshake (server_name : string) (server_config : McpServerConfig)
      (cmd : string) (timeout_seconds : Z) :
  sat Q (handshake json_loads py_str validation_error utcnow deadline the_child
                   server_name server_config cmd timeout_seconds).
Proof.
  unfold handshake.
  repeat first
    [ apply sat_write
    | apply sat_read_line
    | apply sat_subscript
    | apply sat_contains_key
    | apply sat_convert_tools
    | sat_step ].
Qed.

Lemma sat_popen (cmd : list string) (env : list (string * string)) :
  sat Q (popen the_child cmd env).
Proof. unfold popen. repeat sat_step. Qed.

Lemma sat_discover (server_name : string) (server_config : McpServerConfig)
      (timeout_seconds : Z) :
  sat Q (discover which os_environ json_loads py_str validation_error utcnow deadline
                  the_child server_name server_config timeout_seconds).
Proof.
  unfold discover.
  repeat first
    [ apply sat_popen
    | apply sat_handshake
    | apply sat_try_finally_teardown; [exact Q_errors|]
    | sat_step ].
Qed.

End SatDiscover.

(** A [try] whose handler takes every exception. *)
Lemma try_except_total {A : Type} (body : M A) (h : exn -> M A) st c st' :
  try_except body (fun e => Some (h e)) st = (c, st') ->
  (body st = (c, st') /\ forall e, c <> Raised e)
  \/ (exists e st1, body st = (Raised e, st1) /\ h e st1 = (c, st')).
Proof.
  unfold try_except. destruct (body st) as [[a| |e|] st1]; intro E.
  - left. split; [exact E|]. injection E as <- _. discriminate.
  - left. split; [exact E|]. injection E as <- _. discriminate.
  - right. exists e, st1. split; [reflexivity|exact E].
  - left. split; [exact E|]. injection E as <- _. discriminate.
Qed.

Section Outcome.

Variable which : string -> bool.
Variable os_environ : list (string * string).
Variable json_loads : string -> json + string.
Variable py_str : json -> string.
Variable validation_error : dict -> string.
Variable utcnow : string.
Variable deadline : option Z.
Variable the_child : child.
Variable server_name : string.
Variable server_config : McpServerConfig.
Variable timeout_seconds : Z.

Let discover_ : M unit :=
  discover which os_environ json_loads py_str validation_error utcnow deadline
           the_child server_name server_config timeout_seconds.

(** The outermost handler catches every exception. *)
Lemma discover_never_raises st c st' :
  discover_ st = (c, st') -> forall e, c <> Raised e.
Proof.
  unfold discover_, discover.
  destruct (negb (truthy_str (command server_config))).
  - cbn. intros E e. injection E as <- _. discriminate.
  - cbv zeta. intro E. apply try_except_total in E.
    destruct E as [[_ H]|(e' & st1 & _ & E)]; [exact H|].
    intro e. injection E as <- _. discriminate.
Qed.

(** A [return] inside the call always follows a recorded error. *)
Lemma discover_returned_with_error st c st' :
  discover_ st = (c, st') -> c = Returned -> errors st' <> [].
Proof.
  intros E Hc.
  refine (sat_discover which os_environ json_loads py_str validation_error utcnow
            deadline the_child
            (fun k s => k = KReturned -> errors s <> []) _ _ _ _ _
            server_name server_config timeout_seconds st c st' E _).
  - intros s H. discriminate H.
  - intros e s H. discriminate H.
  - intros s H _. exact H.
  - intros k s s' He H Hk. rewrite He. exact (H Hk).
  - intros ms s c0 s' Ea Hk. unfold await_for in Ea.
    destruct deadline as [d|]; [destruct (d <? clock s + ms)%Z|];
      cbn in Ea; injection Ea as <- _; discriminate Hk.
  - rewrite Hc. reflexivity.
Qed.

(** Without an enclosing deadline nothing cancels the call. *)
Lemma discover_not_cancelled st c st' :
  deadline = None -> discover_ st = (c, st') -> c <> Cancelled.
Proof.
  intros Hd E Hc.
  refine (sat_discover which os_environ json_loads py_str validation_error utcnow
            deadline the_child
            (fun k s => k <> KCancelled) _ _ _ _ _
            server_name server_config timeout_seconds st c st' E _).
  - intros s H. discriminate H.
  - intros e s H. discriminate H.
  - intros s _ H. discriminate H.
  - intros k s s' _ H. exact H.
  - intros ms s c0 s' Ea. unfold await_for in Ea. rewrite Hd in Ea.
    cbn in Ea. injection Ea as <- _. discriminate.
  - rewrite Hc. reflexivity.
Qed.

(** A call that runs to its last statement leaves at least one list
    non-empty. *)
Lemma discover_normal_reports st a st' :
  discover_ st = (Normal a, st') ->
  tools st' <> [] \/ errors st' <> [] \/ warnings st' <> [].
Proof.
  unfold discover_, discover.
  destruct (negb (truthy_str (command server_config))).
  - cbn. intro E. discriminate E.
  - cbv zeta. intro E. apply try_except_total in E.
    destruct E as [[Eb _]|(e' & st1 & _ & E)].
    + apply bind_normal in Eb. destruct Eb as (? & s1 & _ & Eb).
      apply bind_normal in Eb. destruct Eb as (? & s2 & _ & Eb).
      apply bind_normal in Eb. destruct Eb as (argv & s3 & _ & Eb).
      apply bind_normal in Eb. destruct Eb as (? & s4 & _ & Eb).
      apply bind_normal in Eb. destruct Eb as (? & s5 & _ & Eb).
      cbn in Eb.
      destruct (tools s5) as [|t ts] eqn:Et; [destruct (errors s5) as [|er ers] eqn:Ee|];
        cbn in Eb; injection Eb as _ <-.
      * right; right. cbn. destruct (warnings s5); discriminate.
      * right; left. rewrite Ee. discriminate.
      * left. rewrite Et. discriminate.
    + injection E as _ <-. right; left. cbn.
      destruct (errors st1); discriminate.
Qed.

Lemma discover_reports st c st' :
  discover_ st = (c, st') -> c <> Cancelled ->
  tools st' <> [] \/ errors st' <> [] \/ warnings st' <> [].
Proof.
  intros E Hc. destruct c as [a| |e|].
  - exact (discover_normal_reports _ _ _ E).
  - right; left. exact (discover_returned_with_error _ _ _ E eq_refl).
  - exfalso. exact (discover_never_raises _ _ _ E e eq_refl).
  - exfalso. apply Hc. reflexivity.
Qed.

End Outcome.

(** ** What is spawned, and when *)

(** The value a key is bound to in an environment. *)
Fixpoint binding (k : string) (d : list (string * string)) : option string :=
  match d with
  | [] => None
  | (k', v) :: rest => if k' =? k then Some v else binding k rest
  end.

Lemma binding_app (k : string) (d1 d2 : list (string * string)) :
  binding k (d1 ++ d2)%list
  = match binding k d1 with Some v => Some v | None => binding k d2 end.
Proof.
  induction d1 as [|[k1 v1] d1 IH]; cbn; [reflexivity|].
  destruct (k1 =? k); [reflexivity|exact IH].
Qed.

Lemma binding_update1 (d : list (string * string)) (k v k' : string) :
  binding k' (update1 d k v) = if k =? k' then Some v else binding k' d.
Proof.
  induction d as [|[a b] d IH]; cbn.
  - destruct (k =? k'); reflexivity.
  - destruct (a =? k) eqn:Eak; cbn.
    + apply String.eqb_eq in Eak. subst a. destruct (k =? k'); reflexivity.
    + rewrite IH. destruct (a =? k') eqn:Eak'; [|reflexivity].
      destruct (k =? k') eqn:Ekk'; [|reflexivity].
      apply String.eqb_eq in Eak', Ekk'. subst. rewrite String.eqb_refl in Eak.
      discriminate Eak.
Qed.

Lemma binding_update (d extra : list (string * string)) (k : string) :
  binding k (update d extra)
  = match binding k (rev extra) with Some v => Some v | None => binding k d end.
Proof.
  unfold update. revert d. induction extra as [|[k0 v0] extra IH]; intro d; cbn.
  - reflexivity.
  - rewrite IH, binding_app, binding_update1.
    destruct (binding k (rev extra)); [reflexivity|].
    cbn. destruct (k0 =? k); reflexivity.
Qed.

Lemma guard_normal (b : bool) (msg : string) st (a : unit) s1 :
  (if b then bind (errors_append msg) (fun _ => return_) else ret tt) st = (Normal a, s1) ->
  b = false /\ s1 = st.
Proof.
  destruct b; cbn; intro E; [discriminate E|]. injection E as _ <-. split; reflexivity.
Qed.

Lemma guard_abrupt (b : bool) (msg : string) st (c : control unit) s1 :
  (if b then bind (errors_append msg) (fun _ => return_) else ret tt) st = (c, s1) ->
  kind_of c <> KNormal ->
  b = true /\ log s1 = log st.
Proof.
  destruct b; cbn; intros E H; injection E as <- <-.
  - split; reflexivity.
  - exfalso. apply H. reflexivity.
Qed.

(** The guarded region, with the command line and the environment of the
    spawn made explicit. *)
Lemma guarded_spawn {A : Type} (c : child) (cmd : list string)
      (env : list (string * string)) (body : M A) (rest : A -> M unit) st ctl st' :
  teardown_proof.quiet body -> (forall a, teardown_proof.silent (rest a)) ->
  log st = [] ->
  bind (popen c cmd env) (fun _ => bind (try_finally body (teardown c)) rest) st
  = (ctl, st') ->
  (log st' = [] /\ popen_error c <> None)
  \/ (popen_error c = None
      /\ exists hs, log st' = (Popen cmd env :: hs ++ teardown_proof.teardown_trace c)%list
                    /\ Forall teardown_proof.handshake_event hs).
Proof.
  intros Hbody Hrest L E. unfold popen in E.
  destruct (popen_error c) as [msg|].
  - cbn in E. injection E as _ <-. left. split; [exact L|discriminate].
  - right. split; [reflexivity|].
    set (st1 := mk_state (tools st) (errors st) (warnings st) Running
                         (log st ++ [Popen cmd env])%list (clock st)).
    assert (E1 : bind (try_finally body (teardown c)) rest st1 = (ctl, st')) by exact E.
    clear E.
    assert (Hfin : forall cf stf,
               try_finally body (teardown c) st1 = (cf, stf) ->
               exists hs, log stf = (Popen cmd env :: hs ++ teardown_proof.teardown_trace c)%list
                          /\ Forall teardown_proof.handshake_event hs).
    { intros cf stf Ef. unfold try_finally in Ef.
      destruct (body st1) as [cb st2] eqn:Eb.
      destruct (Hbody _ _ _ Eb) as [_ (hs & L2 & F2)].
      destruct (teardown_proof.teardown_spec c st2) as (st3 & Et & L3 & _).
      rewrite Et in Ef. injection Ef as _ <-. exists hs. split; [|exact F2].
      rewrite L3, L2. subst st1. cbn [log]. rewrite L. reflexivity. }
    apply teardown_proof.bind_cases in E1.
    destruct E1 as [(a & st2 & E2 & E3)|(c1 & E2)].
    + destruct (Hrest a _ _ _ E3) as [L3 _]. rewrite L3. exact (Hfin _ _ E2).
    + exact (Hfin _ _ E2).
Qed.

(** How the statements from the [which] test to the end of the guarded
    region leave the log: untouched because a guard refused, the arguments
    were missing or the spawn failed; or else the log is the spawn, the
    handshake and the cleanup. *)
Definition spawn_chain_result (c : child) (g1 g2 : bool) (oargs : option (list string))
           (cmd : string) (env : list (string * string)) (st' : state) : Prop :=
  (log st' = []
   /\ (g1 = true \/ g2 = true \/ oargs = None \/ popen_error c <> None))
  \/ (g1 = false /\ g2 = false
      /\ exists a hs,
          oargs = Some a /\ popen_error c = None
          /\ log st' = (Popen (cmd :: a) env :: hs ++ teardown_proof.teardown_trace c)%list
          /\ Forall teardown_proof.handshake_event hs).

Lemma spawn_chain {A : Type} (c : child) (g1 g2 : bool) (m1 m2 m3 : string)
      (oargs : option (list string)) (cmd : string) (env : list (string * string))
      (body : M A) (rest : A -> M unit) st ctl st' :
  teardown_proof.quiet body -> (forall a, teardown_proof.silent (rest a)) ->
  log st = [] ->
  bind (if g1 then bind (errors_append m1) (fun _ => return_) else ret tt)
       (fun _ =>
          bind (if g2 then bind (errors_append m2) (fun _ => return_) else ret tt)
               (fun _ =>
                  bind (match oargs with
                        | Some a => ret (cmd :: a)
                        | None => raise (Exception m3)
                        end)
                       (fun argv =>
                          bind (popen c argv env)
                               (fun _ => bind (try_finally body (teardown c)) rest))))
       st = (ctl, st') ->
  spawn_chain_result c g1 g2 oargs cmd env st'.
Proof.
  intros Hbody Hrest L Eb. unfold spawn_chain_result.
  apply bind_kinds in Eb.
  destruct Eb as [(u1 & s1 & E1 & Eb)|(c1 & E1 & Hk & Hn)].
  2: { left. rewrite <- Hk in Hn. destruct (guard_abrupt _ _ _ _ _ E1 Hn) as [-> Hl].
       split; [congruence|left; reflexivity]. }
  apply guard_normal in E1. destruct E1 as [Hw ->].
  apply bind_kinds in Eb.
  destruct Eb as [(u2 & s2 & E2 & Eb)|(c2 & E2 & Hk & Hn)].
  2: { left. rewrite <- Hk in Hn. destruct (guard_abrupt _ _ _ _ _ E2 Hn) as [-> Hl].
       split; [congruence|right; left; reflexivity]. }
  apply guard_normal in E2. destruct E2 as [Hr ->].
  destruct oargs as [a|].
  2: { cbn in Eb. injection Eb as _ <-. left.
       split; [exact L|right; right; left; reflexivity]. }
  change (bind (popen c (cmd :: a) env)
               (fun _ => bind (try_finally body (teardown c)) rest) st = (ctl, st'))
    in Eb.
  apply guarded_spawn in Eb; [|exact Hbody|exact Hrest|exact L].
  destruct Eb as [[Eb Hp]|(Hp & hs & Hl & Hf)].
  - left. split; [exact Eb|right; right; right; exact Hp].
  - right. split; [exact Hw|split; [exact Hr|]]. exists a, hs. repeat split; assumption.
Qed.

Section Spawn.

Variable which : string -> bool.
Variable os_environ : list (string * string).
Variable json_loads : string -> json + string.
Variable py_str : json -> string.
Variable validation_error : dict -> string.
Variable utcnow : string.
Variable deadline : option Z.
Variable the_child : child.
Variable server_name : string.
Variable server_config : McpServerConfig.
Variable timeout_seconds : Z.

(** [env = os.environ.copy(); env.update(server_config.env)]. *)
Definition child_env : list (string * string) :=
  match env server_config with
  | Some (kv :: e) => update os_environ (kv :: e)
  | _ => os_environ
  end.

(** The conditions under which the call gets as far as [Popen], and the
    spawn succeeds. *)
Definition spawnable (cmd : string) (a : list string) : Prop :=
  command server_config = Some cmd
  /\ cmd <> EmptyString
  /\ which cmd = true
  /\ args server_config = Some a
  /\ (is_runner cmd = true -> a <> [])
  /\ popen_error the_child = None.

Lemma spawnable_unique (cmd cmd' : string) (a a' : list string) :
  spawnable cmd a -> spawnable cmd' a' -> cmd' = cmd /\ a' = a.
Proof.
  intros (Hc & _ & _ & Ha & _) (Hc' & _ & _ & Ha' & _). split; congruence.
Qed.

Lemma discover_spawn st c st' :
  log st = [] ->
  discover which os_environ json_loads py_str validation_error utcnow deadline
           the_child server_name server_config timeout_seconds st = (c, st') ->
  (log st' = [] /\ forall cmd a, ~ spawnable cmd a)
  \/ exists cmd a hs,
       spawnable cmd a
       /\ log st' = (Popen (cmd :: a) child_env :: hs
                     ++ teardown_proof.teardown_trace the_child)%list
       /\ Forall teardown_proof.handshake_event hs.
Proof.
  intro L. unfold discover.
  destruct (command server_config) as [cmd|] eqn:Ecmd; cbn [truthy_str negb].
  2: { cbn. intro E. injection E as _ <-. left. split; [exact L|].
       intros cmd a (H & _). rewrite Ecmd in H. discriminate H. }
  destruct (cmd =? EmptyString) eqn:Ee; cbn [negb].
  { cbn. intro E. injection E as _ <-. left. split; [exact L|].
    intros cmd' a (H & Hne & _). rewrite Ecmd in H. injection H as ->.
    apply Hne. apply String.eqb_eq. exact Ee. }
  cbv zeta. intro E. apply try_except_total in E.
  assert (Hchain : forall st1,
             log st' = log st1 ->
             spawn_chain_result the_child (negb (which cmd))
               (is_runner cmd && negb (truthy_list (args server_config)))
               (args server_config) cmd child_env st1 ->
             (log st' = [] /\ forall cmd a, ~ spawnable cmd a)
             \/ exists cmd a hs,
                 spawnable cmd a
                 /\ log st' = (Popen (cmd :: a) child_env :: hs
                               ++ teardown_proof.teardown_trace the_child)%list
                 /\ Forall teardown_proof.handshake_event hs).
  { intros st1 Hl [[H Hwhy]|(Hw & Hr & a & hs & Ha & Hp & Hlog & Hf)]; rewrite Hl.
    - left. split; [exact H|].
      intros cmd' a' (Hc & _ & Hw & Ha & Hrun & Hp).
      rewrite Ecmd in Hc. injection Hc as <-.
      destruct Hwhy as [Hg|[Hg|[Hg|Hg]]].
      + rewrite Hw in Hg. discriminate Hg.
      + apply andb_true_iff in Hg. destruct Hg as [Hg1 Hg2].
        rewrite Ha in Hg2. destruct a' as [|x xs]; [|discriminate Hg2].
        apply (Hrun Hg1). reflexivity.
      + rewrite Ha in Hg. discriminate Hg.
      + exact (Hg Hp).
    - right. exists cmd, a, hs. split; [|split; assumption].
      unfold spawnable. repeat split; try assumption.
      + intro H. subst cmd. discriminate Ee.
      + destruct (which cmd); [reflexivity|discriminate Hw].
      + intros Hrun ->. rewrite Hrun, Ha in Hr. discriminate Hr. }
  assert (Hq : teardown_proof.quiet
                 (try_except
                    (handshake json_loads py_str validation_error utcnow deadline
                               the_child server_name server_config cmd timeout_seconds)
                    (fun e => match e with
                              | TimeoutExpired _ =>
                                  Some (errors_append
                                          ("STDIO server " ++ server_name
                                           ++ " timed out after "
                                           ++ str_int timeout_seconds ++ " seconds"))
                              | JSONDecodeError msg =>
                                  Some (errors_append
                                          ("Invalid JSON response from " ++ server_name
                                           ++ ": " ++ msg))
                              | _ => None
                              end))).
  { apply teardown_proof.quiet_try_except; [apply teardown_proof.quiet_handshake|].
    intros e h H. destruct e; try discriminate H; injection H as <-;
      apply teardown_proof.silent_quiet, teardown_proof.silent_errors_append. }
  destruct E as [[Eb _]|(e & st1 & Eb & Eh)].
  - apply (Hchain st' eq_refl).
    refine (spawn_chain _ _ _ _ _ _ _ _ _ _ _ _ _ _ Hq _ L Eb).
    intro u. apply teardown_proof.silent_bind; [apply teardown_proof.silent_get_state|].
    intro s. destruct (tools s); [destruct (errors s)|];
      first [apply teardown_proof.silent_warnings_append|apply teardown_proof.silent_ret].
  - apply (Hchain st1).
    + injection Eh as _ <-. reflexivity.
    + refine (spawn_chain _ _ _ _ _ _ _ _ _ _ _ _ _ _ Hq _ L Eb).
      intro u. apply teardown_proof.silent_bind; [apply teardown_proof.silent_get_state|].
      intro s. destruct (tools s); [destruct (errors s)|];
        first [apply teardown_proof.silent_warnings_append|apply teardown_proof.silent_ret].
Qed.

End Spawn.

(** ** The order of the conversation with the child *)

(** Events that are part of the conversation: the liveness check, what is
    written to the child and what is read from it. *)
Definition is_handshake (ev : event) : bool :=
  match ev with
  | Poll | Write _ | ReadLine => true
  | _ => false
  end.

Definition conversation (st : state) : list event := filter is_handshake (log st).

(** The whole conversation of a call that gets to its end. *)
Definition protocol : list event :=
  [ Poll;
    Write mcp_init_request; ReadLine;
    Write initialized_notification;
    Write list_tools_request; ReadLine ].

Definition prefix_of {A : Type} (l full : list A) : Prop :=
  exists rest, (l ++ rest)%list = full.

(** A block that adds a prefix of [f] to the conversation. *)
Definition pre {A : Type} (m : M A) (f : list event) : Prop :=
  forall st c st',
    m st = (c, st') ->
    exists evs, conversation st' = (conversation st ++ evs)%list /\ prefix_of evs f.

(** A block that adds a prefix of [f] to the conversation, and the whole
    of [f] when it ends normally. *)
Definition traces {A : Type} (m : M A) (f : list event) : Prop :=
  forall st c st',
    m st = (c, st') ->
    exists evs, conversation st' = (conversation st ++ evs)%list
                /\ prefix_of evs f
                /\ (kind_of c = KNormal -> evs = f).

Lemma prefix_of_nil {A : Type} (f : list A) : prefix_of [] f.
Proof. exists f. reflexivity. Qed.

Lemma prefix_of_refl {A : Type} (f : list A) : prefix_of f f.
Proof. exists []. apply app_nil_r. Qed.

Lemma prefix_of_app_r {A : Type} (l f g : list A) : prefix_of l f -> prefix_of l (f ++ g)%list.
Proof. intros [r <-]. exists (r ++ g)%list. apply app_assoc. Qed.

Lemma prefix_of_app_l {A : Type} (l f g : list A) :
  prefix_of l g -> prefix_of (f ++ l)%list (f ++ g)%list.
Proof. intros [r <-]. exists r. symmetry. apply app_assoc. Qed.

Lemma traces_pre {A : Type} (m : M A) (f : list event) : traces m f -> pre m f.
Proof.
  intros H st c st' E. destruct (H _ _ _ E) as (evs & Hc & Hp & _).
  exists evs. split; assumption.
Qed.

Lemma traces_silent {A : Type} (m : M A) : teardown_proof.silent m -> traces m [].
Proof.
  intros H st c st' E. destruct (H _ _ _ E) as [Hl _]. exists [].
  unfold conversation. rewrite Hl, app_nil_r.
  split; [reflexivity|split; [apply prefix_of_nil|reflexivity]].
Qed.

Lemma traces_emit (ev : event) :
  traces (emit ev) (if is_handshake ev then [ev] else []).
Proof.
  intros st c st' E. injection E as <- <-.
  exists (if is_handshake ev then [ev] else []). unfold conversation. cbn [log].
  rewrite filter_app. cbn [filter]. split; [reflexivity|].
  split; [apply prefix_of_refl|reflexivity].
Qed.

Lemma traces_bind {A B : Type} (m : M A) (k : A -> M B) (f1 f2 f : list event) :
  traces m f1 -> (forall a, traces (k a) f2) -> f = (f1 ++ f2)%list ->
  traces (bind m k) f.
Proof.
  intros Hm Hk -> st c st' E.
  destruct (bind_kinds m k st c st' E) as [(a & st1 & E1 & E2)|(c1 & E1 & Hk1 & Hn)].
  - destruct (Hm _ _ _ E1) as (e1 & C1 & _ & N1).
    destruct (Hk a _ _ _ E2) as (e2 & C2 & P2 & N2).
    rewrite (N1 eq_refl) in C1. exists (f1 ++ e2)%list.
    split; [rewrite C2, C1, app_assoc; reflexivity|].
    split; [apply prefix_of_app_l; exact P2|].
    intro H. rewrite (N2 H). reflexivity.
  - destruct (Hm _ _ _ E1) as (e1 & C1 & P1 & _). exists e1.
    split; [exact C1|]. split; [apply prefix_of_app_r; exact P1|].
    intro H. contradiction.
Qed.

(** A handler that adds nothing to the conversation and ends in [return]. *)
Definition returning {A : Type} (h : M A) : Prop :=
  forall st c st', h st = (c, st') -> conversation st' = conversation st /\ kind_of c <> KNormal.

Lemma returning_error_return {A : Type} (e : string) :
  returning (bind (errors_append e) (fun _ => @return_ A)).
Proof.
  intros st c st' E. cbn in E. injection E as <- <-. split; [reflexivity|discriminate].
Qed.

Lemma traces_try_except {A : Type} (body : M A) (handler : exn -> option (M A))
      (f : list event) :
  traces body f -> (forall e h, handler e = Some h -> returning h) ->
  traces (try_except body handler) f.
Proof.
  intros Hb Hh st c st' E. unfold try_except in E.
  destruct (body st) as [cb st1] eqn:Eb.
  destruct (Hb _ _ _ Eb) as (evs & C1 & P1 & N1).
  destruct cb as [a| | e|]; try (injection E as <- <-; exists evs; repeat split; assumption).
  destruct (handler e) as [h|] eqn:Eh.
  - destruct (Hh e h Eh _ _ _ E) as [C2 Hn]. exists evs.
    split; [rewrite C2; exact C1|]. split; [exact P1|]. intro H. contradiction.
  - injection E as <- <-. exists evs. repeat split; assumption.
Qed.

(** A block that adds nothing to the conversation. *)
Definition mute {A : Type} (m : M A) : Prop :=
  forall st c st', m st = (c, st') -> conversation st' = conversation st.

Lemma mute_silent {A : Type} (m : M A) : teardown_proof.silent m -> mute m.
Proof.
  intros H st c st' E. destruct (H _ _ _ E) as [Hl _]. unfold conversation.
  rewrite Hl. reflexivity.
Qed.

Lemma pre_try_except {A : Type} (body : M A) (handler : exn -> option (M A))
      (f : list event) :
  pre body f -> (forall e h, handler e = Some h -> mute h) ->
  pre (try_except body handler) f.
Proof.
  intros Hb Hh st c st' E. unfold try_except in E.
  destruct (body st) as [cb st1] eqn:Eb.
  destruct (Hb _ _ _ Eb) as (evs & C1 & P1).
  destruct cb as [a| | e|]; try (injection E as _ <-; exists evs; split; assumption).
  destruct (handler e) as [h|] eqn:Eh.
  - rewrite <- (Hh e h Eh _ _ _ E) in C1. exists evs. split; assumption.
  - injection E as _ <-. exists evs. split; assumption.
Qed.

Lemma pre_try_finally {A : Type} (body : M A) (cleanup : M unit) (f : list event) :
  pre body f -> mute cleanup -> pre (try_finally body cleanup) f.
Proof.
  intros Hb Hc st c st' E. unfold try_finally in E.
  destruct (body st) as [cb st1] eqn:Eb.
  destruct (Hb _ _ _ Eb) as (evs & C1 & P1).
  destruct (cleanup st1) as [cc st2] eqn:Ec.
  rewrite <- (Hc _ _ _ Ec) in C1.
  exists evs. split; [|exact P1].
  destruct cc; injection E as _ <-; exact C1.
Qed.

Lemma pre_bind_mute_l {A B : Type} (m : M A) (k : A -> M B) (f : list event) :
  mute m -> (forall a, pre (k a) f) -> pre (bind m k) f.
Proof.
  intros Hm Hk st c st' E. apply teardown_proof.bind_cases in E.
  destruct E as [(a & st1 & E1 & E2)|(c1 & E1)].
  - destruct (Hk a _ _ _ E2) as (evs & C & P). rewrite (Hm _ _ _ E1) in C.
    exists evs. split; assumption.
  - exists []. rewrite app_nil_r. split; [exact (Hm _ _ _ E1)|apply prefix_of_nil].
Qed.

Lemma pre_bind_mute_r {A B : Type} (m : M A) (k : A -> M B) (f : list event) :
  pre m f -> (forall a, mute (k a)) -> pre (bind m k) f.
Proof.
  intros Hm Hk st c st' E. apply teardown_proof.bind_cases in E.
  destruct E as [(a & st1 & E1 & E2)|(c1 & E1)].
  - destruct (Hm _ _ _ E1) as (evs & C & P). rewrite <- (Hk a _ _ _ E2) in C.
    exists evs. split; assumption.
  - exact (Hm _ _ _ E1).
Qed.

Lemma pre_mute {A : Type} (m : M A) (f : list event) : mute m -> pre m f.
Proof.
  intros H st c st' E. exists []. rewrite app_nil_r.
  split; [exact (H _ _ _ E)|apply prefix_of_nil].
Qed.

(** One step of a proof that a block leaves the child alone, with the
    primitives spelled out. *)
Ltac still :=
  repeat first
    [ apply teardown_proof.silent_ret
    | apply teardown_proof.silent_return_
    | apply teardown_proof.silent_raise
    | apply teardown_proof.silent_errors_append
    | apply teardown_proof.silent_warnings_append
    | apply teardown_proof.silent_tools_append
    | apply teardown_proof.silent_set_clock
    | apply teardown_proof.silent_get_state
    | apply teardown_proof.silent_await_for
    | apply teardown_proof.silent_subscript
    | apply teardown_proof.silent_contains_key
    | apply teardown_proof.silent_convert_tools
    | apply teardown_proof.silent_bind; [|intro]
    | match goal with
      | |- teardown_proof.silent (if ?b then _ else _) => destruct b
      | |- teardown_proof.silent (match ?x with _ => _ end) => destruct x
      end ].

Section Conversation.

Variable which : string -> bool.
Variable os_environ : list (string * string).
Variable json_loads : string -> json + string.
Variable py_str : json -> string.
Variable validation_error : dict -> string.
Variable utcnow : string.
Variable deadline : option Z.
Variable the_child : child.

Lemma traces_write (message : json) (outcome : option exn) :
  traces (write message outcome) [Write message].
Proof.
  unfold write.
  apply (traces_bind _ _ [Write message] []);
    [exact (traces_emit (Write message))| |reflexivity].
  intro. apply traces_silent. still.
Qed.

Lemma traces_read_line (reply : option (Z * string)) (process_timeout : Z) :
  traces (read_line deadline reply process_timeout) [ReadLine].
Proof.
  unfold read_line.
  apply (traces_bind _ _ [ReadLine] []); [exact (traces_emit ReadLine)| |reflexivity].
  intro. apply traces_silent. still.
Qed.

Lemma traces_handshake (server_name : string) (server_config : McpServerConfig)
      (cmd : string) (timeout_seconds : Z) :
  traces (handshake json_loads py_str validation_error utcnow deadline the_child
                    server_name server_config cmd timeout_seconds)
         protocol.
Proof.
  unfold handshake. cbv zeta.
  apply (traces_bind _ _ [] protocol); [apply traces_silent; still| |reflexivity].
  intros _.
  apply (traces_bind _ _ [Poll] (tl protocol)); [exact (traces_emit Poll)| |reflexivity].
  intros _.
  apply (traces_bind _ _ [] (tl protocol)); [apply traces_silent; still| |reflexivity].
  intros _.
  apply (traces_bind _ _ [Write mcp_init_request] (tl (tl protocol))); [| |reflexivity].
  { apply traces_try_except; [apply traces_write|].
    intros e h H. destruct e; try discriminate H. injection H as <-.
    apply returning_error_return. }
  intros _.
  apply (traces_bind _ _ [ReadLine] (tl (tl (tl protocol)))); [| |reflexivity].
  { apply traces_try_except.
    - apply (traces_bind _ _ [ReadLine] []); [apply traces_read_line| |reflexivity].
      intro. apply traces_silent. still.
    - intros e h H. destruct e; try discriminate H. injection H as <-.
      apply returning_error_return. }
  intros _.
  apply (traces_bind _ _ [Write initialized_notification] (tl (tl (tl (tl protocol)))));
    [apply traces_write| |reflexivity].
  intros _.
  apply (traces_bind _ _ [] (tl (tl (tl (tl protocol))))); [apply traces_silent; still| |reflexivity].
  intros _.
  apply (traces_bind _ _ [Write list_tools_request] [ReadLine]); [| |reflexivity].
  { apply traces_try_except; [apply traces_write|].
    intros e h H. destruct e; try discriminate H. injection H as <-.
    apply returning_error_return. }
  intros _.
  apply (traces_bind _ _ [ReadLine] []); [| |reflexivity].
  { apply traces_try_except.
    - apply (traces_bind _ _ [ReadLine] []); [apply traces_read_line| |reflexivity].
      intro. apply traces_silent. still.
    - intros e h H. destruct e; try discriminate H. injection H as <-.
      apply returning_error_return. }
  intro tools_data. apply traces_silent. still.
Qed.

Lemma mute_popen (cmd : list string) (env : list (string * string)) :
  mute (popen the_child cmd env).
Proof.
  intros st c st' E. unfold popen in E. destruct (popen_error the_child).
  - injection E as _ <-. reflexivity.
  - cbn in E. injection E as _ <-. unfold conversation. cbn [log].
    rewrite filter_app. cbn. apply app_nil_r.
Qed.

Lemma mute_teardown : mute (teardown the_child).
Proof.
  intros st c st' E.
  destruct (teardown_proof.teardown_spec the_child st) as (st2 & Et & Hl & _).
  rewrite Et in E. injection E as _ <-. unfold conversation. rewrite Hl, filter_app.
  unfold teardown_proof.teardown_trace.
  destruct (terminate_raises the_child);
    [|destruct (exits_early the_child || exits_on_sigterm the_child)];
    cbn; apply app_nil_r.
Qed.

Lemma pre_discover (server_name : string) (server_config : McpServerConfig)
      (timeout_seconds : Z) :
  pre (discover which os_environ json_loads py_str validation_error utcnow deadline
                the_child server_name server_config timeout_seconds)
      protocol.
Proof.
  unfold discover.
  destruct (negb (truthy_str (command server_config))).
  - apply pre_mute, mute_silent. still.
  - cbv zeta. apply pre_try_except.
    + apply pre_bind_mute_l; [apply mute_silent; still|intros _].
      apply pre_bind_mute_l; [apply mute_silent; still|intros _].
      apply pre_bind_mute_l; [apply mute_silent; still|intro argv].
      apply pre_bind_mute_l; [apply mute_popen|intros _].
      apply pre_bind_mute_r.
      * apply pre_try_finally; [|apply mute_teardown].
        apply pre_try_except; [apply traces_pre, traces_handshake|].
        intros e h H. destruct e; try discriminate H; injection H as <-;
          apply mute_silent; still.
      * intros _. apply mute_silent. still.
    + intros e h H. injection H as <-. apply mute_silent. still.
Qed.

End Conversation.

(** ** A child that does not answer [initialize] *)

Lemma teardown_clock (c : child) (st : state) :
  clock (snd (teardown c st)) = clock st.
Proof.
  unfold teardown.
  destruct (terminate_raises c); [|destruct (exits_early c || exits_on_sigterm c)];
    reflexivity.
Qed.

Section InitTimeout.

Variable which : string -> bool.
Variable os_environ : list (string * string).
Variable json_loads : string -> json + string.
Variable py_str : json -> string.
Variable validation_error : dict -> string.
Variable utcnow : string.
Variable the_child : child.
Variable server_name : string.
Variable server_config : McpServerConfig.
Variable timeout_seconds : Z.

(** [process_timeout]. *)
Definition process_timeout (cmd : string) : Z :=
  if cmd =? "npx" then Z.min timeout_seconds 30 else Z.min timeout_seconds 10.

(** The child is alive after the settle delay, takes the request, and no
    line comes back within [process_timeout]. *)
Definition silent_at_init (cmd : string) : Prop :=
  exits_early the_child = false
  /\ init_write the_child = None
  /\ match init_reply the_child with
     | Some (delay, _) => (process_timeout cmd * 1000 < delay)%Z
     | None => True
     end.

Lemma handshake_init_timeout (cmd : string) (st : state) :
  silent_at_init cmd ->
  handshake json_loads py_str validation_error utcnow None the_child
            server_name server_config cmd timeout_seconds st
  = (Returned,
     mk_state (tools st)
              (errors st ++ [("Initialization timeout for " ++ server_name)%string])%list
              (warnings st) (status st)
              (log st ++ [Poll; Write mcp_init_request; ReadLine])%list
              (clock st + 500 + process_timeout cmd * 1000)%Z).
Proof.
  intros (He & Hw & Hr). unfold handshake. rewrite He, Hw.
  fold (process_timeout cmd). unfold read_line.
  assert (Hread :
            forall s,
              match init_reply the_child with
              | Some (delay, line) =>
                  if (delay <=? process_timeout cmd * 1000)%Z
                  then bind (await_for None delay) (fun _ => ret line)
                  else bind (await_for None (process_timeout cmd * 1000))
                            (fun _ => raise TimeoutError)
              | None => bind (await_for None (process_timeout cmd * 1000))
                             (fun _ => raise TimeoutError)
              end s
              = bind (await_for None (process_timeout cmd * 1000))
                     (fun _ => @raise string TimeoutError) s).
  { intro s. destruct (init_reply the_child) as [[delay line]|]; [|reflexivity].
    destruct (Z.leb_spec delay (process_timeout cmd * 1000)); [lia|reflexivity]. }
  cbv beta iota zeta
      delta [bind ret try_except emit set_clock errors_append return_ raise write
             await_for tools errors warnings status log clock].
  cbv beta iota zeta
      delta [bind ret try_except emit set_clock errors_append return_ raise write
             await_for tools errors warnings status log clock] in Hread.
  rewrite Hread. cbv beta iota.
  rewrite <- !app_assoc. reflexivity.
Qed.

Lemma run_init_timeout (cmd : string) (a : list string) :
  spawnable which the_child server_config cmd a ->
  silent_at_init cmd ->
  exists st,
    run which os_environ json_loads py_str validation_error utcnow None the_child
        server_name server_config timeout_seconds = (Returned, st)
    /\ tools st = []
    /\ errors st = ["Initialization timeout for " ++ server_name]
    /\ warnings st = []
    /\ clock st = (500 + process_timeout cmd * 1000)%Z.
Proof.
  intros (Hc & Hne & Hw & Ha & Hrun & Hp) Hsilent.
  unfold run, discover. rewrite Hc. cbn [truthy_str].
  assert (Hcmd : (cmd =? EmptyString) = false).
  { destruct (cmd =? EmptyString) eqn:E; [|reflexivity].
    apply String.eqb_eq in E. contradiction. }
  rewrite Hcmd. cbv zeta. rewrite Hw, Ha.
  assert (Hg : is_runner cmd && negb (truthy_list (Some a)) = false).
  { destruct (is_runner cmd); [|reflexivity].
    destruct a as [|x xs]; [|reflexivity]. exfalso. apply Hrun; reflexivity. }
  rewrite Hg. unfold popen. rewrite Hp.
  cbv beta iota delta [negb bind ret try_except try_finally emit set_status initial].
  rewrite (handshake_init_timeout cmd _ Hsilent). cbv beta iota.
  match goal with
  | |- context [teardown the_child ?s] =>
      pose proof (teardown_clock the_child s) as Hclock;
      destruct (teardown_proof.teardown_spec the_child s)
        as (st3 & Et & _ & _ & Ht & He & Hwarn)
  end.
  rewrite Et in Hclock |- *. cbv beta iota. exists st3.
  split; [reflexivity|]. cbn in Hclock, Ht, He, Hwarn.
  repeat split; assumption.
Qed.

End InitTimeout.

(** ** What every discovered tool carries *)

Section Keeps.

(** A property of tool descriptors. *)
Variable P : EnumeratedTool.t -> Prop.







End Keeps.


Section Tagged.

Variable which : string -> bool.
Variable os_environ : list (string * string).
Variable json_loads : string -> json + string.
Variable py_str : json -> string.
Variable validation_error : dict -> string.
Variable utcnow : string.
Variable deadline : option Z.
Variable the_child : child.
Variable server_name : string.
Variable server_config : McpServerConfig.












End Tagged.

End stdio_proofs.

(** X15: a call of the process strategy never lets an exception out (its
    outermost handler takes every [Exception]); awaited without an
    enclosing deadline it is never cancelled, so it hands back its three
    lists; and the three lists it hands back are never all empty: an early
    [return] always follows a recorded error, and a run that reaches the
    last statement with no tool and no error adds a warning. *)
Theorem X15_process_discovery_always_reports :
  forall (which : string -> bool) (os_environ : list (string * string))
         (json_loads : string -> json + string) (py_str : json -> string)
         (validation_error : dict -> string) (utcnow : string)
         (deadline : option Z) (the_child : stdio_strategy.child)
         (server_name : string) (server_config : McpServerConfig)
         (timeout_seconds : Z),
    let run_ d :=
      stdio_strategy.run which os_environ json_loads py_str validation_error utcnow d
                         the_child server_name server_config timeout_seconds in
    let discover_tools_ d :=
      stdio_strategy.discover_tools which os_environ json_loads py_str validation_error
                                    utcnow d the_child server_name server_config
                                    timeout_seconds in
    (forall e, fst (run_ deadline) <> stdio_strategy.Raised e)
    /\ fst (run_ None) <> stdio_strategy.Cancelled
    /\ (exists d, discover_tools_ None = Some d)
    /\ (forall t e w,
           discover_tools_ deadline = Some (t, e, w) ->
           (t <> [] \/ e <> [] \/ w <> [])
           /\ (fst (run_ deadline) = stdio_strategy.Returned -> e <> [])).
Proof.
  intros. subst run_ discover_tools_. cbv beta.
  unfold stdio_strategy.discover_tools, stdio_strategy.run.
  assert (Hnone : fst (stdio_strategy.discover which os_environ json_loads py_str
                         validation_error utcnow None the_child server_name
                         server_config timeout_seconds stdio_strategy.initial)
                  <> stdio_strategy.Cancelled).
  { destruct (stdio_strategy.discover _ _ _ _ _ _ None _ _ _ _ _) as [c st] eqn:E.
    exact (stdio_proofs.discover_not_cancelled _ _ _ _ _ _ _ _ _ _ _ _ _ _ eq_refl E). }
  split; [|split; [exact Hnone|split]].
  - intro e.
    destruct (stdio_strategy.discover _ _ _ _ _ _ deadline _ _ _ _ _) as [c st] eqn:E.
    exact (stdio_proofs.discover_never_raises _ _ _ _ _ _ _ _ _ _ _ _ _ _ E e).
  - destruct (stdio_strategy.discover _ _ _ _ _ _ None _ _ _ _ _) as [c st] eqn:E.
    destruct c; try (eexists; reflexivity). exfalso. apply Hnone. reflexivity.
  - intros t e w.
    destruct (stdio_strategy.discover _ _ _ _ _ _ deadline _ _ _ _ _) as [c st] eqn:E.
    intro H.
    assert (Hc : c <> stdio_strategy.Cancelled).
    { intro Hc. rewrite Hc in H. discriminate H. }
    assert (Hst : (stdio_strategy.tools st, stdio_strategy.errors st,
                   stdio_strategy.warnings st) = (t, e, w)).
    { destruct c; try (injection H as <- <- <-; reflexivity). exfalso. apply Hc.
      reflexivity. }
    injection Hst as <- <- <-. split.
    + exact (stdio_proofs.discover_reports _ _ _ _ _ _ _ _ _ _ _ _ _ _ E Hc).
    + intro Hr.
      exact (stdio_proofs.discover_returned_with_error _ _ _ _ _ _ _ _ _ _ _ _ _ _ E Hr).
Qed.

Lemma X15_process_discovery_always_reports_witness :
  exists t e w,
    stdio_strategy.discover_tools (fun _ => true) [("PATH", "/usr/bin")] sample_loads
      (fun _ => EmptyString) (fun _ => EmptyString) "2025-09-14T00:00:00" (Some 20000%Z)
      samples.silent_child "s" python_server 30 = Some (t, e, w)
    /\ (t <> [] \/ e <> [] \/ w <> [])
    /\ (fst (sample_run (Some 20000%Z) samples.silent_child) = stdio_strategy.Returned
        -> e <> []).
Proof.
  pose proof (X15_process_discovery_always_reports
                (fun _ => true) [("PATH", "/usr/bin")] sample_loads
                (fun _ => EmptyString) (fun _ => EmptyString) "2025-09-14T00:00:00"
                (Some 20000%Z) samples.silent_child "s" python_server 30) as H.
  cbv zeta in H. destruct H as (_ & _ & _ & H).
  eexists _, _, _. split; [vm_compute; reflexivity|].
  apply H. vm_compute. reflexivity.
Defined.

(** X16: the process strategy starts a process only for a configuration it
    can run.  Whenever the log of a call holds a spawn, the configured
    command is a non-empty string that [shutil.which] resolves, the
    argument list is present (and non-empty for [npx], [uvx] and [uv]),
    the command line is the command followed by the arguments, and the
    child's environment is the server's own environment updated with the
    configured variables: a configured variable has its configured value
    (the last one, should a name repeat), every other variable is
    inherited unchanged. *)
Theorem X16_spawn_only_when_runnable :
  forall (which : string -> bool) (os_environ : list (string * string))
         (json_loads : string -> json + string) (py_str : json -> string)
         (validation_error : dict -> string) (utcnow : string)
         (deadline : option Z) (the_child : stdio_strategy.child)
         (server_name : string) (server_config : McpServerConfig)
         (timeout_seconds : Z) (argv : list string) (env_ : list (string * string)),
    In (stdio_strategy.Popen argv env_)
       (stdio_strategy.log
          (snd (stdio_strategy.run which os_environ json_loads py_str validation_error
                                   utcnow deadline the_child server_name server_config
                                   timeout_seconds))) ->
    exists cmd a,
      stdio_proofs.spawnable which the_child server_config cmd a
      /\ argv = cmd :: a
      /\ env_ = stdio_proofs.child_env os_environ server_config
      /\ forall k,
          stdio_proofs.binding k env_
          = match env server_config with
            | Some e =>
                match stdio_proofs.binding k (rev e) with
                | Some v => Some v
                | None => stdio_proofs.binding k os_environ
                end
            | None => stdio_proofs.binding k os_environ
            end.
Proof.
  intros which os_environ json_loads py_str validation_error utcnow deadline the_child
         server_name server_config timeout_seconds argv env_ Hin.
  unfold stdio_strategy.run in Hin.
  destruct (stdio_strategy.discover _ _ _ _ _ _ _ _ _ _ _ _) as [c st] eqn:E.
  cbn [snd] in Hin.
  destruct (stdio_proofs.discover_spawn _ _ _ _ _ _ _ _ _ _ _ stdio_strategy.initial
              c st eq_refl E)
    as [[Hl _]|(cmd & a & hs & Hs & Hl & Hf)].
  - rewrite Hl in Hin. destruct Hin.
  - rewrite Hl in Hin. destruct Hin as [Heq|Hin].
    + injection Heq as <- <-. exists cmd, a. split; [exact Hs|].
      split; [reflexivity|]. split; [reflexivity|].
      intro k. unfold stdio_proofs.child_env.
      destruct (env server_config) as [[|kv e]|]; [reflexivity| |reflexivity].
      apply stdio_proofs.binding_update.
    + exfalso. apply in_app_or in Hin. destruct Hin as [Hin|Hin].
      * rewrite Forall_forall in Hf. exact (Hf _ Hin).
      * unfold teardown_proof.teardown_trace in Hin.
        destruct (stdio_strategy.terminate_raises the_child);
          [|destruct (stdio_strategy.exits_early the_child
                      || stdio_strategy.exits_on_sigterm the_child)];
          cbn in Hin; intuition discriminate.
Qed.

Lemma X16_spawn_only_when_runnable_witness :
  exists cmd a,
    stdio_proofs.spawnable (fun _ => true) helpful_child python_server cmd a
    /\ ["python"; "server.py"] = cmd :: a.
Proof.
  assert (Hin : In (stdio_strategy.Popen ["python"; "server.py"] [("PATH", "/usr/bin")])
                   (stdio_strategy.log
                      (snd (stdio_strategy.run
                              (fun _ => true) [("PATH", "/usr/bin")] sample_loads
                              (fun _ => EmptyString) (fun _ => EmptyString)
                              "2025-09-14T00:00:00" None
                              helpful_child "s" python_server 30)))).
  { vm_compute. left. reflexivity. }
  destruct (X16_spawn_only_when_runnable
              (fun _ => true) [("PATH", "/usr/bin")] sample_loads
              (fun _ => EmptyString) (fun _ => EmptyString) "2025-09-14T00:00:00" None
              helpful_child "s" python_server 30
              ["python"; "server.py"] [("PATH", "/usr/bin")] Hin)
    as (cmd & a & Hs & Ha & _).
  exists cmd, a. split; assumption.
Defined.

Lemma append_empty_r (s : string) : s ++ EmptyString = s.
Proof. induction s as [|c s IH]; cbn; [reflexivity|rewrite IH; reflexivity]. Qed.

(** X17: what the process strategy reports when it does not get as far as
    a running child, and that otherwise it does spawn.  A missing or empty
    command, a command [shutil.which] does not find, and a package runner
    without arguments each end the call with that one error, no tool, no
    warning and no process started; so does a command whose [args] is
    absent (the concatenation of the command line raises, and the
    outermost handler reports it) and a [Popen] that raises.  In every
    other case the first event of the call is the spawn of the command
    followed by its arguments. *)
Theorem X17_refusals_before_spawn :
  forall (which : string -> bool) (os_environ : list (string * string))
         (json_loads : string -> json + string) (py_str : json -> string)
         (validation_error : dict -> string) (utcnow : string)
         (deadline : option Z) (the_child : stdio_strategy.child)
         (server_name : string) (server_config : McpServerConfig)
         (timeout_seconds : Z),
    let out :=
      stdio_strategy.run which os_environ json_loads py_str validation_error utcnow
                         deadline the_child server_name server_config timeout_seconds in
    let refused ctl msg :=
      out = (ctl, stdio_strategy.mk_state [] [msg] [] stdio_strategy.NotStarted [] 0) in
    (truthy_str (command server_config) = false ->
     refused stdio_strategy.Returned
             ("No command provided for STDIO server: " ++ server_name))
    /\ (forall cmd,
           command server_config = Some cmd -> cmd <> EmptyString ->
           which cmd = false ->
           refused stdio_strategy.Returned
                   ("Command '" ++ cmd ++ "' not found in PATH for server " ++ server_name))
    /\ (forall cmd,
           command server_config = Some cmd -> cmd <> EmptyString ->
           which cmd = true -> stdio_strategy.is_runner cmd = true ->
           truthy_list (args server_config) = false ->
           refused stdio_strategy.Returned
                   (cmd ++ " requires package name as argument for server " ++ server_name))
    /\ (forall cmd,
           command server_config = Some cmd -> cmd <> EmptyString ->
           which cmd = true -> stdio_strategy.is_runner cmd = false ->
           args server_config = None ->
           refused (stdio_strategy.Normal tt)
                   ("STDIO discovery failed for " ++ server_name
                    ++ ": can only concatenate list (not " ++ stdio_strategy.dq
                    ++ "NoneType" ++ stdio_strategy.dq ++ ") to list"))
    /\ (forall cmd a msg,
           command server_config = Some cmd -> cmd <> EmptyString ->
           which cmd = true -> args server_config = Some a ->
           (stdio_strategy.is_runner cmd = true -> a <> []) ->
           stdio_strategy.popen_error the_child = Some msg ->
           refused (stdio_strategy.Normal tt)
                   ("STDIO discovery failed for " ++ server_name ++ ": " ++ msg
                    ++ stdio_strategy.hint cmd msg))
    /\ (forall cmd a,
           stdio_proofs.spawnable which the_child server_config cmd a ->
           exists hs,
             stdio_strategy.log (snd out)
             = (stdio_strategy.Popen (cmd :: a)
                                     (stdio_proofs.child_env os_environ server_config)
                  :: hs ++ teardown_proof.teardown_trace the_child)%list
             /\ Forall teardown_proof.handshake_event hs).
Proof.
  intros which os_environ json_loads py_str validation_error utcnow deadline the_child
         server_name server_config timeout_seconds out refused.
  subst refused out. cbv beta.
  assert (Htruthy : forall cmd, cmd <> EmptyString -> (cmd =? EmptyString) = false).
  { intros cmd H. destruct (cmd =? EmptyString) eqn:E; [|reflexivity].
    apply String.eqb_eq in E. contradiction. }
  repeat split.
  - intro Hc. unfold stdio_strategy.run, stdio_strategy.discover. rewrite Hc.
    reflexivity.
  - intros cmd Hc Hne Hw. unfold stdio_strategy.run, stdio_strategy.discover.
    rewrite Hc. cbn [truthy_str]. rewrite (Htruthy cmd Hne). cbv zeta. rewrite Hw.
    reflexivity.
  - intros cmd Hc Hne Hw Hr Ha. unfold stdio_strategy.run, stdio_strategy.discover.
    rewrite Hc. cbn [truthy_str]. rewrite (Htruthy cmd Hne). cbv zeta.
    rewrite Hw, Hr, Ha. reflexivity.
  - intros cmd Hc Hne Hw Hr Ha. unfold stdio_strategy.run, stdio_strategy.discover.
    rewrite Hc. cbn [truthy_str]. rewrite (Htruthy cmd Hne). cbv zeta.
    rewrite Hw, Hr, Ha. unfold stdio_strategy.hint. rewrite Hr.
    cbn [negb andb stdio_strategy.try_except stdio_strategy.bind stdio_strategy.ret
         stdio_strategy.raise stdio_strategy.errors_append str_exn
         stdio_strategy.initial stdio_strategy.tools stdio_strategy.errors
         stdio_strategy.warnings stdio_strategy.status stdio_strategy.log
         stdio_strategy.clock app].
    rewrite append_empty_r. reflexivity.
  - intros cmd a msg Hc Hne Hw Ha Hrun Hp.
    unfold stdio_strategy.run, stdio_strategy.discover.
    rewrite Hc. cbn [truthy_str]. rewrite (Htruthy cmd Hne). cbv zeta.
    rewrite Hw, Ha.
    assert (Hg : stdio_strategy.is_runner cmd && negb (truthy_list (Some a)) = false).
    { destruct (stdio_strategy.is_runner cmd); [|reflexivity].
      destruct a as [|x xs]; [|reflexivity]. exfalso. apply Hrun; reflexivity. }
    rewrite Hg. unfold stdio_strategy.popen. rewrite Hp. reflexivity.
  - intros cmd a Hs. unfold stdio_strategy.run.
    destruct (stdio_strategy.discover _ _ _ _ _ _ _ _ _ _ _ _) as [c st] eqn:E.
    cbn [snd].
    destruct (stdio_proofs.discover_spawn _ _ _ _ _ _ _ _ _ _ _ stdio_strategy.initial
                c st eq_refl E)
      as [[_ Hno]|(cmd' & a' & hs & Hs' & Hl & Hf)].
    + exfalso. exact (Hno cmd a Hs).
    + destruct (stdio_proofs.spawnable_unique _ _ _ _ _ _ _ Hs Hs') as [-> ->].
      exists hs. split; assumption.
Qed.

Lemma X17_refusals_before_spawn_witness :
  stdio_strategy.run (fun _ => true) [("PATH", "/usr/bin")] sample_loads
    (fun _ => EmptyString) (fun _ => EmptyString) "2025-09-14T00:00:00" None
    samples.silent_child "s"
    (mk_McpServerConfig (Some "python") None None None None None) 30
  = (stdio_strategy.Normal tt,
     stdio_strategy.mk_state
       []
       ["STDIO discovery failed for s: can only concatenate list (not "
        ++ stdio_strategy.dq ++ "NoneType" ++ stdio_strategy.dq ++ ") to list"]
       [] stdio_strategy.NotStarted [] 0).
Proof.
  pose proof (X17_refusals_before_spawn
                (fun _ => true) [("PATH", "/usr/bin")] sample_loads
                (fun _ => EmptyString) (fun _ => EmptyString) "2025-09-14T00:00:00" None
                samples.silent_child "s"
                (mk_McpServerConfig (Some "python") None None None None None) 30) as H.
  cbv zeta in H. destruct H as (_ & _ & _ & H & _).
  apply (H "python"); try reflexivity. discriminate.
Defined.

(** X18: the conversation of the process strategy with a child follows the
    MCP handshake in order.  Whatever the child does and however the call
    ends, the liveness check, the writes and the reads found in the log
    are, in this order, an initial part of: [poll], write [initialize],
    read a line, write [notifications/initialized], write [tools/list],
    read a line.  So nothing is written before the liveness check,
    [tools/list] is never sent before [initialize] was sent and answered,
    no request is sent twice, and at most two lines are read. *)
Theorem X18_conversation_follows_protocol :
  forall (which : string -> bool) (os_environ : list (string * string))
         (json_loads : string -> json + string) (py_str : json -> string)
         (validation_error : dict -> string) (utcnow : string)
         (deadline : option Z) (the_child : stdio_strategy.child)
         (server_name : string) (server_config : McpServerConfig)
         (timeout_seconds : Z),
    stdio_proofs.prefix_of
      (stdio_proofs.conversation
         (snd (stdio_strategy.run which os_environ json_loads py_str validation_error
                                  utcnow deadline the_child server_name server_config
                                  timeout_seconds)))
      stdio_proofs.protocol.
Proof.
  intros. unfold stdio_strategy.run.
  destruct (stdio_strategy.discover _ _ _ _ _ _ _ _ _ _ _ _) as [c st] eqn:E.
  destruct (stdio_proofs.pre_discover _ _ _ _ _ _ _ _ _ _ _ _ _ _ E) as (evs & Hc & Hp).
  cbn [snd]. rewrite Hc. exact Hp.
Qed.

(** X19: how a server whose process never answers [initialize] is
    reported.  The strategy waits half a second and then at most
    [min(timeout_seconds, 10)] seconds for the answer (30 for [npx]),
    while the service gives the whole discovery [timeout_seconds].  So
    with a request timeout up to that cap the inner wait can never end
    first: the service's own deadline cuts the call and the result is the
    generic discovery-timeout error with transport [unknown]; only with
    a larger timeout does the strategy's own initialization-timeout error
    reach the caller (the clock of the embedding counts the awaits only:
    spawning and cleaning up take no time on it). *)
Theorem X19_unanswered_initialize_report :
  forall (w : container.world) (server_name : string) (server_config : McpServerConfig)
         (timeout_seconds : Z) (include_schemas : bool)
         (cmd : string) (a : list string),
    truthy_str (url server_config) = false ->
    stdio_proofs.spawnable (container.which w) (container.child_of w server_name)
                           server_config cmd a ->
    stdio_proofs.silent_at_init (container.child_of w server_name) timeout_seconds cmd ->
    let result :=
      service._enumerate_server_tools (container.strategies w) server_name server_config
                                      timeout_seconds include_schemas in
    let cap := if cmd =? "npx" then 30%Z else 10%Z in
    ((timeout_seconds <= cap)%Z ->
     result = service.timeout_result server_name server_config timeout_seconds)
    /\ ((cap < timeout_seconds)%Z ->
        ServerEnumerationResult.tools result = []
        /\ ServerEnumerationResult.errors result
           = ["Initialization timeout for " ++ server_name]
        /\ ServerEnumerationResult.warnings result = []
        /\ ServerEnumerationResult.transport_type result = STDIO).
Proof.
  intros w server_name server_config timeout_seconds include_schemas cmd a
         Hurl Hs Hsilent result cap.
  destruct (stdio_proofs.run_init_timeout
              (container.which w) (container.os_environ w) (container.json_loads w)
              (container.py_str w) (container.validation_error w) (container.utcnow w)
              (container.child_of w server_name) server_name server_config
              timeout_seconds cmd a Hs Hsilent)
    as (st & Erun & Ht & He & Hw & Hclock).
  assert (Hcmd : truthy_str (command server_config) = true).
  { destruct Hs as (Hc & Hne & _). rewrite Hc. cbn.
    destruct (cmd =? EmptyString) eqn:E; [|reflexivity].
    apply String.eqb_eq in E. contradiction. }
  assert (Hres :
            result
            = match wait_for
                      (mk_awaitable (Some (stdio_strategy.clock st))
                         (inl (stdio_strategy.tools st, stdio_strategy.errors st,
                               stdio_strategy.warnings st)))
                      timeout_seconds with
              | inl (tools, errors, warnings) =>
                  ServerEnumerationResult.mk
                    server_name STDIO (service._extract_server_url server_config)
                    (command server_config)
                    (if negb include_schemas
                     then map (fun tool => EnumeratedTool.set_input_schema tool None) tools
                     else tools)
                    errors warnings (Some (stdio_strategy.clock st))
              | inr TimeoutError =>
                  service.timeout_result server_name server_config timeout_seconds
              | inr e => service.failure_result server_name server_config e
              end).
  { subst result. unfold service._enumerate_server_tools, service._auto_select_strategy.
    rewrite Hurl, Hcmd. unfold service.subscript. cbn [container.strategies].
    unfold stdio_strategy.StdioToolDiscoveryStrategy. cbn [discover_tools get_transport_type].
    rewrite Erun. reflexivity. }
  rewrite Hres. clear Hres. unfold wait_for. cbn [settles_after_ms yields].
  rewrite Hclock, Ht, He, Hw. unfold stdio_proofs.process_timeout. subst cap.
  split.
  - intro Hle.
    assert (Hlt : (500 + (if (cmd =? "npx")%string then Z.min timeout_seconds 30
                          else Z.min timeout_seconds 10) * 1000
                   <=? timeout_seconds * 1000)%Z = false).
    { apply Z.leb_gt. revert Hle. destruct (cmd =? "npx"); intro; lia. }
    rewrite Hlt. reflexivity.
  - intro Hlt.
    assert (Hle : (500 + (if (cmd =? "npx")%string then Z.min timeout_seconds 30
                          else Z.min timeout_seconds 10) * 1000
                   <=? timeout_seconds * 1000)%Z = true).
    { apply Z.leb_le. revert Hlt. destruct (cmd =? "npx"); intro; lia. }
    rewrite Hle. cbn [ServerEnumerationResult.tools ServerEnumerationResult.errors
                      ServerEnumerationResult.warnings
                      ServerEnumerationResult.transport_type
                      ServerEnumerationResult.discovery_duration_ms].
    repeat split.
    destruct (negb include_schemas); reflexivity.
Qed.

Lemma X19_unanswered_initialize_report_witness :
  service._enumerate_server_tools (container.strategies samples.quiet_world)
                                  "s" python_server 5 true
  = service.timeout_result "s" python_server 5
  /\ ServerEnumerationResult.errors
       (service._enumerate_server_tools (container.strategies samples.quiet_world)
                                        "s" python_server 30 true)
     = ["Initialization timeout for s"].
Proof.
  assert (Hs : stdio_proofs.spawnable (container.which samples.quiet_world)
                 (container.child_of samples.quiet_world "s") python_server
                 "python" ["server.py"]).
  { unfold stdio_proofs.spawnable. repeat split; try reflexivity; discriminate. }
  split.
  - pose proof (X19_unanswered_initialize_report
                  samples.quiet_world "s" python_server 5 true "python" ["server.py"]
                  eq_refl Hs) as H.
    cbv zeta in H. apply H.
    + unfold stdio_proofs.silent_at_init. repeat split.
    + cbn. lia.
  - pose proof (X19_unanswered_initialize_report
                  samples.quiet_world "s" python_server 30 true "python" ["server.py"]
                  eq_refl Hs) as H.
    cbv zeta in H. apply H.
    + unfold stdio_proofs.silent_at_init. repeat split.
    + cbn. lia.
Defined.





(** The decoded entry a descriptor of the process strategy was built
    from. *)
Definition raw_tool_data (tool : EnumeratedTool.t) : json :=
  get (EnumeratedTool.metadata tool) "raw_tool_data".

(** The name of a descriptor that stands at index [i] of the tool list and
    was built from the entry [d]: the entry's own name, or the index. *)
Definition named_after (d : dict) (i : nat) (tool : EnumeratedTool.t) : Prop :=
  match lookup d "name" with
  | Some v => v = JStr (EnumeratedTool.name tool)
  | None => EnumeratedTool.name tool = "unknown_tool_" ++ str_int (Z.of_nat i)
  end.

(** X21: how the process strategy turns the entries of a [tools/list]
    answer into descriptors.  The loop only appends to the tool list and
    leaves errors and warnings alone; the descriptors it adds come, in
    order, from the entries that are objects (other entries are skipped),
    each keeping its entry as [raw_tool_data]; when the loop gets to its
    end there is one descriptor per object, and otherwise it stopped at an
    object pydantic rejects, with that validation error, keeping the
    descriptors made up to there.  A descriptor bears the name of its
    entry, and one made from an entry without a name is called
    [unknown_tool_<i>] where [i] is its index in the tool list (skipped
    entries do not count). *)
Theorem X21_process_tools_follow_the_response :
  forall (validation_error : dict -> string) (utcnow : string)
         (server_name : string) (server_config : McpServerConfig)
         (tools_list : list json) st c st',
    stdio_strategy.convert_tools validation_error utcnow server_name server_config
                                 tools_list st = (c, st') ->
    exists added,
      stdio_strategy.tools st' = (stdio_strategy.tools st ++ added)%list
      /\ stdio_strategy.errors st' = stdio_strategy.errors st
      /\ stdio_strategy.warnings st' = stdio_strategy.warnings st
      /\ stdio_proofs.prefix_of (map raw_tool_data added) (objects tools_list)
      /\ (c = stdio_strategy.Normal tt -> map raw_tool_data added = objects tools_list)
      /\ (c = stdio_strategy.Normal tt
          \/ exists d, In (JObj d) tools_list
                       /\ c = stdio_strategy.Raised (Exception (validation_error d)))
      /\ (forall k tool d,
             nth_error added k = Some tool -> raw_tool_data tool = JObj d ->
             named_after d (List.length (stdio_strategy.tools st) + k) tool).
Proof.
  intros validation_error utcnow server_name server_config tools_list.
  induction tools_list as [|item rest IH]; intros st c st' E.
  - cbn in E. injection E as <- <-. exists []. rewrite app_nil_r.
    repeat split; try reflexivity.
    + apply stdio_proofs.prefix_of_nil.
    + left. reflexivity.
    + intros k tool d H. destruct k; discriminate H.
  - assert (Hskip :
              stdio_strategy.convert_tools validation_error utcnow server_name
                                           server_config rest st = (c, st') ->
              objects (item :: rest) = objects rest ->
              exists added,
                stdio_strategy.tools st' = (stdio_strategy.tools st ++ added)%list
                /\ stdio_strategy.errors st' = stdio_strategy.errors st
                /\ stdio_strategy.warnings st' = stdio_strategy.warnings st
                /\ stdio_proofs.prefix_of (map raw_tool_data added)
                                          (objects (item :: rest))
                /\ (c = stdio_strategy.Normal tt ->
                    map raw_tool_data added = objects (item :: rest))
                /\ (c = stdio_strategy.Normal tt
                    \/ exists d, In (JObj d) (item :: rest)
                                 /\ c = stdio_strategy.Raised
                                          (Exception (validation_error d)))
                /\ (forall k tool d,
                       nth_error added k = Some tool -> raw_tool_data tool = JObj d ->
                       named_after d (List.length (stdio_strategy.tools st) + k) tool)).
    { intros E' Hobj. destruct (IH _ _ _ E') as (added & H1 & H2 & H3 & H4 & H5 & H6 & H7).
      exists added. rewrite Hobj. repeat split; try assumption.
      destruct H6 as [H6|(d & Hin & H6)]; [left; exact H6|right].
      exists d. split; [right; exact Hin|exact H6]. }
    destruct item as [| | | | |d]; try (apply Hskip; [exact E|reflexivity]).
    clear Hskip. cbn [stdio_strategy.convert_tools] in E.
    apply stdio_proofs.bind_kinds in E.
    destruct E as [(s0 & s1 & E0 & E)|(c1 & E0 & Hk & Hn)].
    2: { injection E0 as <- _. rewrite <- Hk in Hn. exfalso. apply Hn. reflexivity. }
    injection E0 as <- <-.
    destruct (pydantic.as_str _) as [name|] eqn:Ename.
    2: { injection E as <- <-. exists []. rewrite app_nil_r.
         repeat split; try reflexivity.
         - apply stdio_proofs.prefix_of_nil.
         - intro H. discriminate H.
         - right. exists d. split; [left; reflexivity|reflexivity].
         - intros k tool d' H. destruct k; discriminate H. }
    destruct (pydantic.as_opt_str _) as [description|] eqn:Edesc.
    2: { injection E as <- <-. exists []. rewrite app_nil_r.
         repeat split; try reflexivity.
         - apply stdio_proofs.prefix_of_nil.
         - intro H. discriminate H.
         - right. exists d. split; [left; reflexivity|reflexivity].
         - intros k tool d' H. destruct k; discriminate H. }
    apply stdio_proofs.bind_kinds in E.
    destruct E as [(u & s1 & E0 & E)|(c1 & E0 & Hk & Hn)].
    2: { injection E0 as <- _. rewrite <- Hk in Hn. exfalso. apply Hn. reflexivity. }
    injection E0 as _ <-.
    destruct (IH _ _ _ E) as (added & H1 & H2 & H3 & H4 & H5 & H6 & H7).
    cbn [stdio_strategy.tools stdio_strategy.errors stdio_strategy.warnings] in H1, H2, H3, H7.
    match type of H1 with
    | _ = ((_ ++ [?T]) ++ _)%list => set (made := T) in *
    end.
    exists (made :: added).
    split; [rewrite H1, <- app_assoc; reflexivity|].
    split; [exact H2|]. split; [exact H3|].
    assert (Hraw : raw_tool_data made = JObj d) by reflexivity.
    split; [|split; [|split]].
    + cbn [map objects filter]. rewrite Hraw.
      destruct H4 as [r Hr]. exists r. cbn. f_equal. exact Hr.
    + intro Hc. cbn [map objects filter]. rewrite Hraw. f_equal. exact (H5 Hc).
    + destruct H6 as [H6|(d' & Hin & H6)]; [left; exact H6|right].
      exists d'. split; [right; exact Hin|exact H6].
    + intros k tool d' Hk Hd. destruct k as [|k].
      * injection Hk as <-. rewrite Hraw in Hd. injection Hd as <-.
        rewrite Nat.add_0_r. unfold named_after.
        unfold get_default in Ename.
        destruct (lookup d "name") as [v|].
        -- destruct v; try discriminate Ename. injection Ename as ->. reflexivity.
        -- injection Ename as <-. reflexivity.
      * cbn [nth_error] in Hk. specialize (H7 k tool d' Hk Hd).
        rewrite length_app in H7. cbn [List.length] in H7.
        replace (List.length (stdio_strategy.tools st) + S k)%nat
          with (List.length (stdio_strategy.tools st) + 1 + k)%nat by lia.
        exact H7.
Qed.

Lemma X21_process_tools_follow_the_response_witness :
  exists added,
    map EnumeratedTool.name added = ["a"; "unknown_tool_1"]
    /\ map raw_tool_data added = [JObj [("name", JStr "a")]; JObj []].
Proof.
  destruct (X21_process_tools_follow_the_response
              (fun _ => EmptyString) "2025-09-14T00:00:00" "s" python_server
              [JObj [("name", JStr "a")]; JStr "x"; JObj []]
              stdio_strategy.initial
              (fst (stdio_strategy.convert_tools
                      (fun _ => EmptyString) "2025-09-14T00:00:00" "s" python_server
                      [JObj [("name", JStr "a")]; JStr "x"; JObj []]
                      stdio_strategy.initial))
              (snd (stdio_strategy.convert_tools
                      (fun _ => EmptyString) "2025-09-14T00:00:00" "s" python_server
                      [JObj [("name", JStr "a")]; JStr "x"; JObj []]
                      stdio_strategy.initial))
              eq_refl)
    as (added & Htools & _ & _ & _ & Hraw & _).
  exists added. cbn in Htools. subst added. split; [reflexivity|].
  apply Hraw. reflexivity.
Defined.

(* ================================================================== *)
(** * C3: parallel and sequential discovery *)
(* ================================================================== *)

(** A child that lives, answers [initialize] after 100 ms with a line that
    is no JSON, and ignores SIGTERM. *)
Definition garbling_child : stdio_strategy.child :=
  stdio_strategy.mk_child None false None (Some (100%Z, "not json")) None None None
                          false false.

(** A world with that child behind every command and a peer that serves
    its tools within a second. *)
Definition stalled_world : container.world :=
  container.mk_world
    "2025-09-14T00:00:00" (fun _ => true) [("PATH", "/usr/bin")] sample_loads
    (fun _ => EmptyString) (fun _ => EmptyString)
    (fun _ => garbling_child) root_only_client (fun _ => Some 1000%Z).

(** A process server and an HTTP server, five seconds for each. *)
Definition two_servers (parallel : bool) : ToolEnumerationRequest.t :=
  ToolEnumerationRequest.mk
    (mk_McpJsonConfig
       [("a", python_server);
        ("b", mk_McpServerConfig None None None (Some "http://x/") None None)])
    5 true parallel.

(** C3 fails when a cleanup blocks the loop.  Server [a] is a process that
    answers [initialize] with a malformed line after 600 ms and then
    ignores SIGTERM, so the [finally] clause of its discovery sits in
    [process.wait(timeout=5)] for five seconds; server [b] is an HTTP peer
    that serves one tool after a second; the request gives each server five
    seconds.  Run one after the other, [a] is reported with its JSON error
    and [b] is connected with its tool.  Run in parallel, [a] is reported
    alike but [b], whose answer arrived while [a] held the loop until after
    [b]'s deadline, is reported with the discovery timeout and no tool: the
    per-server outcomes differ between the modes. *)
Theorem C3_blocking_cleanup_starves_a_sibling :
  let view := fun r => (ServerEnumerationResult.server_name r,
                        map EnumeratedTool.name (ServerEnumerationResult.tools r),
                        ServerEnumerationResult.errors r) in
  let S := container.strategies stalled_world in
  let sequential := service.servers (service.enumerate_servers S (two_servers false)) in
  let parallel := service.servers (service.enumerate_servers S (two_servers true)) in
  ToolEnumerationRequest.valid (two_servers true)
  /\ service.comes_due_ms S "a" python_server 5 = 600%Z
  /\ service.holds_loop_ms S "a" python_server 5 = 5000%Z
  /\ map view sequential
     = [("a", [], ["Invalid JSON response from a: Expecting value: line 1 column 1 (char 0)"]);
        ("b", ["t1"], [])]
  /\ map view parallel
     = [("a", [], ["Invalid JSON response from a: Expecting value: line 1 column 1 (char 0)"]);
        ("b", [], ["Discovery timeout after 5 seconds"])]
  /\ ToolEnumerationResponse.connected_servers
       (container.enumerate_tools stalled_world (two_servers false)) = 1%Z
  /\ ToolEnumerationResponse.connected_servers
       (container.enumerate_tools stalled_world (two_servers true)) = 0%Z.
Proof.
  cbv zeta. split.
  - unfold ToolEnumerationRequest.valid. cbn. lia.
  - vm_compute. repeat split.
Qed.

(** ** When the modes do agree *)







